(** * Competition session engine: start / end handlers, ranking, scoring, throttle

    A shallow embedding of the socket handlers [handleStartCompetition] and
    [handleEndCompetition], of the ranking they perform at the end of a
    competition, and of the scoring formulas and leaderboard throttle that the
    project documents.

    Conventions of the embedding.
    - A JavaScript [Number] that measures something (wpm, accuracy, counters)
      is a rational [Q]; [NaN] and the infinities are outside the model.  An
      array index or a rank is a [Z].  A [Date] is its millisecond count, a [Z].
    - A property that may be absent from an object is an [option]; [x || d]
      is written out by [orZero] / [orFalse].
    - A JavaScript [Map] is the list of its entries in insertion order.
    - An [async] function is cut at its [await]s into segments that run to
      completion; the suspended rest is a [Task] kept in the world, and the
      event loop resumes tasks in any order.
    - The world is the slice of the process that belongs to one competition
      id: its registry entry, its stored document, its timers.  A timer
      callback captures [compData] and [competition]; the registry entry is
      never replaced, so the captured [compData] is the entry itself, and the
      captured [competition] travels with the timer.
    - A timed or word-count document carries its [modeConfig] and a
      [textPool] array, so the synchronous part of the start handler does
      not throw.
    - The handlers for join, progress and disconnect and the caller of a
      manual end are not among the sources.  The former are taken to touch
      the participant map only; the latter to call [handleEndCompetition]
      with the session's [compData] and some [competition] object. *)

From Stdlib Require Import List ZArith QArith Bool String Lia Arith.
From Stdlib Require Import Permutation Sorted.
Import ListNotations.

Local Open Scope Z_scope.

(** ** JavaScript values *)

Definition JsNum := Q.

(** [x || 0] for a property that holds a number or is absent. *)
Definition orZero (x : option JsNum) : JsNum :=
  match x with
  | Some q => if Qeq_bool q 0 then 0%Q else q
  | None => 0%Q
  end.

(** [x || false] for a property that holds a boolean or is absent. *)
Definition orFalse (x : option bool) : bool :=
  match x with
  | Some b => b
  | None => false
  end.

(** ** Data model *)

(** [p.competitionData]: the live counters of one participant.  The object
    written by the start handler has no [typingTime]; other handlers may add
    one, so every property is optional. *)
Record CompetitionData := mkCompetitionData {
  cd_correctChars : option JsNum;
  cd_totalChars : option JsNum;
  cd_wpm : option JsNum;
  cd_accuracy : option JsNum;
  cd_errors : option JsNum;
  cd_backspaces : option JsNum;
  cd_testStartTime : option Z;
  cd_wordsTyped : option JsNum;
  cd_completed : option bool;
  cd_typingTime : option JsNum
}.

(** The empty object [{}] of [p.competitionData || {}]. *)
Definition emptyData : CompetitionData :=
  mkCompetitionData None None None None None None None None None None.

Record Participant := mkParticipant {
  name : string;
  socketId : string;
  competitionData : option CompetitionData
}.

(** One entry of [finalResults]. *)
Record ResultRecord := mkResult {
  participantName : string;
  participantId : string;
  wpm : JsNum;
  accuracy : JsNum;
  correctChars : JsNum;
  totalChars : JsNum;
  incorrectChars : JsNum;
  errors : JsNum;
  backspaces : JsNum;
  rank : Z;
  typingTime : JsNum;
  wordsTyped : JsNum;
  completed : bool
}.

Definition setRank (k : Z) (r : ResultRecord) : ResultRecord :=
  mkResult (participantName r) (participantId r) (wpm r) (accuracy r)
           (correctChars r) (totalChars r) (incorrectChars r) (errors r)
           (backspaces r) k (typingTime r) (wordsTyped r) (completed r).

(** ** Ranking: the body of [handleEndCompetition] between the guard and the save *)

(** The callback of [participantsArray.map]. *)
Definition snapshot (p : Participant) : ResultRecord :=
  let data := match competitionData p with
              | Some d => d
              | None => emptyData
              end in
  mkResult (name p) (socketId p)
           (orZero (cd_wpm data))
           (orZero (cd_accuracy data))
           (orZero (cd_correctChars data))
           (orZero (cd_totalChars data))
           (orZero (cd_errors data))
           (orZero (cd_errors data))
           (orZero (cd_backspaces data))
           0
           (orZero (cd_typingTime data))
           (orZero (cd_wordsTyped data))
           (orFalse (cd_completed data)).

(** The comparator [(a, b) => b.wpm - a.wpm]. *)
Definition compareWpm (a b : ResultRecord) : JsNum := (wpm b - wpm a)%Q.

(** [Array.prototype.sort] is a stable sort: with a consistent comparator its
    result is the one stable arrangement, computed here by insertion.  [x] is
    placed in front of the first element it does not have to follow, that is
    the first [y] with [cmp x y <= 0]. *)
Fixpoint insertBy (cmp : ResultRecord -> ResultRecord -> JsNum)
         (x : ResultRecord) (l : list ResultRecord) : list ResultRecord :=
  match l with
  | [] => [x]
  | y :: l' => if Qle_bool (cmp x y) 0 then x :: y :: l'
               else y :: insertBy cmp x l'
  end.

Definition sortBy (cmp : ResultRecord -> ResultRecord -> JsNum)
           (l : list ResultRecord) : list ResultRecord :=
  fold_right (insertBy cmp) [] l.

(** [finalResults.forEach((result, index) => { result.rank = index + 1 })],
    with [index] counted from [i]. *)
Fixpoint assignRanksFrom (i : Z) (l : list ResultRecord) : list ResultRecord :=
  match l with
  | [] => []
  | r :: l' => setRank (i + 1) r :: assignRanksFrom (i + 1) l'
  end.

Definition assignRanks (l : list ResultRecord) : list ResultRecord :=
  assignRanksFrom 0 l.

(** Sorting and rank assignment together, as applied to [finalResults]. *)
Definition rankResults (l : list ResultRecord) : list ResultRecord :=
  assignRanks (sortBy compareWpm l).

(** [finalResults] as computed from the participants array. *)
Definition computeFinalResults (participantsArray : list Participant)
  : list ResultRecord :=
  rankResults (map snapshot participantsArray).

(** Order of the final results: [a] may stand before [b]. *)
Definition wpmDescending (a b : ResultRecord) : Prop := (wpm b <= wpm a)%Q.

(** The records whose wpm is the number [v]. *)
Definition sameWpm (v : JsNum) (r : ResultRecord) : bool := Qeq_bool (wpm r) v.

(** The object assigned to [p.competitionData] by the reset. *)
Definition freshData (now : Z) : CompetitionData :=
  mkCompetitionData (Some 0%Q) (Some 0%Q) (Some 0%Q) (Some 0%Q) (Some 0%Q)
                    (Some 0%Q) (Some now) (Some 0%Q) (Some false) None.

(** A participant whose counters no progress event has touched: either no
    [competitionData] at all, or the one written by the reset at some start. *)
Definition neverProgressed (p : Participant) : Prop :=
  competitionData p = None \/ exists t, competitionData p = Some (freshData t).

(** ** The session, the stored document and the event loop *)

Inductive Status := StPending | StOngoing | StCompleted.

(** [competition.mode]: ['timed'], ['word-count'], or anything else
    (['rounds'], or absent). *)
Inductive Mode := ModeTimed | ModeWordCount | ModeOther.

Record ModeConfig := mkModeConfig {
  timeLimit : Z;               (* seconds *)
  targetWords : Z;
  textPool : list string
}.

(** One entry of [competition.finalRankings]. *)
Record FinalRanking := mkFinalRanking {
  fr_rank : Z;
  fr_participantName : string;
  fr_averageWpm : JsNum;
  fr_averageAccuracy : JsNum;
  fr_totalRoundsCompleted : Z;
  fr_highestWpm : JsNum;
  fr_lowestWpm : JsNum
}.

(** The Competition document, as much of it as the two handlers read or
    write. *)
Record Competition := mkCompetition {
  status : Status;
  startedAt : option Z;
  completedAt : option Z;
  mode : Mode;
  modeConfig : ModeConfig;
  finalRankings : list FinalRanking
}.

(** [compData]: the registry entry of the session.  An absent
    [competitionInProgress] is falsy and is [false] here. *)
Record CompData := mkCompData {
  competitionInProgress : bool;
  participants : list (string * Participant)
}.

(** The payload of ['competitionStarted'] without its [startTime]. *)
Inductive CompetitionConfig :=
| CfgEmpty
| CfgTimed (limit : Z) (text : option string)
| CfgWordCount (target : Z) (text : option string).

(** The element pushed to [results] of a Participant document. *)
Record ParticipantResult := mkParticipantResult {
  pr_wpm : JsNum;
  pr_accuracy : JsNum;
  pr_correctChars : JsNum;
  pr_totalChars : JsNum;
  pr_errors : JsNum;
  pr_backspaces : JsNum;
  pr_typingTime : JsNum;
  pr_wordsTyped : JsNum;
  pr_completed : bool;
  pr_createdAt : Z
}.

(** What the client sends with ['startCompetition']: the handler reads
    [competitionId] and nothing else of it. *)
Record StartData := mkStartData {
  competitionId : string;
  payloadRest : list (string * Z)
}.

(** Everything the handlers do to the outside, recorded when it is issued. *)
Inductive Effect :=
| SocketEmitError (message : string)
| RoomEmitStarted (cfg : CompetitionConfig) (startTime : Z)
| RoomEmitEnded (finalResults : list ResultRecord) (competitionMode : Mode)
| ConsoleWarn (message : string)
| ConsoleError (message : string)
| DbFindById
| DbFindByIdAndUpdate (st : Status) (startTime : Z)
| DbSave (competition : Competition)
| DbPush (participant : string) (result : ParticipantResult)
| SetTimeout (delayMs : Z)
| LeaderboardCall.

(** A suspended invocation: where it waits and the locals it needs after. *)
Inductive Task :=
| StartAwaitFind (data : StartData)
| StartAwaitUpdate (data : StartData) (competition : Competition)
                   (cfg : CompetitionConfig) (startTime : Z)
| EndAwaitSave (competition : Competition) (participantsArray : list Participant)
               (finalResults : list ResultRecord)
| EndAwaitPush (competition : Competition) (participantsArray : list Participant)
               (finalResults : list ResultRecord)
               (pushed : string * ParticipantResult) (rest : list ResultRecord)
| EndAwaitLeaderboard.

(** The part of the process that the handlers touch for one competition id.
    [clock] and [random] are the readings that [Date] and [Math.random] will
    give, [ticks] and [draws] how many were taken.  [effects] has the most
    recent effect first.  [timers] holds the armed [setTimeout] callbacks with
    the [competition] object each one captured; nothing ever clears one.
    A callback also holds the [compData] object that its start found in the
    registry.  No handler here removes or replaces the registry entry of a
    session, so in every state that the handlers reach that object is the
    entry itself ([armed_timer_has_session]), and [compData] stands for
    both. *)
Record World := mkWorld {
  clock : nat -> Z;
  ticks : nat;
  random : nat -> nat;
  draws : nat;
  dbCompetition : option Competition;
  dbResults : list (string * ParticipantResult);
  compData : option CompData;
  timers : list (Z * Competition);
  tasks : list Task;
  effects : list Effect
}.

Definition setTicks (n : nat) (w : World) : World :=
  mkWorld (clock w) n (random w) (draws w) (dbCompetition w) (dbResults w)
          (compData w) (timers w) (tasks w) (effects w).

Definition setDraws (n : nat) (w : World) : World :=
  mkWorld (clock w) (ticks w) (random w) n (dbCompetition w) (dbResults w)
          (compData w) (timers w) (tasks w) (effects w).

Definition setDbCompetition (c : option Competition) (w : World) : World :=
  mkWorld (clock w) (ticks w) (random w) (draws w) c (dbResults w)
          (compData w) (timers w) (tasks w) (effects w).

Definition setDbResults (r : list (string * ParticipantResult)) (w : World) : World :=
  mkWorld (clock w) (ticks w) (random w) (draws w) (dbCompetition w) r
          (compData w) (timers w) (tasks w) (effects w).

Definition setCompData (cd : option CompData) (w : World) : World :=
  mkWorld (clock w) (ticks w) (random w) (draws w) (dbCompetition w) (dbResults w)
          cd (timers w) (tasks w) (effects w).

Definition setTimers (t : list (Z * Competition)) (w : World) : World :=
  mkWorld (clock w) (ticks w) (random w) (draws w) (dbCompetition w) (dbResults w)
          (compData w) t (tasks w) (effects w).

Definition setTasks (t : list Task) (w : World) : World :=
  mkWorld (clock w) (ticks w) (random w) (draws w) (dbCompetition w) (dbResults w)
          (compData w) (timers w) t (effects w).

Definition logEffect (e : Effect) (w : World) : World :=
  mkWorld (clock w) (ticks w) (random w) (draws w) (dbCompetition w) (dbResults w)
          (compData w) (timers w) (tasks w) (e :: effects w).

Definition suspend (t : Task) (w : World) : World :=
  setTasks (tasks w ++ [t]) w.

(** The list without its [k]-th element. *)
Fixpoint removeNth {A : Type} (k : nat) (l : list A) : list A :=
  match l, k with
  | [], _ => []
  | _ :: l', O => l'
  | x :: l', S k' => x :: removeNth k' l'
  end.

(** [compData.competitionInProgress], falsy when there is no session. *)
Definition inProgress (w : World) : bool :=
  match compData w with
  | Some cd => competitionInProgress cd
  | None => false
  end.

(** ** handleStartCompetition *)

(** [compData.participants.forEach(p => { p.competitionData = {...} })]:
    one [Date.now()] per participant, the first one being reading [t]. *)
Fixpoint resetParticipants (clk : nat -> Z) (t : nat)
         (ps : list (string * Participant)) : list (string * Participant) :=
  match ps with
  | [] => []
  | (k, p) :: ps' =>
      (k, mkParticipant (name p) (socketId p) (Some (freshData (clk t))))
        :: resetParticipants clk (S t) ps'
  end.

(** [competitionConfig]; [r] is the value of
    [Math.floor(Math.random() * textPool.length)]. *)
Definition competitionConfig (c : Competition) (r : nat) : CompetitionConfig :=
  match mode c with
  | ModeTimed =>
      CfgTimed (timeLimit (modeConfig c)) (nth_error (textPool (modeConfig c)) 0)
  | ModeWordCount =>
      CfgWordCount (targetWords (modeConfig c)) (nth_error (textPool (modeConfig c)) r)
  | ModeOther => CfgEmpty
  end.

(** [Math.floor(Math.random() * n)] from the raw draw [d]. *)
Definition randomIndex (d n : nat) : nat :=
  match n with
  | O => O
  | S _ => Nat.modulo d n
  end.

Definition markStarted (startTime : Z) (c : Competition) : Competition :=
  mkCompetition StOngoing (Some startTime) (completedAt c) (mode c)
                (modeConfig c) (finalRankings c).

(** The call itself: up to [await Competition.findById(competitionId)]. *)
Definition handleStartCompetition (data : StartData) (w : World) : World :=
  suspend (StartAwaitFind data) (logEffect DbFindById w).

(** Does the guard of the start handler let the call through in [w]? *)
Definition startPasses (w : World) : bool :=
  match dbCompetition w, compData w with
  | Some _, Some cd => negb (competitionInProgress cd)
  | _, _ => false
  end.

(** From the result of [findById] to [await Competition.findByIdAndUpdate]. *)
Definition startAfterFind (data : StartData) (w : World) : World :=
  match dbCompetition w with
  | None => logEffect (SocketEmitError "Competition not found") w
  | Some competition =>
      match compData w with
      | None => w
      | Some cd =>
          if competitionInProgress cd
          then logEffect
                 (ConsoleWarn ("[RACE_CONDITION] Blocked duplicate startCompetition for "
                               ++ competitionId data)) w
          else
            let startTime := clock w (ticks w) in
            let competition' := markStarted startTime competition in
            let r := randomIndex (random w (draws w))
                                 (List.length (textPool (modeConfig competition))) in
            let cfg := competitionConfig competition' r in
            let usedDraw := match mode competition with
                            | ModeWordCount => 1%nat
                            | _ => 0%nat
                            end in
            let ps := resetParticipants (clock w) (S (ticks w)) (participants cd) in
            suspend (StartAwaitUpdate data competition' cfg startTime)
              (logEffect (DbFindByIdAndUpdate StOngoing startTime)
                (setCompData (Some (mkCompData true ps))
                  (setDraws (draws w + usedDraw)
                    (setTicks (S (ticks w) + List.length (participants cd)) w))))
      end
  end.

(** From the result of [findByIdAndUpdate] to the end of the handler. *)
Definition startAfterUpdate (data : StartData) (competition : Competition)
           (cfg : CompetitionConfig) (startTime : Z) (w : World) : World :=
  let w1 := setDbCompetition (option_map (markStarted startTime) (dbCompetition w)) w in
  let w2 := logEffect (RoomEmitStarted cfg (clock w1 (ticks w1)))
                      (setTicks (S (ticks w1)) w1) in
  match mode competition with
  | ModeTimed =>
      let delay := timeLimit (modeConfig competition) * 1000 in
      logEffect (SetTimeout delay) (setTimers (timers w2 ++ [(delay, competition)]) w2)
  | _ => w2
  end.

(** The [catch] of the start handler. *)
Definition startCatch (w : World) : World :=
  logEffect (SocketEmitError "Failed to start competition")
            (logEffect (ConsoleError "Start competition error") w).

(** ** handleEndCompetition *)

(** One element of [competition.finalRankings]. *)
Definition toFinalRanking (r : ResultRecord) : FinalRanking :=
  mkFinalRanking (rank r) (participantName r) (wpm r) (accuracy r) 1 (wpm r) (wpm r).

Definition markCompleted (endTime : Z) (finalResults : list ResultRecord)
           (c : Competition) : Competition :=
  mkCompetition StCompleted (startedAt c) (Some endTime) (mode c) (modeConfig c)
                (map toFinalRanking finalResults).

(** The object pushed for one result; [createdAt] is its [new Date()]. *)
Definition toParticipantResult (r : ResultRecord) (createdAt : Z) : ParticipantResult :=
  mkParticipantResult (wpm r) (accuracy r) (correctChars r) (totalChars r)
                      (errors r) (backspaces r) (typingTime r) (wordsTyped r)
                      (completed r) createdAt.

(** The call itself: the guard, the snapshot, the ranking and the in-memory
    update of [competition], up to [await competition.save()].  Both the
    manual trigger and the timer callback enter here. *)
Definition handleEndCompetition (competition : Competition) (w : World) : World :=
  match compData w with
  | None => w
  | Some cd =>
      if negb (competitionInProgress cd) then w
      else
        let endTime := clock w (ticks w) in
        let participantsArray := map snd (participants cd) in
        let finalResults := computeFinalResults participantsArray in
        let competition' := markCompleted endTime finalResults competition in
        suspend (EndAwaitSave competition' participantsArray finalResults)
          (logEffect (DbSave competition')
            (setCompData (Some (mkCompData false (participants cd)))
              (setTicks (S (ticks w)) w)))
  end.

(** The [for (const result of finalResults)] loop from [rest] on, then the
    broadcast and the leaderboard call.  It runs until the next [await]: a
    [findOneAndUpdate] for the first result whose participant is found, or
    [updateAndBroadcastLeaderboard] when no result is left. *)
Fixpoint endLoop (competition : Competition) (participantsArray : list Participant)
         (finalResults rest : list ResultRecord) (w : World) : World :=
  match rest with
  | [] =>
      suspend EndAwaitLeaderboard
        (logEffect LeaderboardCall
          (logEffect (RoomEmitEnded finalResults (mode competition)) w))
  | result :: rest' =>
      match find (fun p => String.eqb (socketId p) (participantId result))
                 participantsArray with
      | Some _ =>
          let pushed := (participantId result,
                         toParticipantResult result (clock w (ticks w))) in
          suspend (EndAwaitPush competition participantsArray finalResults pushed rest')
            (logEffect (DbPush (fst pushed) (snd pushed))
              (setTicks (S (ticks w)) w))
      | None => endLoop competition participantsArray finalResults rest' w
      end
  end.

(** The [catch] of the end handler. *)
Definition endCatch (w : World) : World :=
  logEffect (ConsoleError "End competition error") w.

(** ** The event loop *)

(** Continue a suspended invocation whose awaited promise was fulfilled
    ([ok = true]) or rejected. *)
Definition resume (t : Task) (ok : bool) (w : World) : World :=
  match t with
  | StartAwaitFind data =>
      if ok then startAfterFind data w else startCatch w
  | StartAwaitUpdate data competition cfg startTime =>
      if ok then startAfterUpdate data competition cfg startTime w else startCatch w
  | EndAwaitSave competition participantsArray finalResults =>
      if ok
      then endLoop competition participantsArray finalResults finalResults
                   (setDbCompetition (Some competition) w)
      else endCatch w
  | EndAwaitPush competition participantsArray finalResults pushed rest =>
      if ok
      then endLoop competition participantsArray finalResults rest
                   (setDbResults (dbResults w ++ [pushed]) w)
      else endCatch w
  | EndAwaitLeaderboard =>
      if ok then w else endCatch w
  end.

(** What the event loop delivers.  A manual end is taken to be called with
    the registry entry of the session, like the timer callback. *)
Inductive Event :=
| EvStart (data : StartData)            (* 'startCompetition' arrives *)
| EvEnd (competition : Competition)     (* a manual end calls the end handler *)
| EvTimer (k : nat)                     (* the k-th armed timer fires *)
| EvResume (k : nat) (ok : bool)        (* the promise of the k-th task settles *)
| EvParticipants (ps : list (string * Participant)).
                                        (* join, progress and disconnect handlers *)

Definition step (e : Event) (w : World) : World :=
  match e with
  | EvStart data => handleStartCompetition data w
  | EvEnd competition => handleEndCompetition competition w
  | EvTimer k =>
      match nth_error (timers w) k with
      | Some (_, competition) =>
          handleEndCompetition competition (setTimers (removeNth k (timers w)) w)
      | None => w
      end
  | EvResume k ok =>
      match nth_error (tasks w) k with
      | Some t => resume t ok (setTasks (removeNth k (tasks w)) w)
      | None => w
      end
  | EvParticipants ps =>
      match compData w with
      | Some cd => setCompData (Some (mkCompData (competitionInProgress cd) ps)) w
      | None => w
      end
  end.

Definition run (evs : list Event) (w : World) : World :=
  fold_left (fun w e => step e w) evs w.

(** A world in which nothing has happened yet. *)
Definition Initial (w : World) : Prop :=
  inProgress w = false /\ tasks w = [] /\ timers w = [] /\ effects w = [].

Inductive Reachable : World -> Prop :=
| reach_init : forall w, Initial w -> Reachable w
| reach_step : forall w e, Reachable w -> Reachable (step e w).

(** ** Observations on a world *)

(** A start got past its guard exactly when it issued [findByIdAndUpdate];
    an end got past its guard exactly when it issued [competition.save()]. *)
Definition isStartAccepted (e : Effect) : bool :=
  match e with DbFindByIdAndUpdate _ _ => true | _ => false end.

Definition isFinalization (e : Effect) : bool :=
  match e with DbSave _ => true | _ => false end.

Definition isRoomEmitEnded (e : Effect) : bool :=
  match e with RoomEmitEnded _ _ => true | _ => false end.

Definition isSocketEmit (e : Effect) : bool :=
  match e with SocketEmitError _ => true | _ => false end.

Definition acceptedStarts (w : World) : nat :=
  List.length (filter isStartAccepted (effects w)).

Definition finalizations (w : World) : nat :=
  List.length (filter isFinalization (effects w)).

Inductive Transition := TrStart | TrEnd.

(** The most recent lifecycle transition that got past its guard. *)
Fixpoint lastTransition (l : list Effect) : option Transition :=
  match l with
  | [] => None
  | DbFindByIdAndUpdate _ _ :: _ => Some TrStart
  | DbSave _ :: _ => Some TrEnd
  | _ :: l' => lastTransition l'
  end.

(** Invocations of either handler that are suspended at an [await]. *)
Definition inFlight (w : World) : nat := List.length (tasks w).

Definition isStartAwaitFind (t : Task) : bool :=
  match t with StartAwaitFind _ => true | _ => false end.

Definition isEndTrigger (e : Event) : bool :=
  match e with EvEnd _ | EvTimer _ => true | _ => false end.

Definition noEndTrigger (evs : list Event) : bool :=
  forallb (fun e => negb (isEndTrigger e)) evs.

(** An end trigger that really calls the end handler: a manual end, or the
    firing of a timer that is armed. *)
Definition callsEnd (w : World) (e : Event) : bool :=
  match e with
  | EvEnd _ => true
  | EvTimer k => (k <? List.length (timers w))%nat
  | _ => false
  end.

Definition isTransition (e : Effect) : bool :=
  isStartAccepted e || isFinalization e.

Definition quiet (q : list Effect) : bool :=
  forallb (fun e => negb (isTransition e)) q.

(** What one step of the event loop can do to the guard flag and to the
    record of transitions: nothing ([DQuiet]), let a start through
    ([DStart]), or let an end through ([DEnd]). *)
Inductive Delta (e : Event) (w w' : World) : Prop :=
| DQuiet (q : list Effect) :
    quiet q = true ->
    effects w' = q ++ effects w ->
    inProgress w' = inProgress w ->
    Delta e w w'
| DStart (st : Status) (t : Z) (k : nat) (d : StartData) :
    inProgress w = false ->
    inProgress w' = true ->
    effects w' = DbFindByIdAndUpdate st t :: effects w ->
    e = EvResume k true ->
    nth_error (tasks w) k = Some (StartAwaitFind d) ->
    Delta e w w'
| DEnd (c : Competition) :
    inProgress w = true ->
    inProgress w' = false ->
    effects w' = DbSave c :: effects w ->
    isEndTrigger e = true ->
    status c = StCompleted ->
    Delta e w w'.

(** The flag as the record of transitions predicts it. *)
Definition flagOf (l : list Effect) : bool :=
  match lastTransition l with
  | Some TrStart => true
  | _ => false
  end.

(** ** Leaderboard throttle *)

(** The broadcaster state of one session: [compData.lastLeaderboardUpdate]
    and the instants at which a leaderboard was emitted, latest first. *)
Record Broadcaster := mkBroadcaster {
  lastLeaderboardUpdate : option Z;
  leaderboardEmissions : list Z
}.

Definition initialBroadcaster : Broadcaster := mkBroadcaster None [].

(** Modelled from the spec: [updateAndBroadcastLeaderboard] is defined in
    utils/leaderboard, which is not among the sources.  The spec (4.6) has it
    recompute the leaderboard, emit it to every subscriber of the session and
    then set the time of the last broadcast to now. *)
Definition updateAndBroadcastLeaderboard (now : Z) (b : Broadcaster) : Broadcaster :=
  mkBroadcaster (Some now) (now :: leaderboardEmissions b).

(** [!compData.lastLeaderboardUpdate]: absent, or the number 0. *)
Definition neverBroadcast (last : option Z) : bool :=
  match last with
  | None => true
  | Some t => t =? 0
  end.

(** [Date.now() - compData.lastLeaderboardUpdate > 1000]. *)
Definition intervalElapsed (now : Z) (last : option Z) : bool :=
  match last with
  | None => false
  | Some t => 1000 <? now - t
  end.

(** The documented guard around the leaderboard update, run for a progress
    notification handled at [now]. *)
Definition notifyProgress (now : Z) (b : Broadcaster) : Broadcaster :=
  if neverBroadcast (lastLeaderboardUpdate b)
     || intervalElapsed now (lastLeaderboardUpdate b)
  then updateAndBroadcastLeaderboard now b
  else b.

Definition notifyAll (times : list Z) (b : Broadcaster) : Broadcaster :=
  fold_left (fun b now => notifyProgress now b) times b.

(** More than the interval lies between an emission and an earlier one. *)
Definition gapElapsed (later earlier : Z) : Prop := 1000 < later - earlier.

(** What the guard maintains: the emissions are more than the interval
    apart, the recorded time is that of the latest one, and all are readings
    of the clock. *)
Definition throttled (b : Broadcaster) : Prop :=
  StronglySorted gapElapsed (leaderboardEmissions b)
  /\ lastLeaderboardUpdate b = hd_error (leaderboardEmissions b)
  /\ Forall (fun t => 0 < t) (leaderboardEmissions b).

(** Two emissions fall in one window when less than 1000 ms separate them. *)
Definition sameWindow (t1 t2 : Z) : Prop := Z.abs (t1 - t2) < 1000.

(** ** Scoring *)

Definition Qgt_bool (x y : Q) : bool := negb (Qle_bool x y).

(** Modelled from the spec: the scoring calculator belongs to the progress
    handler, which is not among the sources; only its documentation is.  The
    formulas are those of the spec (4.3) and of the project's WPM section:
    words are five correct characters, time is in minutes. *)
Definition elapsedMinutes (elapsedSeconds : Q) : Q := (elapsedSeconds / 60)%Q.

Definition calculateWpm (correctChars elapsedSeconds : Q) : Q :=
  ((correctChars / 5) / elapsedMinutes elapsedSeconds)%Q.

Definition calculateAccuracy (correctChars totalChars : Q) : Q :=
  if Qgt_bool totalChars 0 then ((correctChars / totalChars) * 100)%Q else 0%Q.

(** ** A small session used to evaluate the handlers *)

Definition alice : Participant := mkParticipant "alice" "s1" None.

Definition bob : Participant :=
  mkParticipant "bob" "s2"
    (Some (mkCompetitionData (Some 400%Q) (Some 410%Q) (Some 80%Q) (Some (4000 # 41))
                             (Some 10%Q) (Some 2%Q) (Some 5) (Some 80%Q)
                             (Some false) None)).

Definition carol : Participant :=
  mkParticipant "carol" "s3"
    (Some (mkCompetitionData (Some 400%Q) (Some 400%Q) (Some 80%Q) (Some 100%Q)
                             (Some 0%Q) (Some 0%Q) (Some 5) (Some 80%Q)
                             (Some true) (Some 60%Q))).

Definition demoCompetition : Competition :=
  mkCompetition StPending None None ModeTimed
                (mkModeConfig 60 0 ["the quick brown fox"%string]) [].

Definition demoClock (n : nat) : Z := 1700000000000 + Z.of_nat n.

(** A registered session with three participants, a pending timed
    competition in the store, and nothing else. *)
Definition demoWorld : World :=
  mkWorld demoClock 0 (fun _ => 0%nat) 0 (Some demoCompetition) []
          (Some (mkCompData false [("s1"%string, alice); ("s2"%string, bob);
                                   ("s3"%string, carol)]))
          [] [] [].

Definition demoData : StartData :=
  mkStartData "c1" [("startTime"%string, 12345)].

(** The session after a start that ran to its end: running, timer armed,
    nothing in flight. *)
Definition demoRunning : World :=
  run [EvStart demoData; EvResume 0 true; EvResume 0 true] demoWorld.

(** ... then ended by hand, the save not yet settled. *)
Definition demoEnding : World := step (EvEnd demoCompetition) demoRunning.

(** ... and with the whole end carried through. *)
Definition demoEnded : World :=
  run [EvResume 0 true; EvResume 0 true; EvResume 0 true; EvResume 0 true;
       EvResume 0 true] demoEnding.

(** ... or with the save rejected by the store. *)
Definition demoSaveFailed : World := step (EvResume 0 false) demoEnding.

(** The running session after a progress round: alice joined late and has
    no counters, bob and carol are tied at 80 wpm. *)
Definition demoTyped : World :=
  step (EvParticipants [("s1"%string, alice); ("s2"%string, bob);
                        ("s3"%string, carol)]) demoRunning.

Definition demoTypedData : CompData :=
  mkCompData true [("s1"%string, alice); ("s2"%string, bob); ("s3"%string, carol)].

(** The ended session started a second time; the timer of the first run is
    still armed in front of the new one. *)
Definition demoRestarted : World :=
  run [EvStart demoData; EvResume 0 true; EvResume 0 true] demoEnded.

(** ** Further observations on the handlers *)

(** The arguments of the [findOneAndUpdate] calls that the end handler makes
    for the results [l], the [new Date()] of the first being reading [t]. *)
Fixpoint pushesFrom (clk : nat -> Z) (t : nat) (l : list ResultRecord)
  : list (string * ParticipantResult) :=
  match l with
  | [] => []
  | r :: l' => (participantId r, toParticipantResult r (clk t)) :: pushesFrom clk (S t) l'
  end.

Definition pushEffect (x : string * ParticipantResult) : Effect :=
  DbPush (fst x) (snd x).

(** Is [participantsArray.find(p => p.socketId === result.participantId)]
    something? *)
Definition participantFound (participantsArray : list Participant)
           (result : ResultRecord) : bool :=
  match find (fun p => String.eqb (socketId p) (participantId result))
             participantsArray with
  | Some _ => true
  | None => false
  end.

Definition isEndTask (t : Task) : bool :=
  match t with
  | EndAwaitSave _ _ _ | EndAwaitPush _ _ _ _ _ | EndAwaitLeaderboard => true
  | _ => false
  end.

(** The effects of a start that does not get as far as its guard: the
    lookup of the document, the error sent to the requesting socket, and the
    log of the handler's [catch]. *)
Definition isLookupOrError (e : Effect) : bool :=
  match e with
  | DbFindById | SocketEmitError _ | ConsoleError _ => true
  | _ => false
  end.

(** What holds of a competition id for which no session was ever registered:
    nothing is armed, only starts wait (for their lookup), and nothing was
    done but lookups and error reports. *)
Definition unregistered (w : World) : Prop :=
  compData w = None
  /\ timers w = []
  /\ forallb isStartAwaitFind (tasks w) = true
  /\ forallb isLookupOrError (effects w) = true.

(** A clock that never runs backwards. *)
Definition monotoneClock (clk : nat -> Z) : Prop :=
  forall a b, (a <= b)%nat -> clk a <= clk b.

Definition testStartTimes (w : World) : list (option Z) :=
  match compData w with
  | Some cd =>
      map (fun kp => match competitionData (snd kp) with
                     | Some d => cd_testStartTime d
                     | None => None
                     end) (participants cd)
  | None => []
  end.

(** ** NetworkManager (public/network-manager.js)

    The page-side manager of the connection state.  What it shows and calls
    is recorded in [pageLog], latest first.  A notification is recorded with
    the call that produced it, the interpolated values as arguments; the DOM
    element and its removal timers are not modelled.  A registered callback
    is represented by whether it throws on the given arguments; callbacks and
    the retried operation are taken not to call back into the manager.  The
    function [retryOperation] is a call that runs with nothing in between;
    [pageStep] further down is the event loop, in which online and offline
    events and other calls arrive while a call is suspended. *)

Inductive ConnectionStatus := Connecting | Connected | Disconnected | Reconnecting.

Inductive Notice :=
| NoteBackOnline
| NoteOffline
| NoteFailedAfter (context : string) (limit : nat)
| NoteCannotRetryOffline
| NoteRetrying (context : string) (attempt limit : nat)
| NoteSuccessful (context : string)
| NoteSocketNetwork
| NoteSocketLost
| NoteReconnected
| NoteReconnectFailed.

Inductive PageEffect :=
| ShowNotification (n : Notice)
| StatusCallbackCalled (i : nat) (st : ConnectionStatus) (online : bool)
| ErrorCallbackCalled (i : nat) (context : string)
| PageConsoleError (message : string)
| PageConsoleLog (message : string)
| OperationCalled (n : nat)
| Waited (ms : Z).

Record NetworkManager := mkNetworkManager {
  isOnline : bool;
  connectionStatus : ConnectionStatus;
  retryAttempts : nat;
  maxRetries : nat;
  statusCallbacks : list (ConnectionStatus -> bool -> bool);
  errorCallbacks : list (string -> bool);
  pageLog : list PageEffect
}.

Definition setOnline (b : bool) (nm : NetworkManager) : NetworkManager :=
  mkNetworkManager b (connectionStatus nm) (retryAttempts nm) (maxRetries nm)
                   (statusCallbacks nm) (errorCallbacks nm) (pageLog nm).

Definition setConnectionStatus (st : ConnectionStatus) (nm : NetworkManager)
  : NetworkManager :=
  mkNetworkManager (isOnline nm) st (retryAttempts nm) (maxRetries nm)
                   (statusCallbacks nm) (errorCallbacks nm) (pageLog nm).

Definition setRetryAttempts (n : nat) (nm : NetworkManager) : NetworkManager :=
  mkNetworkManager (isOnline nm) (connectionStatus nm) n (maxRetries nm)
                   (statusCallbacks nm) (errorCallbacks nm) (pageLog nm).

Definition setPageLog (l : list PageEffect) (nm : NetworkManager) : NetworkManager :=
  mkNetworkManager (isOnline nm) (connectionStatus nm) (retryAttempts nm)
                   (maxRetries nm) (statusCallbacks nm) (errorCallbacks nm) l.

Definition pageDo (e : PageEffect) (nm : NetworkManager) : NetworkManager :=
  setPageLog (e :: pageLog nm) nm.

(** [onStatusChange(callback)] and [onError(callback)]. *)
Definition onStatusChange (cb : ConnectionStatus -> bool -> bool)
           (nm : NetworkManager) : NetworkManager :=
  mkNetworkManager (isOnline nm) (connectionStatus nm) (retryAttempts nm)
                   (maxRetries nm) (statusCallbacks nm ++ [cb]) (errorCallbacks nm)
                   (pageLog nm).

Definition onError (cb : string -> bool) (nm : NetworkManager) : NetworkManager :=
  mkNetworkManager (isOnline nm) (connectionStatus nm) (retryAttempts nm)
                   (maxRetries nm) (statusCallbacks nm) (errorCallbacks nm ++ [cb])
                   (pageLog nm).

Definition showNotification (n : Notice) (nm : NetworkManager) : NetworkManager :=
  pageDo (ShowNotification n) nm.

(** The [forEach] of [notifyStatusChange] from callback number [i] on: each
    callback is called inside its own [try]. *)
Fixpoint callStatusCallbacks (i : nat) (cbs : list (ConnectionStatus -> bool -> bool))
         (st : ConnectionStatus) (online : bool) (log : list PageEffect)
  : list PageEffect :=
  match cbs with
  | [] => log
  | cb :: cbs' =>
      let log1 := StatusCallbackCalled i st online :: log in
      callStatusCallbacks (S i) cbs' st online
        (if cb st online
         then PageConsoleError "Error in status callback:" :: log1
         else log1)
  end.

Definition notifyStatusChange (nm : NetworkManager) : NetworkManager :=
  setPageLog (callStatusCallbacks 0 (statusCallbacks nm) (connectionStatus nm)
                                  (isOnline nm) (pageLog nm)) nm.

Fixpoint callErrorCallbacks (i : nat) (cbs : list (string -> bool))
         (context : string) (log : list PageEffect) : list PageEffect :=
  match cbs with
  | [] => log
  | cb :: cbs' =>
      let log1 := ErrorCallbackCalled i context :: log in
      callErrorCallbacks (S i) cbs' context
        (if cb context
         then PageConsoleError "Error in error callback:" :: log1
         else log1)
  end.

Definition notifyError (context : string) (nm : NetworkManager) : NetworkManager :=
  setPageLog (callErrorCallbacks 0 (errorCallbacks nm) context (pageLog nm)) nm.

Definition updateConnectionStatus (nm : NetworkManager) : NetworkManager :=
  if negb (isOnline nm)
  then setConnectionStatus Disconnected nm
  else notifyStatusChange (setRetryAttempts 0 (setConnectionStatus Connected nm)).

Definition handleOnline (nm : NetworkManager) : NetworkManager :=
  updateConnectionStatus
    (showNotification NoteBackOnline
       (pageDo (PageConsoleLog "Network: Online detected") nm)).

Definition handleOffline (nm : NetworkManager) : NetworkManager :=
  notifyStatusChange
    (showNotification NoteOffline
       (setConnectionStatus Disconnected
          (pageDo (PageConsoleLog "Network: Offline detected") nm))).

(** The listeners installed by [init] for the window's events. *)
Definition onlineEvent (nm : NetworkManager) : NetworkManager :=
  handleOnline (setOnline true nm).

Definition offlineEvent (nm : NetworkManager) : NetworkManager :=
  handleOffline (setOnline false nm).

(** [new NetworkManager()], with the value of [navigator.onLine]. *)
Definition newNetworkManager (navigatorOnLine : bool) : NetworkManager :=
  updateConnectionStatus (mkNetworkManager navigatorOnLine Connecting 0 3 [] [] []).

(** [Math.min(1000 * Math.pow(2, this.retryAttempts - 1), 5000)]. *)
Definition backoffDelay (attempts : nat) : Z :=
  Z.min (1000 * 2 ^ (Z.of_nat attempts - 1)) 5000.

(** [retryOperation(operation, context)], for a call that runs with
    nothing in between: no listener of the window's events and no other call
    runs while it awaits the operation or pauses (the event loop that allows
    them is [pageStep] below).  [operation n] is what the invocation number
    [n] of the operation gives: a value, or [None] when it throws; [calls]
    counts the invocations made.  The result is the value returned, [None]
    standing for [false].  The recursion of the source is bounded by [fuel];
    [S (maxRetries - retryAttempts)] is enough. *)
Fixpoint retryOperation {A : Type} (fuel : nat) (operation : nat -> option A)
         (context : string) (calls : nat) (nm : NetworkManager)
  : option (option A * nat * NetworkManager) :=
  match fuel with
  | O => None
  | S fuel' =>
      if (maxRetries nm <=? retryAttempts nm)%nat
      then Some (None, calls,
                 showNotification (NoteFailedAfter context (maxRetries nm)) nm)
      else if negb (isOnline nm)
      then Some (None, calls, showNotification NoteCannotRetryOffline nm)
      else
        let nm1 := setRetryAttempts (S (retryAttempts nm)) nm in
        let nm2 := showNotification
                     (NoteRetrying context (retryAttempts nm1) (maxRetries nm1)) nm1 in
        let nm3 := pageDo (OperationCalled calls) nm2 in
        match operation calls with
        | Some result =>
            Some (Some result, S calls,
                  showNotification (NoteSuccessful context) (setRetryAttempts 0 nm3))
        | None =>
            let nm4 := pageDo (PageConsoleError "Retry attempt failed") nm3 in
            if (maxRetries nm4 <=? retryAttempts nm4)%nat
            then Some (None, S calls,
                       showNotification (NoteFailedAfter context (maxRetries nm4))
                                        (notifyError context nm4))
            else
              retryOperation fuel' operation context (S calls)
                             (pageDo (Waited (backoffDelay (retryAttempts nm4))) nm4)
        end
  end.

(** The manager after a failed attempt and the pause that follows it. *)
Definition afterPause (context : string) (calls : nat) (nm : NetworkManager)
  : NetworkManager :=
  pageDo (Waited (backoffDelay (S (retryAttempts nm))))
    (pageDo (PageConsoleError "Retry attempt failed")
       (pageDo (OperationCalled calls)
          (showNotification
             (NoteRetrying context (S (retryAttempts nm)) (maxRetries nm))
             (setRetryAttempts (S (retryAttempts nm)) nm)))).

(** The listeners that [handleWebSocketError] has put on a socket; they are
    all alike, so their number is all there is to know. *)
Record Socket := mkSocket {
  reconnectListeners : nat;
  reconnectErrorListeners : nat
}.

Definition handleWebSocketError (nm : NetworkManager) (socket : Socket)
  : NetworkManager * Socket :=
  let nm1 := pageDo (PageConsoleError "WebSocket error:") nm in
  let nm2 := if negb (isOnline nm1)
             then showNotification NoteSocketNetwork nm1
             else showNotification NoteSocketLost nm1 in
  (notifyStatusChange (setConnectionStatus Reconnecting nm2),
   mkSocket (S (reconnectListeners socket)) (S (reconnectErrorListeners socket))).

(** One listener for ['reconnect'], and the socket emitting that event. *)
Definition reconnectListener (nm : NetworkManager) : NetworkManager :=
  notifyStatusChange
    (showNotification NoteReconnected (setConnectionStatus Connected nm)).

Definition reconnectEvent (socket : Socket) (nm : NetworkManager) : NetworkManager :=
  Nat.iter (reconnectListeners socket) reconnectListener nm.

Definition reconnectErrorListener (nm : NetworkManager) : NetworkManager :=
  notifyStatusChange
    (showNotification NoteReconnectFailed (setConnectionStatus Disconnected nm)).

Definition reconnectErrorEvent (socket : Socket) (nm : NetworkManager)
  : NetworkManager :=
  Nat.iter (reconnectErrorListeners socket) reconnectErrorListener nm.

(** Observations on the page log. *)
Definition isOperationCalled (e : PageEffect) : bool :=
  match e with OperationCalled _ => true | _ => false end.

Definition isPageConsoleError (e : PageEffect) : bool :=
  match e with PageConsoleError _ => true | _ => false end.

Definition isStatusCallbackCalled (e : PageEffect) : bool :=
  match e with StatusCallbackCalled _ _ _ => true | _ => false end.

Definition isReconnectedNotice (e : PageEffect) : bool :=
  match e with ShowNotification NoteReconnected => true | _ => false end.

(** [n] WebSocket errors handled in a row on the same socket. *)
Definition webSocketErrors (n : nat) (nm : NetworkManager) (socket : Socket)
  : NetworkManager * Socket :=
  Nat.iter n (fun x => handleWebSocketError (fst x) (snd x)) (nm, socket).

Definition waitsOf (log : list PageEffect) : list Z :=
  flat_map (fun e => match e with Waited d => [d] | _ => [] end) log.

Definition statusCallsOf (log : list PageEffect) : list nat :=
  flat_map (fun e => match e with StatusCallbackCalled i _ _ => [i] | _ => [] end) log.

Definition alwaysFails {A : Type} (n : nat) : option A := None.

(** ** retryOperation in the page's event loop

    [retryOperation] is an async function.  It is suspended while the promise
    of [operation()] is pending and during the pause between two attempts,
    and in both places the listeners of the window's events and other calls
    of [retryOperation] may run: they share [retryAttempts] and [isOnline]
    with the suspended call.  The function is cut at its two [await]s; what
    the operation gives comes with the event that settles its promise. *)

(** [Math.min(1000 * Math.pow(2, this.retryAttempts - 1), 5000)] as the
    [catch] computes it.  The counter can be 0 there, when an online event
    or a success of another call reset it while the operation was pending;
    [Math.pow(2, -1)] is 0.5. *)
Definition pauseDelay (attempts : nat) : Z :=
  match attempts with
  | O => 500
  | S _ => backoffDelay attempts
  end.

(** A suspended call of [retryOperation]: at [await operation()], or at the
    [await] of the pause. *)
Inductive RetryTask :=
| RetryAwaitOperation (context : string)
| RetryAwaitPause (context : string).

(** The page: the manager, the suspended calls, the number of invocations of
    an operation made so far, and what the finished calls returned, in the
    order in which they finished ([None] standing for [false]). *)
Record Page (A : Type) := mkPage {
  manager : NetworkManager;
  retryTasks : list RetryTask;
  invoked : nat;
  returned : list (option A)
}.

Arguments mkPage {A}.
Arguments manager {A}.
Arguments retryTasks {A}.
Arguments invoked {A}.
Arguments returned {A}.

Inductive PageEvent (A : Type) :=
| PgRetry (context : string)            (* retryOperation(operation, context) is called *)
| PgSettle (k : nat) (result : option A)
                                        (* the operation awaited by task k returns or throws *)
| PgPauseOver (k : nat)                 (* the pause of task k is over *)
| PgOnline                              (* the window's 'online' event *)
| PgOffline.                            (* the window's 'offline' event *)

Arguments PgRetry {A}.
Arguments PgSettle {A}.
Arguments PgPauseOver {A}.
Arguments PgOnline {A}.
Arguments PgOffline {A}.

Section PageLoop.

Context {A : Type}.

Definition setManager (nm : NetworkManager) (p : Page A) : Page A :=
  mkPage nm (retryTasks p) (invoked p) (returned p).

Definition setRetryTasks (t : list RetryTask) (p : Page A) : Page A :=
  mkPage (manager p) t (invoked p) (returned p).

Definition retryReturn (result : option A) (p : Page A) : Page A :=
  mkPage (manager p) (retryTasks p) (invoked p) (returned p ++ [result]).

(** From the entry of [retryOperation] to [await operation()]: the two
    guards, the increment, and the invocation of the operation. *)
Definition retryEnter (context : string) (p : Page A) : Page A :=
  let nm := manager p in
  if (maxRetries nm <=? retryAttempts nm)%nat
  then retryReturn None
         (setManager (showNotification (NoteFailedAfter context (maxRetries nm)) nm) p)
  else if negb (isOnline nm)
  then retryReturn None (setManager (showNotification NoteCannotRetryOffline nm) p)
  else
    let nm1 := setRetryAttempts (S (retryAttempts nm)) nm in
    let nm2 := showNotification
                 (NoteRetrying context (retryAttempts nm1) (maxRetries nm1)) nm1 in
    let nm3 := pageDo (OperationCalled (invoked p)) nm2 in
    mkPage nm3 (retryTasks p ++ [RetryAwaitOperation context]) (S (invoked p))
           (returned p).

(** From the settling of the operation's promise to the return, or to the
    [await] of the pause. *)
Definition retrySettled (context : string) (result : option A) (p : Page A)
  : Page A :=
  let nm := manager p in
  match result with
  | Some v =>
      retryReturn (Some v)
        (setManager (showNotification (NoteSuccessful context) (setRetryAttempts 0 nm)) p)
  | None =>
      let nm4 := pageDo (PageConsoleError "Retry attempt failed") nm in
      if (maxRetries nm4 <=? retryAttempts nm4)%nat
      then retryReturn None
             (setManager (showNotification (NoteFailedAfter context (maxRetries nm4))
                                           (notifyError context nm4)) p)
      else
        mkPage (pageDo (Waited (pauseDelay (retryAttempts nm4))) nm4)
               (retryTasks p ++ [RetryAwaitPause context]) (invoked p) (returned p)
  end.

(** One turn of the page's event loop.  After the pause the call goes on
    with [return this.retryOperation(operation, context)]. *)
Definition pageStep (e : PageEvent A) (p : Page A) : Page A :=
  match e with
  | PgRetry context => retryEnter context p
  | PgSettle k result =>
      match nth_error (retryTasks p) k with
      | Some (RetryAwaitOperation context) =>
          retrySettled context result (setRetryTasks (removeNth k (retryTasks p)) p)
      | _ => p
      end
  | PgPauseOver k =>
      match nth_error (retryTasks p) k with
      | Some (RetryAwaitPause context) =>
          retryEnter context (setRetryTasks (removeNth k (retryTasks p)) p)
      | _ => p
      end
  | PgOnline => setManager (onlineEvent (manager p)) p
  | PgOffline => setManager (offlineEvent (manager p)) p
  end.

Definition pageRun (evs : list (PageEvent A)) (p : Page A) : Page A :=
  fold_left (fun p e => pageStep e p) evs p.

(** The events that put [retryAttempts] back to 0: an online event, and an
    operation that settles with a value. *)
Definition isReset (e : PageEvent A) : bool :=
  match e with
  | PgOnline | PgSettle _ (Some _) => true
  | _ => false
  end.

Definition resets (evs : list (PageEvent A)) : nat :=
  List.length (filter isReset evs).

(** The events of a single call in which nothing else takes part:
    invocation [i] settles with [operation i], then the pause ends. *)
Definition soloSchedule (operation : nat -> option A) (calls n : nat)
  : list (PageEvent A) :=
  flat_map (fun i => [PgSettle 0 (operation i); PgPauseOver 0]) (seq calls n).

End PageLoop.

(** A page on which two attempts fail, an online event arrives while the
    third is pending, and every later attempt fails too. *)
Definition demoRenewedRetry : Page Z :=
  pageRun [PgRetry "save"; PgSettle 0 None; PgPauseOver 0; PgSettle 0 None;
           PgPauseOver 0; PgOnline; PgSettle 0 None; PgPauseOver 0;
           PgSettle 0 None; PgPauseOver 0; PgSettle 0 None; PgPauseOver 0;
           PgSettle 0 None; PgPauseOver 0]
          (mkPage (newNetworkManager true) [] 0 []).

(** ** Creating a competition (routes/competition.js, POST /create)

    The handler proper, entered after authentication and the validation
    chain.  Numbers of the request body are rationals; [maxPlayers] may be
    of any type.  [trim] stands for [String.prototype.trim], [code] for the
    value of [generateCode()], [clk] and [t] for the readings of [new Date()]
    as before.  The save of the document is left to the caller. *)

Inductive JsValue :=
| JsNumber (n : JsNum)
| JsNotNumber.

Record RoundInput := mkRoundInput {
  ri_text : string;
  ri_language : option string;
  ri_duration : JsNum
}.

Record ModeConfigInput := mkModeConfigInput {
  mc_timeLimit : option JsNum;
  mc_targetWords : option JsNum;
  mc_textPool : option (list string)
}.

(** [req.body]; an absent [mode] is ['rounds'], an absent [modeConfig] is
    [{}]. *)
Record CreateBody := mkCreateBody {
  cb_name : string;
  cb_description : option string;
  cb_mode : option string;
  cb_modeConfig : option ModeConfigInput;
  cb_rounds : option (list RoundInput);
  cb_maxPlayers : option JsValue
}.

Record RoundDoc := mkRoundDoc {
  rd_roundNumber : Z;
  rd_text : string;
  rd_language : string;
  rd_duration : JsNum;
  rd_status : string;
  rd_startedAt : option Z;
  rd_endedAt : option Z;
  rd_totalDuration : Z;
  rd_participantsCompleted : Z;
  rd_highestWpm : Z;
  rd_lowestWpm : Z;
  rd_averageWpm : Z;
  rd_averageAccuracy : Z;
  rd_results : list ResultRecord;
  rd_createdAt : Z
}.

(** [competitionData], the object handed to [new Competition]. *)
Record CompetitionDoc := mkCompetitionDoc {
  doc_name : string;
  doc_description : string;
  doc_code : string;
  doc_organizerId : string;
  doc_organizer : string;
  doc_mode : string;
  doc_modeConfig : ModeConfigInput;
  doc_maxPlayers : option JsValue;
  doc_status : string;
  doc_currentRound : Z;
  doc_totalRounds : Z;
  doc_roundsCompleted : Z;
  doc_finalRankings : list FinalRanking;
  doc_createdAt : Z;
  doc_rounds : option (list RoundDoc)
}.

Inductive CreateOutcome :=
| CreateRejected (message : string) (statusCode : Z)
| CreateAccepted (doc : CompetitionDoc).

(** [!x || x < bound] for an optional number. *)
Definition missingOrBelow (x : option JsNum) (bound : JsNum) : bool :=
  match x with
  | None => true
  | Some q => Qeq_bool q 0 || negb (Qle_bool bound q)
  end.

(** [!l || l.length === 0] for an optional array. *)
Definition missingOrEmpty {A : Type} (l : option (list A)) : bool :=
  match l with
  | None => true
  | Some [] => true
  | Some _ => false
  end.

(** [maxPlayers !== undefined && (typeof maxPlayers !== 'number' || maxPlayers < 1)]. *)
Definition badMaxPlayers (m : option JsValue) : bool :=
  match m with
  | None => false
  | Some JsNotNumber => true
  | Some (JsNumber q) => negb (Qle_bool 1 q)
  end.

Section CreateCompetition.

Variable trim : string -> string.

(** [rounds.map((r, index) => ({ roundNumber: index + 1, ... }))] from
    index [i] on, the [new Date()] of the first round being reading [t]. *)
Fixpoint buildRounds (clk : nat -> Z) (t : nat) (i : Z) (rounds : list RoundInput)
  : list RoundDoc :=
  match rounds with
  | [] => []
  | r :: rounds' =>
      mkRoundDoc (i + 1) (trim (ri_text r))
                 (match ri_language r with
                  | Some l => if String.eqb l "" then "en"%string else l
                  | None => "en"%string
                  end)
                 (ri_duration r) "pending" None None 0 0 0 0 0 0 [] (clk t)
        :: buildRounds clk (S t) (i + 1) rounds'
  end.

Definition createCompetition (organizerId organizerName : string) (code : string)
           (clk : nat -> Z) (t : nat) (body : CreateBody) : CreateOutcome :=
  let mode := match cb_mode body with Some m => m | None => "rounds"%string end in
  let modeConfig := match cb_modeConfig body with
                    | Some mc => mc
                    | None => mkModeConfigInput None None None
                    end in
  if String.eqb mode "timed" && missingOrBelow (mc_timeLimit modeConfig) 30%Q
  then CreateRejected "Timed mode requires a time limit of at least 30 seconds" 400
  else if String.eqb mode "word-count" && missingOrBelow (mc_targetWords modeConfig) 10%Q
  then CreateRejected "Word count mode requires a target of at least 10 words" 400
  else if String.eqb mode "word-count" && missingOrEmpty (mc_textPool modeConfig)
  then CreateRejected "Word count mode requires at least one text in the pool" 400
  else if String.eqb mode "rounds" && missingOrEmpty (cb_rounds body)
  then CreateRejected "Rounds mode requires at least one round" 400
  else if badMaxPlayers (cb_maxPlayers body)
  then CreateRejected "Maximum players must be a number greater than 0" 400
  else
    let description := match cb_description body with
                       | Some s => if String.eqb s "" then ""%string else trim s
                       | None => ""%string
                       end in
    let withRounds := match cb_rounds body with
                      | Some rounds => String.eqb mode "rounds"
                      | None => false
                      end in
    CreateAccepted
      (mkCompetitionDoc (trim (cb_name body)) description code organizerId
         organizerName mode modeConfig (cb_maxPlayers body) "pending" (-1)
         (match cb_rounds body with
          | Some rounds => if withRounds then Z.of_nat (List.length rounds) else 0
          | None => 0
          end)
         0 [] (clk t)
         (match cb_rounds body with
          | Some rounds => if withRounds then Some (buildRounds clk (S t) 0 rounds)
                           else None
          | None => None
          end)).

End CreateCompetition.

Definition demoBody : CreateBody :=
  mkCreateBody "Spring cup" None None None
    (Some [mkRoundInput "the quick brown fox" None 60%Q;
           mkRoundInput "jumps over the lazy dog" (Some "en"%string) 90%Q])
    (Some (JsNumber 20%Q)).

Definition demoTimedBody : CreateBody :=
  mkCreateBody "Sprint" None (Some "timed"%string)
    (Some (mkModeConfigInput (Some 60%Q) None None))
    (Some [mkRoundInput "ignored round text" None 60%Q]) None.

(** ** The performance heatmap (routes/analytics.js and the dashboard script)

    The route fills two 7 x 24 grids from the groups that the aggregation
    returns; the dashboard turns the activity grid into the points of a
    bubble chart.  An array of numbers is the list of its elements, [None]
    being a hole (which JSON carries as [null]).  The key of a group may be
    [null], which is what the aggregation gives for a document without a
    date. *)

Record HeatItem := mkHeatItem {
  hi_dayOfWeek : option Z;
  hi_hour : option Z;
  hi_count : Z;
  hi_avgWPM : option JsNum
}.

(** [Math.round]: the nearest integer, halves going up, that is the floor
    of [q + 1/2]. *)
Definition mathRound (q : JsNum) : Z :=
  let r := (q + (1 # 2))%Q in Qnum r / Z.pos (Qden r).

(** [Math.round(item.avgWPM)]; [Math.round(null)] is 0. *)
Definition roundAvg (x : option JsNum) : Z :=
  match x with
  | Some q => mathRound q
  | None => 0
  end.

(** [a[i] = v] for an index [i]: inside the array the element is replaced,
    beyond its end the array grows and the gap is left as holes. *)
Fixpoint arraySet (a : list (option Z)) (i : nat) (v : Z) : list (option Z) :=
  match a, i with
  | [], O => [Some v]
  | [], S i' => None :: arraySet [] i' v
  | _ :: a', O => Some v :: a'
  | x :: a', S i' => x :: arraySet a' i' v
  end.

(** [a[key] = v] for a key that is an integer or [null]: a negative or
    [null] key sets a property and leaves the elements alone. *)
Definition arrayAssign (a : list (option Z)) (key : option Z) (v : Z)
  : list (option Z) :=
  match key with
  | Some h => if 0 <=? h then arraySet a (Z.to_nat h) v else a
  | None => a
  end.

(** The list with its [i]-th element replaced (the row object is mutated in
    place). *)
Fixpoint replaceNth {A : Type} (l : list A) (i : nat) (x : A) : list A :=
  match l, i with
  | [], _ => []
  | _ :: l', O => x :: l'
  | y :: l', S i' => y :: replaceNth l' i' x
  end.

Definition Grid := list (list (option Z)).

(** [Array.from({ length: 7 }, () => Array(24).fill(0))]. *)
Definition emptyGrid : Grid := repeat (repeat (Some 0) 24) 7.

(** [grid[day]]: [undefined] outside the grid. *)
Definition rowOf (grid : Grid) (day : Z) : option (list (option Z)) :=
  if 0 <=? day then nth_error grid (Z.to_nat day) else None.

(** The body of [heatmapData.forEach]; [None] when it throws, which it does
    on [grid[day][hour] = ...] when [grid[day]] is [undefined]. *)
Definition heatmapStep (gs : Grid * Grid) (item : HeatItem) : option (Grid * Grid) :=
  let day := match hi_dayOfWeek item with
             | Some d => d - 1
             | None => -1
             end in
  match rowOf (fst gs) day with
  | None => None
  | Some row =>
      let grid' := replaceNth (fst gs) (Z.to_nat day)
                              (arrayAssign row (hi_hour item) (hi_count item)) in
      match rowOf (snd gs) day with
      | None => None
      | Some wrow =>
          Some (grid',
                replaceNth (snd gs) (Z.to_nat day)
                           (arrayAssign wrow (hi_hour item)
                                        (roundAvg (hi_avgWPM item))))
      end
  end.

Fixpoint heatmapFill (items : list HeatItem) (gs : Grid * Grid)
  : option (Grid * Grid) :=
  match items with
  | [] => Some gs
  | item :: items' =>
      match heatmapStep gs item with
      | Some gs' => heatmapFill items' gs'
      | None => None
      end
  end.

(** The grids [activity] and [performance] of the response. *)
Definition performanceHeatmap (heatmapData : list HeatItem) : option (Grid * Grid) :=
  heatmapFill heatmapData (emptyGrid, emptyGrid).

(** The element at row [y], column [x], if there is one that is a number. *)
Definition cellAt (g : Grid) (y x : nat) : option Z :=
  match nth_error g y with
  | Some row => match nth_error row x with
                | Some c => c
                | None => None
                end
  | None => None
  end.

(** A group whose key is a day of the week and an hour of the day. *)
Definition itemInRange (item : HeatItem) : Prop :=
  (exists d, hi_dayOfWeek item = Some d /\ 1 <= d <= 7)
  /\ (exists h, hi_hour item = Some h /\ 0 <= h < 24).

(** A group whose day is [null] or no day of the week. *)
Definition dayOutOfRange (item : HeatItem) : Prop :=
  match hi_dayOfWeek item with
  | Some d => d < 1 \/ 7 < d
  | None => True
  end.

Definition itemHasKey (y x : nat) (item : HeatItem) : bool :=
  match hi_dayOfWeek item, hi_hour item with
  | Some d, Some h => (d =? Z.of_nat y + 1) && (h =? Z.of_nat x)
  | _, _ => false
  end.

(** The count of the last group with the key of cell [(y, x)], and [acc]
    when there is none. *)
Fixpoint lastCount (items : list HeatItem) (y x : nat) (acc : Z) : Z :=
  match items with
  | [] => acc
  | item :: items' =>
      lastCount items' y x (if itemHasKey y x item then hi_count item else acc)
  end.

Definition fullGrid (g : Grid) : Prop :=
  List.length g = 7%nat
  /\ Forall (fun row => List.length row = 24%nat /\ Forall (fun c => c <> None) row) g.

(** The key under which the aggregation has grouped. *)
Definition heatKey (item : HeatItem) : option Z * option Z :=
  (hi_dayOfWeek item, hi_hour item).

(** One point of the bubble chart. *)
Record HeatPoint := mkHeatPoint {
  hp_x : nat;
  hp_y : nat;
  hp_v : Z
}.

(** [dayData.forEach((activity, hourIndex) => { if (activity > 0) ... })]
    from column [x] on. *)
Fixpoint rowPoints (y x : nat) (row : list (option Z)) : list HeatPoint :=
  match row with
  | [] => []
  | c :: row' =>
      match c with
      | Some a => if 0 <? a then [mkHeatPoint x y a] else []
      | None => []
      end ++ rowPoints y (S x) row'
  end.

(** [data.activity.forEach((dayData, dayIndex) => ...)] from row [y] on. *)
Fixpoint gridPoints (y : nat) (g : Grid) : list HeatPoint :=
  match g with
  | [] => []
  | row :: g' => rowPoints y 0 row ++ gridPoints (S y) g'
  end.

Definition activityData (activity : Grid) : list HeatPoint := gridPoints 0 activity.

Definition demoHeatItems : list HeatItem :=
  [mkHeatItem (Some 2) (Some 14) 5 (Some (161 # 2));
   mkHeatItem (Some 7) (Some 0) 0 None;
   mkHeatItem (Some 1) (Some 23) 2 (Some 60%Q)].

(** ** Accuracy distribution (routes/analytics.js)

    The aggregation groups the accuracies by the boundaries below; the id of
    a bucket is its lower boundary, and ['Other'] for what falls in none.
    The route labels each bucket with a range; the label is kept here as its
    two ends. *)

Definition accuracyBoundaries : list Z := [0; 50; 60; 70; 80; 85; 90; 95; 100].

Inductive BucketId :=
| BucketFrom (lower : Z)
| BucketOther.

(** [bucket._id === 'Other' ? '90-100%'
     : `${bucket._id}-${bucket._id + (bucket._id < 90 ? 10 : 5)}%`]. *)
Definition rangeLabel (b : BucketId) : Z * Z :=
  match b with
  | BucketOther => (90, 100)
  | BucketFrom id => (id, id + (if id <? 90 then 10 else 5))
  end.

(** The boundary that follows [id] in the list: where the bucket that
    starts at [id] ends. *)
Fixpoint nextBoundary (bs : list Z) (id : Z) : option Z :=
  match bs with
  | a :: rest =>
      match rest with
      | b :: _ => if a =? id then Some b else nextBoundary rest id
      | [] => None
      end
  | [] => None
  end.

(** ** CSV export (routes/analytics.js, GET /export)

    [competitionRows] and [participantRows] are the rows that the two
    aggregations are mapped to, each cell already converted to text. *)

Definition quoteChar : string := String (Ascii.ascii_of_nat 34) EmptyString.

Definition newline : string := String (Ascii.ascii_of_nat 10) EmptyString.

(** [row.map(cell => `"${cell}"`).join(',')]. *)
Definition csvRow (row : list string) : string :=
  String.concat "," (map (fun cell => (quoteChar ++ cell ++ quoteChar)%string) row).

(** [[headers.join(','), ...data.map(...)].join('\n')]. *)
Definition csvContent (headers : list string) (data : list (list string)) : string :=
  String.concat newline (String.concat "," headers :: map csvRow data).

(** The file name and the body of the response; an absent [type] is
    ['overview']. *)
Definition exportCsv (type : option string)
           (competitionRows participantRows : list (list string)) : string * string :=
  let type := match type with Some t => t | None => "overview"%string end in
  if String.eqb type "competitions"
  then ("competitions-analytics.csv"%string,
        csvContent ["Competition Name"; "Code"; "Status"; "Participants"; "Rounds";
                    "Avg WPM"; "Created Date"]%string competitionRows)
  else if String.eqb type "participants"
  then ("participants-analytics.csv"%string,
        csvContent ["Participant Name"; "Avg WPM"; "Max WPM"; "Total Rounds";
                    "Avg Accuracy"]%string participantRows)
  else ("analytics-export.csv"%string, csvContent [] []).

(** How many times the character [c] occurs in [s]. *)
Fixpoint countChar (c : Ascii.ascii) (s : string) : nat :=
  match s with
  | EmptyString => O
  | String a s' => ((if Ascii.eqb a c then 1 else 0) + countChar c s')%nat
  end.

(** The lines of a text: one more than its line feeds. *)
Definition lineCount (s : string) : nat := S (countChar (Ascii.ascii_of_nat 10) s).

Definition noLineFeed (s : string) : Prop := countChar (Ascii.ascii_of_nat 10) s = 0%nat.

(** The line feeds in all the cells of a table. *)
Definition lineFeedsIn (cells : list string) : nat :=
  list_sum (map (countChar (Ascii.ascii_of_nat 10)) cells).

(** * Properties *)

(** ** Ranking *)

Section Ranking.

Lemma compareWpm_le (x y : ResultRecord) :
  Qle_bool (compareWpm x y) 0 = true <-> wpmDescending x y.
Proof.
  unfold compareWpm, wpmDescending. rewrite Qle_bool_iff.
  split; intro H.
  - apply Qle_minus_iff in H. apply Qle_minus_iff.
    setoid_replace (wpm x + - wpm y)%Q with (0 + - (wpm y - wpm x))%Q by ring.
    exact H.
  - apply Qle_minus_iff. apply Qle_minus_iff in H.
    setoid_replace (0 + - (wpm y - wpm x))%Q with (wpm x + - wpm y)%Q by ring.
    exact H.
Qed.

Lemma compareWpm_gt (x y : ResultRecord) :
  Qle_bool (compareWpm x y) 0 = false -> (wpm x < wpm y)%Q.
Proof.
  intro H. apply Qnot_le_lt. intro Hle.
  apply (proj2 (compareWpm_le x y)) in Hle. congruence.
Qed.

Lemma insertBy_perm cmp x l : Permutation (insertBy cmp x l) (x :: l).
Proof.
  induction l as [|y l IH]; simpl.
  - apply Permutation_refl.
  - destruct (Qle_bool (cmp x y) 0).
    + apply Permutation_refl.
    + eapply perm_trans; [apply perm_skip, IH | apply perm_swap].
Qed.

Lemma sortBy_perm cmp l : Permutation (sortBy cmp l) l.
Proof.
  induction l as [|x l IH]; simpl.
  - constructor.
  - eapply perm_trans; [apply insertBy_perm | apply perm_skip, IH].
Qed.

Lemma wpmDescending_trans : Relations_1.Transitive wpmDescending.
Proof.
  intros a b c Hab Hbc. unfold wpmDescending in *.
  eapply Qle_trans; eassumption.
Qed.

Lemma insertBy_HdRel a x l :
  wpmDescending a x -> HdRel wpmDescending a l ->
  HdRel wpmDescending a (insertBy compareWpm x l).
Proof.
  intros Hax Hal. destruct l as [|y l]; simpl.
  - constructor. exact Hax.
  - destruct (Qle_bool (compareWpm x y) 0).
    + constructor. exact Hax.
    + constructor. inversion Hal; assumption.
Qed.

Lemma insertBy_sorted x l :
  Sorted wpmDescending l -> Sorted wpmDescending (insertBy compareWpm x l).
Proof.
  induction l as [|y l IH]; intro Hs; simpl.
  - repeat constructor.
  - destruct (Qle_bool (compareWpm x y) 0) eqn:Hc.
    + constructor; [exact Hs | constructor; apply compareWpm_le; exact Hc].
    + inversion Hs; subst. constructor.
      * apply IH; assumption.
      * apply insertBy_HdRel; [|assumption].
        apply compareWpm_gt in Hc. unfold wpmDescending.
        apply Qlt_le_weak; exact Hc.
Qed.

Lemma sortBy_sorted l : Sorted wpmDescending (sortBy compareWpm l).
Proof.
  induction l as [|x l IH]; simpl.
  - constructor.
  - apply insertBy_sorted; exact IH.
Qed.

(** Insertion never moves a record past one of equal wpm. *)
Lemma insertBy_stable v x l :
  filter (sameWpm v) (insertBy compareWpm x l) = filter (sameWpm v) (x :: l).
Proof.
  induction l as [|y l IH]; simpl.
  - reflexivity.
  - destruct (Qle_bool (compareWpm x y) 0) eqn:Hc; [reflexivity|].
    simpl in *. rewrite IH.
    destruct (sameWpm v x) eqn:Hx; [|reflexivity].
    destruct (sameWpm v y) eqn:Hy; [|reflexivity].
    exfalso. apply compareWpm_gt in Hc.
    unfold sameWpm in *. apply Qeq_bool_iff in Hx, Hy.
    rewrite Hx, Hy in Hc. exact (Qlt_irrefl _ Hc).
Qed.

Lemma sortBy_stable v l :
  filter (sameWpm v) (sortBy compareWpm l) = filter (sameWpm v) l.
Proof.
  induction l as [|x l IH]; simpl; [reflexivity|].
  rewrite insertBy_stable. simpl. rewrite IH. reflexivity.
Qed.

Lemma assignRanksFrom_length i l : List.length (assignRanksFrom i l) = List.length l.
Proof.
  revert i; induction l as [|r l IH]; intro i; simpl; [reflexivity|].
  now rewrite IH.
Qed.

Lemma assignRanksFrom_rank i l :
  map rank (assignRanksFrom i l)
  = map (fun k => i + Z.of_nat k) (seq 1 (List.length l)).
Proof.
  revert i; induction l as [|r l IH]; intro i; [reflexivity|].
  cbn [assignRanksFrom map List.length seq rank setRank].
  rewrite IH. f_equal.
  rewrite <- (seq_shift (List.length l) 1), map_map.
  apply map_ext. intro k. lia.
Qed.

Lemma assignRanksFrom_unrank i l :
  map (setRank 0) (assignRanksFrom i l) = map (setRank 0) l.
Proof.
  revert i; induction l as [|r l IH]; intro i; simpl; [reflexivity|].
  now rewrite IH.
Qed.

Lemma assignRanksFrom_wpm i l :
  map wpm (assignRanksFrom i l) = map wpm l.
Proof.
  revert i; induction l as [|r l IH]; intro i; simpl; [reflexivity|].
  now rewrite IH.
Qed.

(** Being in descending order only depends on the wpm column. *)
Lemma sorted_by_wpm l l' :
  map wpm l = map wpm l' ->
  StronglySorted wpmDescending l -> StronglySorted wpmDescending l'.
Proof.
  revert l'; induction l as [|a l IH]; intros [|a' l'] Hm Hs;
    try discriminate; [constructor|].
  simpl in Hm. injection Hm as Ha Hl.
  inversion Hs as [|? ? Hs' Hall]; subst.
  constructor; [apply IH; assumption|].
  rewrite Forall_forall in *. intros b' Hb'.
  assert (Hin : In (wpm b') (map wpm l)) by (rewrite Hl; now apply in_map).
  apply in_map_iff in Hin. destruct Hin as [b [Hbw Hb]].
  specialize (Hall b Hb). unfold wpmDescending in *.
  rewrite <- Ha, <- Hbw. exact Hall.
Qed.

Lemma filter_sameWpm_setRank v k l :
  filter (sameWpm v) (map (setRank k) l) = map (setRank k) (filter (sameWpm v) l).
Proof.
  induction l as [|r l IH]; simpl; [reflexivity|].
  change (sameWpm v (setRank k r)) with (sameWpm v r).
  destruct (sameWpm v r); simpl; now rewrite IH.
Qed.

Lemma rankResults_ranks l :
  map rank (rankResults l) = map Z.of_nat (seq 1 (List.length l)).
Proof.
  unfold rankResults, assignRanks. rewrite assignRanksFrom_rank.
  rewrite (Permutation_length (sortBy_perm compareWpm l)).
  apply map_ext. intro k. lia.
Qed.

Lemma rankResults_perm l :
  Permutation (map (setRank 0) (rankResults l)) (map (setRank 0) l).
Proof.
  unfold rankResults, assignRanks.
  rewrite assignRanksFrom_unrank. apply Permutation_map, sortBy_perm.
Qed.

End Ranking.

(** C6.  For every list of N result records, the ranking (the sort on
    [b.wpm - a.wpm] followed by the rank assignment) returns them in
    descending order of wpm, carrying the ranks 1, 2, ..., N in that order;
    rank aside it returns the very records it was given, and for every wpm
    value the records with that value come out in the order they went in:
    ties are left in input order and no other key is consulted. *)
Theorem rankResults_sorted_dense_stable (l : list ResultRecord) :
  StronglySorted wpmDescending (rankResults l)
  /\ map rank (rankResults l) = map Z.of_nat (seq 1 (List.length l))
  /\ Permutation (map (setRank 0) (rankResults l)) (map (setRank 0) l)
  /\ forall v, filter (sameWpm v) (map (setRank 0) (rankResults l))
               = filter (sameWpm v) (map (setRank 0) l).
Proof.
  split; [|split; [apply rankResults_ranks | split; [apply rankResults_perm|]]].
  - unfold rankResults, assignRanks.
    apply (sorted_by_wpm (sortBy compareWpm l)).
    + symmetry. apply assignRanksFrom_wpm.
    + apply Sorted_StronglySorted; [exact wpmDescending_trans | apply sortBy_sorted].
  - intro v. unfold rankResults, assignRanks.
    rewrite assignRanksFrom_unrank, !filter_sameWpm_setRank.
    now rewrite sortBy_stable.
Qed.

Lemma snapshot_rank0 p : setRank 0 (snapshot p) = snapshot p.
Proof. reflexivity. Qed.

Lemma snapshot_neverProgressed p :
  neverProgressed p ->
  snapshot p = mkResult (name p) (socketId p) 0%Q 0%Q 0%Q 0%Q 0%Q 0%Q 0%Q 0 0%Q 0%Q false.
Proof.
  unfold snapshot. intros [H | [t H]]; rewrite H; reflexivity.
Qed.

(** C10.  When an end gets past its guard, the results it goes on to save
    and broadcast are computed from the values of the participant map: rank
    aside they are, one for one, the snapshots of the participants.  A
    participant whose counters were never touched by a progress event (no
    [competitionData], or the one written by the reset) has a record in which
    wpm, accuracy, correctChars, totalChars, incorrectChars, errors,
    backspaces, typingTime and wordsTyped are 0 and completed is false, and
    that record has a rank between 1 and the number of participants. *)
Theorem end_results_cover_participants (w : World) (c : Competition) (cd : CompData) :
  compData w = Some cd ->
  competitionInProgress cd = true ->
  let participantsArray := map snd (participants cd) in
  let finalResults := computeFinalResults participantsArray in
  (exists c', tasks (handleEndCompetition c w)
              = tasks w ++ [EndAwaitSave c' participantsArray finalResults]
              /\ finalRankings c' = map toFinalRanking finalResults)
  /\ List.length finalResults = List.length (participants cd)
  /\ Permutation (map (setRank 0) finalResults) (map snapshot participantsArray)
  /\ forall p, In p participantsArray -> neverProgressed p ->
       exists r, In r finalResults
                 /\ setRank 0 r
                    = mkResult (name p) (socketId p) 0%Q 0%Q 0%Q 0%Q 0%Q 0%Q 0%Q 0 0%Q 0%Q false
                 /\ 1 <= rank r <= Z.of_nat (List.length (participants cd)).
Proof.
  intros Hcd Hflag participantsArray finalResults.
  pose proof (rankResults_ranks (map snapshot participantsArray)) as Hrank.
  pose proof (rankResults_perm (map snapshot participantsArray)) as Hperm.
  fold (computeFinalResults participantsArray) in Hrank, Hperm.
  fold finalResults in Hrank, Hperm.
  assert (Hlen : List.length (map snapshot participantsArray)
                 = List.length (participants cd))
    by (unfold participantsArray; now rewrite !length_map).
  rewrite Hlen in Hrank.
  rewrite map_map in Hperm.
  rewrite (map_ext _ _ snapshot_rank0) in Hperm.
  repeat split.
  - unfold handleEndCompetition. rewrite Hcd, Hflag. simpl.
    eexists; split; reflexivity.
  - rewrite <- (length_map rank), Hrank, length_map, length_seq. reflexivity.
  - exact Hperm.
  - intros p Hp Hnever.
    assert (Hin : In (snapshot p) (map (setRank 0) finalResults)).
    { eapply Permutation_in; [apply Permutation_sym, Hperm | now apply in_map]. }
    apply in_map_iff in Hin. destruct Hin as [r [Hr Hin]].
    exists r. split; [exact Hin|]. split.
    + rewrite Hr. now apply snapshot_neverProgressed.
    + assert (Hk : In (rank r) (map Z.of_nat (seq 1 (List.length (participants cd)))))
        by (rewrite <- Hrank; now apply in_map).
      apply in_map_iff in Hk. destruct Hk as [k [Hk Hseq]].
      apply in_seq in Hseq. lia.
Qed.

Lemma end_results_cover_participants_witness :
  compData demoTyped = Some demoTypedData
  /\ neverProgressed alice
  /\ exists r, In r (computeFinalResults [alice; bob; carol])
               /\ setRank 0 r = mkResult "alice" "s1" 0%Q 0%Q 0%Q 0%Q 0%Q 0%Q 0%Q 0 0%Q 0%Q false
               /\ 1 <= rank r <= 3.
Proof.
  split; [reflexivity|]. split; [left; reflexivity|].
  destruct (end_results_cover_participants demoTyped demoCompetition demoTypedData
              eq_refl eq_refl) as (_ & _ & _ & H).
  apply (H alice); [left; reflexivity | left; reflexivity].
Defined.

(** ** The two handlers, segment by segment *)

Section Segments.

Lemma endLoop_frame c ps fr rest w :
  compData (endLoop c ps fr rest w) = compData w
  /\ timers (endLoop c ps fr rest w) = timers w
  /\ dbCompetition (endLoop c ps fr rest w) = dbCompetition w
  /\ dbResults (endLoop c ps fr rest w) = dbResults w.
Proof.
  induction rest as [|r rest IH]; simpl.
  - repeat split.
  - destruct (find _ ps); [repeat split | exact IH].
Qed.

Lemma endLoop_effects c ps fr rest w :
  exists q t,
    quiet q = true
    /\ effects (endLoop c ps fr rest w) = q ++ effects w
    /\ isStartAwaitFind t = false
    /\ tasks (endLoop c ps fr rest w) = tasks w ++ [t].
Proof.
  induction rest as [|r rest IH]; simpl.
  - exists [LeaderboardCall; RoomEmitEnded fr (mode c)], EndAwaitLeaderboard.
    repeat split.
  - destruct (find _ ps).
    + eexists [DbPush _ _], (EndAwaitPush _ _ _ _ _). repeat split.
    + exact IH.
Qed.

Lemma endLoop_inProgress c ps fr rest w :
  inProgress (endLoop c ps fr rest w) = inProgress w.
Proof.
  unfold inProgress. now rewrite (proj1 (endLoop_frame c ps fr rest w)).
Qed.

(** A call of the end handler in a session that is not in progress returns
    at the guard and leaves the world as it is. *)
Lemma handleEnd_blocked c w :
  inProgress w = false -> handleEndCompetition c w = w.
Proof.
  unfold inProgress, handleEndCompetition.
  destruct (compData w) as [cd|]; [|reflexivity].
  intros ->. reflexivity.
Qed.

(** A call of the end handler in a session that is in progress clears the
    flag, issues the save of the completed document and suspends. *)
Lemma handleEnd_passes c w :
  inProgress w = true ->
  exists cd c',
    compData w = Some cd
    /\ c' = markCompleted (clock w (ticks w))
                          (computeFinalResults (map snd (participants cd))) c
    /\ compData (handleEndCompetition c w) = Some (mkCompData false (participants cd))
    /\ effects (handleEndCompetition c w) = DbSave c' :: effects w
    /\ tasks (handleEndCompetition c w)
       = tasks w ++ [EndAwaitSave c' (map snd (participants cd))
                                  (computeFinalResults (map snd (participants cd)))]
    /\ timers (handleEndCompetition c w) = timers w
    /\ dbCompetition (handleEndCompetition c w) = dbCompetition w.
Proof.
  unfold inProgress, handleEndCompetition.
  destruct (compData w) as [cd|]; [|discriminate].
  intros ->. exists cd. eexists. simpl. repeat split.
Qed.

(** A start that reaches its guard while the session is in progress only
    writes the warning. *)
Lemma startAfterFind_blocked d w :
  inProgress w = true ->
  startAfterFind d w = w
  \/ (exists m, startAfterFind d w = logEffect (ConsoleWarn m) w)
  \/ (dbCompetition w = None
      /\ startAfterFind d w = logEffect (SocketEmitError "Competition not found") w).
Proof.
  unfold inProgress, startAfterFind.
  destruct (dbCompetition w) as [c|].
  - destruct (compData w) as [cd|]; [|discriminate].
    intros ->. right; left. eexists; reflexivity.
  - intros _. right; right. split; reflexivity.
Qed.

Lemma startAfterFind_passes d w :
  startPasses w = true ->
  exists c cd,
    dbCompetition w = Some c /\ compData w = Some cd
    /\ competitionInProgress cd = false
    /\ compData (startAfterFind d w)
       = Some (mkCompData true
                 (resetParticipants (clock w) (S (ticks w)) (participants cd)))
    /\ effects (startAfterFind d w)
       = DbFindByIdAndUpdate StOngoing (clock w (ticks w)) :: effects w
    /\ (exists cfg,
         tasks (startAfterFind d w)
         = tasks w ++ [StartAwaitUpdate d (markStarted (clock w (ticks w)) c) cfg
                                        (clock w (ticks w))])
    /\ timers (startAfterFind d w) = timers w
    /\ dbCompetition (startAfterFind d w) = dbCompetition w.
Proof.
  unfold startPasses, startAfterFind.
  destruct (dbCompetition w) as [c|] eqn:Hdb; [|discriminate].
  destruct (compData w) as [cd|] eqn:Hcd; [|discriminate].
  destruct (competitionInProgress cd) eqn:Hf; [discriminate|].
  intros _. exists c, cd. simpl.
  repeat (split; [first [reflexivity | assumption]|]).
  split; [eexists; reflexivity|]. split; [reflexivity | congruence].
Qed.

Lemma startAfterFind_refused d w :
  startPasses w = false ->
  compData (startAfterFind d w) = compData w
  /\ tasks (startAfterFind d w) = tasks w
  /\ timers (startAfterFind d w) = timers w
  /\ dbCompetition (startAfterFind d w) = dbCompetition w
  /\ exists q, quiet q = true /\ effects (startAfterFind d w) = q ++ effects w.
Proof.
  unfold startPasses, startAfterFind.
  destruct (dbCompetition w) as [c|] eqn:Hdb.
  - destruct (compData w) as [cd|] eqn:Hcd.
    + destruct (competitionInProgress cd); [|discriminate].
      intros _. simpl. repeat (split; [congruence|]).
      eexists (cons _ nil); split; [|reflexivity]; reflexivity.
    + intros _. repeat (split; [congruence|]).
      exists []; split; reflexivity.
  - intros _. simpl. repeat (split; [congruence|]).
    eexists (cons _ nil); split; [|reflexivity]; reflexivity.
Qed.

Lemma startPasses_inProgress w : startPasses w = true -> inProgress w = false.
Proof.
  unfold startPasses, inProgress.
  destruct (dbCompetition w); [|discriminate].
  destruct (compData w) as [cd|]; [|discriminate].
  now destruct (competitionInProgress cd).
Qed.

Lemma startAfterUpdate_frame d c cfg t w :
  compData (startAfterUpdate d c cfg t w) = compData w
  /\ tasks (startAfterUpdate d c cfg t w) = tasks w
  /\ exists q, quiet q = true
               /\ effects (startAfterUpdate d c cfg t w) = q ++ effects w.
Proof.
  unfold startAfterUpdate.
  destruct (mode c); simpl; repeat (split; [reflexivity|]);
    (eexists (cons _ (cons _ nil)); split; [|reflexivity]; reflexivity) || (eexists (cons _ nil); split; [|reflexivity]; reflexivity).
Qed.

End Segments.

(** ** One step of the event loop *)

Section Steps.

Lemma quiet_starts q l :
  quiet q = true -> filter isStartAccepted (q ++ l) = filter isStartAccepted l.
Proof.
  unfold quiet. induction q as [|e q IH]; simpl; [reflexivity|].
  intro H. apply andb_prop in H. destruct H as [He Hq].
  unfold isTransition in He. apply negb_true_iff, orb_false_elim in He.
  destruct He as [-> _]. now apply IH.
Qed.

Lemma quiet_finalizations q l :
  quiet q = true -> filter isFinalization (q ++ l) = filter isFinalization l.
Proof.
  unfold quiet. induction q as [|e q IH]; simpl; [reflexivity|].
  intro H. apply andb_prop in H. destruct H as [He Hq].
  unfold isTransition in He. apply negb_true_iff, orb_false_elim in He.
  destruct He as [_ ->]. now apply IH.
Qed.

Lemma quiet_lastTransition q l :
  quiet q = true -> lastTransition (q ++ l) = lastTransition l.
Proof.
  unfold quiet. induction q as [|e q IH]; simpl; [reflexivity|].
  intro H. apply andb_prop in H. destruct H as [He Hq].
  destruct e; try discriminate; now apply IH.
Qed.

(** What a call of the end handler does, seen from the event [e] that made
    the call; [w0] is [w] with at most its timers changed. *)
Lemma end_delta e c w w0 :
  isEndTrigger e = true ->
  compData w0 = compData w -> effects w0 = effects w ->
  Delta e w (handleEndCompetition c w0).
Proof.
  intros He Hcd Hfx.
  assert (Hin : inProgress w0 = inProgress w) by (unfold inProgress; now rewrite Hcd).
  destruct (inProgress w0) eqn:Hflag.
  - destruct (handleEnd_passes c w0 Hflag) as (cd & c' & H0 & Hc' & H1 & H2 & _).
    apply (DEnd e w _ c'); try congruence.
    + unfold inProgress. now rewrite H1.
    + subst c'. reflexivity.
  - rewrite (handleEnd_blocked c w0 Hflag).
    apply (DQuiet e w w0 []); [reflexivity | exact Hfx | congruence].
Qed.

Lemma step_delta e w : Delta e w (step e w).
Proof.
  destruct e as [d | c | k | k ok | ps]; simpl.
  - apply (DQuiet _ _ _ [DbFindById]); reflexivity.
  - apply end_delta; reflexivity.
  - destruct (nth_error (timers w) k) as [[dl c]|].
    + apply end_delta; reflexivity.
    + apply (DQuiet _ _ _ []); reflexivity.
  - destruct (nth_error (tasks w) k) as [t|] eqn:Ht;
      [|apply (DQuiet _ _ _ []); reflexivity].
    set (w0 := setTasks (removeNth k (tasks w)) w).
    assert (Hcd : compData w0 = compData w) by reflexivity.
    assert (Hfx : effects w0 = effects w) by reflexivity.
    assert (Hin : inProgress w0 = inProgress w) by reflexivity.
    destruct t as [d | d c cfg st | c ps fr | c ps fr pushed rest | ];
      destruct ok; simpl;
      try (apply (DQuiet _ _ _ [ConsoleError "End competition error"]); reflexivity);
      try (apply (DQuiet _ _ _ [SocketEmitError "Failed to start competition";
                                ConsoleError "Start competition error"]); reflexivity).
    + destruct (startPasses w0) eqn:Hp.
      * destruct (startAfterFind_passes d w0 Hp)
          as (c & cd & _ & _ & _ & H1 & H2 & _).
        apply (DStart _ w _ StOngoing (clock w0 (ticks w0)) k d); try congruence.
        -- rewrite <- Hin. now apply startPasses_inProgress.
        -- unfold inProgress. now rewrite H1.
      * destruct (startAfterFind_refused d w0 Hp)
          as (H1 & _ & _ & _ & q & Hq & H2).
        apply (DQuiet _ w _ q); [exact Hq | congruence |].
        unfold inProgress. now rewrite H1.
    + destruct (startAfterUpdate_frame d c cfg st w0) as (H1 & _ & q & Hq & H2).
      apply (DQuiet _ w _ q); [exact Hq | congruence |].
      unfold inProgress. now rewrite H1.
    + destruct (endLoop_effects c ps fr fr (setDbCompetition (Some c) w0))
        as (q & t & Hq & H2 & _).
      apply (DQuiet _ w _ q); [exact Hq | exact H2 |].
      now rewrite endLoop_inProgress.
    + destruct (endLoop_effects c ps fr rest (setDbResults (dbResults w0 ++ [pushed]) w0))
        as (q & t & Hq & H2 & _).
      apply (DQuiet _ w _ q); [exact Hq | exact H2 |].
      now rewrite endLoop_inProgress.
    + apply (DQuiet _ _ _ []); reflexivity.
  - destruct (compData w) as [cd|] eqn:Hcd.
    + apply (DQuiet _ _ _ []); try reflexivity.
      unfold inProgress. simpl. now rewrite Hcd.
    + apply (DQuiet _ _ _ []); reflexivity.
Qed.

Lemma forallb_removeNth {A} (p : A -> bool) k l :
  forallb p l = true -> forallb p (removeNth k l) = true.
Proof.
  revert k; induction l as [|x l IH]; intros k H; [destruct k; exact H|].
  simpl in H. apply andb_prop in H. destruct H as [Hx Hl].
  destruct k; simpl; [exact Hl|]. now rewrite Hx, IH.
Qed.

Lemma forallb_nth_error {A} (p : A -> bool) l k x :
  forallb p l = true -> nth_error l k = Some x -> p x = true.
Proof.
  intros Hl Hk. rewrite forallb_forall in Hl.
  apply Hl. eapply nth_error_In; eassumption.
Qed.

(** Unless a new start request arrives, no step puts a start in front of
    the guard. *)
End Steps.

(** ** Runs of the event loop *)

Section Runs.

Lemma run_app evs1 evs2 w : run (evs1 ++ evs2) w = run evs2 (run evs1 w).
Proof. unfold run. apply fold_left_app. Qed.

Lemma run_cons e evs w : run (e :: evs) w = run evs (step e w).
Proof. reflexivity. Qed.

Lemma Reachable_run evs w : Reachable w -> Reachable (run evs w).
Proof.
  revert w; induction evs as [|e evs IH]; intros w Hw; [exact Hw|].
  rewrite run_cons. apply IH. now apply reach_step.
Qed.

(** While the flag is up, a step other than an end trigger leaves it up and
    lets no transition through. *)
Lemma step_running e w :
  inProgress w = true -> isEndTrigger e = false ->
  inProgress (step e w) = true
  /\ acceptedStarts (step e w) = acceptedStarts w
  /\ finalizations (step e w) = finalizations w.
Proof.
  intros Hflag He.
  destruct (step_delta e w) as [q Hq Hfx Hin | st t k d Hc _ _ _ _ | c _ _ _ Hc _].
  - unfold finalizations, acceptedStarts. rewrite Hfx.
    rewrite quiet_finalizations, quiet_starts by exact Hq.
    repeat split. congruence.
  - congruence.
  - congruence.
Qed.

Lemma run_running evs w :
  inProgress w = true -> noEndTrigger evs = true ->
  inProgress (run evs w) = true
  /\ acceptedStarts (run evs w) = acceptedStarts w
  /\ finalizations (run evs w) = finalizations w.
Proof.
  revert w; induction evs as [|e evs IH]; intros w Hflag Hevs.
  - repeat split; assumption.
  - simpl in Hevs. apply andb_prop in Hevs. destruct Hevs as [He Hevs].
    apply negb_true_iff in He.
    destruct (step_running e w Hflag He) as (H1 & H2 & H3).
    rewrite run_cons.
    destruct (IH (step e w) H1 Hevs) as (K1 & K2 & K3).
    repeat split; congruence.
Qed.

Lemma nth_error_snoc {A} (l : list A) x : nth_error (l ++ [x]) (List.length l) = Some x.
Proof.
  rewrite nth_error_app2 by apply Nat.le_refl. now rewrite Nat.sub_diag.
Qed.

Lemma removeNth_snoc {A} (l : list A) x : removeNth (List.length l) (l ++ [x]) = l.
Proof.
  induction l as [|y l IH]; simpl; [reflexivity|]. now rewrite IH.
Qed.

Lemma removeNth_beyond {A} (l : list A) k :
  nth_error l k = None -> removeNth k l = l.
Proof.
  revert k; induction l as [|y l IH]; intros k H; [now destruct k|].
  destruct k; [discriminate|]. simpl in *. now rewrite IH.
Qed.

Lemma setTimers_same w : setTimers (timers w) w = w.
Proof. now destruct w. Qed.

(** The first end trigger in a session that is in progress. *)
Lemma first_end_trigger e w :
  inProgress w = true -> callsEnd w e = true ->
  inProgress (step e w) = false
  /\ exists c', effects (step e w) = DbSave c' :: effects w /\ status c' = StCompleted.
Proof.
  intros Hflag Hcall.
  assert (He : isEndTrigger e = true) by (destruct e; try discriminate; reflexivity).
  destruct (step_delta e w) as [q Hq Hfx Hin | st t k d Hc _ _ _ _ | c _ Hin Hfx _ Hst].
  - exfalso. destruct e as [d | c | k | k ok | ps]; try discriminate; simpl in *.
    + destruct (handleEnd_passes c w Hflag) as (cd & c' & _ & _ & H1 & _).
      unfold inProgress in Hin at 1. rewrite H1 in Hin. simpl in Hin. congruence.
    + apply Nat.ltb_lt, nth_error_Some in Hcall.
      destruct (nth_error (timers w) k) as [[dl c]|]; [|congruence].
      destruct (handleEnd_passes c (setTimers (removeNth k (timers w)) w) Hflag)
        as (cd & c' & _ & _ & H1 & _).
      unfold inProgress in Hin at 1. rewrite H1 in Hin. simpl in Hin. congruence.
  - congruence.
  - split; [exact Hin|]. exists c. split; assumption.
Qed.

(** The count of accepted starts never goes down. *)
Lemma step_starts_mono e w : (acceptedStarts w <= acceptedStarts (step e w))%nat.
Proof.
  unfold acceptedStarts.
  destruct (step_delta e w) as [q Hq Hfx _ | st t k d _ _ Hfx _ _ | c _ _ Hfx _ _];
    rewrite Hfx.
  - rewrite quiet_starts by exact Hq. apply Nat.le_refl.
  - simpl. apply Nat.le_succ_diag_r.
  - simpl. apply Nat.le_refl.
Qed.

Lemma run_starts_mono evs w : (acceptedStarts w <= acceptedStarts (run evs w))%nat.
Proof.
  revert w; induction evs as [|e evs IH]; intros w; [apply Nat.le_refl|].
  rewrite run_cons.
  apply Nat.le_trans with (acceptedStarts (step e w)); [apply step_starts_mono | apply IH].
Qed.

(** Once the flag is down, it stays down and nothing is finalized for as
    long as no start is accepted. *)
Lemma run_no_start_accepted evs w :
  inProgress w = false ->
  acceptedStarts (run evs w) = acceptedStarts w ->
  inProgress (run evs w) = false
  /\ finalizations (run evs w) = finalizations w.
Proof.
  revert w; induction evs as [|e evs IH]; intros w Hflag Hsame.
  - split; reflexivity || assumption.
  - rewrite run_cons in *.
    pose proof (run_starts_mono evs (step e w)) as Hmono.
    destruct (step_delta e w) as [q Hq Hfx Hin | st t k d _ _ Hfx _ _ | c Hc _ _ _ _].
    + assert (Hs : acceptedStarts (step e w) = acceptedStarts w)
        by (unfold acceptedStarts; rewrite Hfx; now rewrite quiet_starts).
      assert (Hf : finalizations (step e w) = finalizations w)
        by (unfold finalizations; rewrite Hfx; now rewrite quiet_finalizations).
      destruct (IH (step e w)) as (K1 & K2); [congruence | congruence |].
      split; [exact K1 | congruence].
    + exfalso.
      assert (Hs : acceptedStarts (step e w) = S (acceptedStarts w))
        by (unfold acceptedStarts; rewrite Hfx; reflexivity).
      lia.
    + congruence.
Qed.

End Runs.

(** C1, as the code has it.  In a session that is in progress, let an end
    trigger arrive (a manual end, or the auto-end timer firing) and let
    anything follow: further manual ends, timer firings, start requests, and
    the settling of pending promises in any order.  As long as no start gets
    past its guard after the first trigger, that trigger is the only one that
    finalizes: it issues the one save of the completed document with its
    results, the number of finalizations stays at one more than before
    however many triggers follow, the flag stays down, and any later call of
    the end handler returns the world exactly as it found it. *)
Theorem end_race_finalizes_once (w : World) (e1 : Event) (evs : list Event) :
  inProgress w = true ->
  callsEnd w e1 = true ->
  acceptedStarts (run evs (step e1 w)) = acceptedStarts (step e1 w) ->
  (exists c', effects (step e1 w) = DbSave c' :: effects w /\ status c' = StCompleted)
  /\ finalizations (step e1 w) = S (finalizations w)
  /\ finalizations (run evs (step e1 w)) = S (finalizations w)
  /\ inProgress (run evs (step e1 w)) = false
  /\ forall c2, handleEndCompetition c2 (run evs (step e1 w)) = run evs (step e1 w).
Proof.
  intros Hflag Hcall Hevs.
  destruct (first_end_trigger e1 w Hflag Hcall) as (Hdown & c' & Hfx & Hst).
  assert (Hone : finalizations (step e1 w) = S (finalizations w))
    by (unfold finalizations; rewrite Hfx; reflexivity).
  destruct (run_no_start_accepted evs (step e1 w) Hdown Hevs) as (K1 & K2).
  split; [exists c'; split; assumption|].
  split; [exact Hone|].
  split; [congruence|].
  split; [exact K1|].
  intro c2. now apply handleEnd_blocked.
Qed.

Lemma end_race_finalizes_once_witness :
  finalizations (run [EvStart demoData; EvTimer 0; EvResume 0 true]
                     (step (EvEnd demoCompetition) demoRunning))
  = S (finalizations demoRunning).
Proof.
  refine (proj1 (proj2 (proj2
    (end_race_finalizes_once demoRunning (EvEnd demoCompetition)
       [EvStart demoData; EvTimer 0; EvResume 0 true] eq_refl eq_refl _)))).
  vm_compute. reflexivity.
Defined.

(** C1 fails as stated: a start request that is accepted after the manual
    end (the flag is down by then) raises the flag again, and the timer that
    the earlier run armed, which nothing cancelled, then gets past the guard
    too.  Both end triggers finalize, and the second one changes the
    session. *)
Lemma end_race_can_finalize_twice :
  let manualEnd := step (EvEnd demoCompetition) demoRunning in
  let restarted := run [EvStart demoData; EvResume 1 true] manualEnd in
  inProgress demoRunning = true
  /\ callsEnd demoRunning (EvEnd demoCompetition) = true
  /\ finalizations demoRunning = 0%nat
  /\ finalizations manualEnd = 1%nat
  /\ callsEnd restarted (EvTimer 0) = true
  /\ inProgress restarted = true
  /\ finalizations (step (EvTimer 0) restarted) = 2%nat
  /\ inProgress (step (EvTimer 0) restarted) = false
  /\ step (EvTimer 0) restarted <> setTimers (removeNth 0 (timers restarted)) restarted.
Proof.
  cbv zeta. repeat (split; [vm_compute; reflexivity|]).
  intro H. apply (f_equal inProgress) in H. vm_compute in H. discriminate H.
Qed.

Lemma demoRunning_reachable : Reachable demoRunning.
Proof.
  apply Reachable_run. apply reach_init. repeat split.
Qed.

Lemma demoEnded_reachable : Reachable demoEnded.
Proof.
  apply Reachable_run. apply reach_step. exact demoRunning_reachable.
Qed.

(** C2, as the code has it.  The end handler never touches the timers: every
    timer armed by a start is still armed after the end.  What keeps a late
    callback from finalizing again is the guard: a timer that fires while the
    session is not in progress calls the end handler, which returns at once;
    nothing changes but the removal of the fired timer. *)
Theorem end_keeps_timers_guard_blocks (w : World) (c : Competition) (k : nat) :
  timers (handleEndCompetition c w) = timers w
  /\ (inProgress w = false ->
      step (EvTimer k) w = setTimers (removeNth k (timers w)) w).
Proof.
  split.
  - destruct (inProgress w) eqn:Hflag.
    + now destruct (handleEnd_passes c w Hflag) as (cd & c' & _ & _ & _ & _ & _ & H & _).
    + now rewrite handleEnd_blocked.
  - intro Hflag. simpl.
    destruct (nth_error (timers w) k) as [[dl c']|] eqn:Hk.
    + now apply handleEnd_blocked.
    + rewrite (removeNth_beyond _ _ Hk). symmetry. apply setTimers_same.
Qed.

Lemma end_keeps_timers_guard_blocks_witness :
  step (EvTimer 0) demoEnded = setTimers [] demoEnded.
Proof.
  exact (proj2 (end_keeps_timers_guard_blocks demoEnded demoCompetition 0) eq_refl).
Defined.

(** C2 fails as stated: after the manual end of a timed competition the
    timer that the start armed is still armed, while the end is in flight and
    after it is over, and its callback is still due. *)
Lemma manual_end_leaves_timer_armed :
  Reachable demoRunning
  /\ inProgress demoRunning = true
  /\ List.length (timers demoRunning) = 1%nat
  /\ List.length (timers (step (EvEnd demoCompetition) demoRunning)) = 1%nat
  /\ List.length (timers demoEnded) = 1%nat
  /\ callsEnd demoEnded (EvTimer 0) = true.
Proof. split; [exact demoRunning_reachable | repeat split]. Qed.

(** The timer that outlives its run is not always harmless: if the session
    is started again before it fires, its callback finds the flag up and
    ends the later run. *)
Example stale_timer_ends_later_run :
  finalizations demoRestarted = 1%nat
  /\ inProgress demoRestarted = true
  /\ List.length (timers demoRestarted) = 2%nat
  /\ finalizations (step (EvTimer 0) demoRestarted) = 2%nat
  /\ inProgress (step (EvTimer 0) demoRestarted) = false.
Proof. repeat split. Qed.

(** C3, as the code has it.  In every reachable state the flag is up exactly
    when the latest transition that got past a guard is a start: it goes up
    when a start passes and stays up, in flight or not, until an end passes,
    which takes it down before the end's own work is done.  Accepted starts
    and accepted ends therefore alternate, the starts leading by one exactly
    while the flag is up. *)
Theorem flag_tracks_last_transition (w : World) :
  Reachable w ->
  inProgress w = flagOf (effects w)
  /\ acceptedStarts w = (finalizations w + (if inProgress w then 1 else 0))%nat.
Proof.
  induction 1 as [w (Hflag & _ & _ & Hfx) | w e _ (IH1 & IH2)].
  - unfold acceptedStarts, finalizations, flagOf. rewrite Hflag, Hfx. split; reflexivity.
  - destruct (step_delta e w) as [q Hq Hfx Hin | st t k d Hdown Hup Hfx _ _
                                 | c Hup Hdown Hfx _ _].
    + unfold acceptedStarts, finalizations, flagOf in *. rewrite Hfx, Hin.
      rewrite quiet_lastTransition, quiet_starts, quiet_finalizations by exact Hq.
      split; assumption.
    + unfold acceptedStarts, finalizations, flagOf in *.
      rewrite Hfx, Hup. rewrite Hdown in IH2. simpl. split; [reflexivity|lia].
    + unfold acceptedStarts, finalizations, flagOf in *.
      rewrite Hfx, Hdown. rewrite Hup in IH2. simpl. split; [reflexivity|lia].
Qed.

Lemma flag_tracks_last_transition_witness :
  inProgress demoRunning = flagOf (effects demoRunning)
  /\ acceptedStarts demoRunning
     = (finalizations demoRunning + (if inProgress demoRunning then 1 else 0))%nat.
Proof.
  apply flag_tracks_last_transition.
  apply Reachable_run. apply reach_init. repeat split.
Defined.

(** C3 fails as stated: the flag is up in a reachable state with nothing in
    flight, it is down while an end is in flight, and two invocations can be
    in flight together. *)
Lemma flag_is_not_the_in_flight_window :
  ~ (forall w, Reachable w ->
       (inProgress w = true <-> inFlight w = 1%nat) /\ (inFlight w <= 1)%nat).
Proof.
  intro H. destruct (H demoRunning demoRunning_reachable) as [[H1 _] _].
  specialize (H1 eq_refl). discriminate.
Qed.

(** C4, as the code has it.  When the save issued by an end is rejected, the
    handler's [catch] logs the error and the invocation is over: the flag
    stays down and the store is as it was, so nothing is rolled back, but
    neither the result pushes nor the broadcast of the final results take
    place: the log and the save are the only effects of that end. *)
Theorem failed_save_logged_not_broadcast (w : World) (c : Competition) :
  inProgress w = true ->
  exists c',
    effects (step (EvResume (List.length (tasks w)) false) (handleEndCompetition c w))
    = ConsoleError "End competition error" :: DbSave c' :: effects w
    /\ status c' = StCompleted
    /\ inProgress (step (EvResume (List.length (tasks w)) false)
                        (handleEndCompetition c w)) = false
    /\ tasks (step (EvResume (List.length (tasks w)) false)
                   (handleEndCompetition c w)) = tasks w
    /\ dbCompetition (step (EvResume (List.length (tasks w)) false)
                           (handleEndCompetition c w)) = dbCompetition w
    /\ dbResults (step (EvResume (List.length (tasks w)) false)
                       (handleEndCompetition c w)) = dbResults w.
Proof.
  intro Hflag.
  destruct (handleEnd_passes c w Hflag) as (cd & c' & Hcd & Hc' & H1 & H2 & H3 & _ & H4).
  exists c'. simpl. rewrite H3, nth_error_snoc, removeNth_snoc. simpl.
  unfold inProgress. simpl. rewrite H1, H2, H4.
  repeat split.
  - subst c'. reflexivity.
  - unfold handleEndCompetition. rewrite Hcd.
    unfold inProgress in Hflag. rewrite Hcd in Hflag. rewrite Hflag. reflexivity.
Qed.

Lemma failed_save_logged_not_broadcast_witness :
  tasks demoSaveFailed = [] /\ inProgress demoSaveFailed = false.
Proof.
  destruct (failed_save_logged_not_broadcast demoRunning demoCompetition eq_refl)
    as (c' & _ & _ & Hflag & Htasks & _).
  split; [exact Htasks | exact Hflag].
Defined.

(** C4 fails as stated: with the save rejected, the end is over and no
    ['competitionEnded'] has been or will be emitted, whereas the same end
    with the save fulfilled emits it. *)
Lemma failed_save_skips_broadcast :
  inProgress demoRunning = true
  /\ existsb isRoomEmitEnded (effects demoSaveFailed) = false
  /\ tasks demoSaveFailed = []
  /\ existsb isRoomEmitEnded (effects demoEnded) = true.
Proof. repeat split. Qed.

(** C5, as the code has it.  The guard of the start handler looks at the
    flag and not at the status of the document: whenever the document is
    found, the session is registered and the flag is down, the start is
    accepted, whatever the status.  While the flag is up, a start that
    reaches the guard only logs a warning: no emission to the caller, no
    change to the session, the store, the timers or the tasks.  And as long
    as no end trigger intervenes, whatever start requests arrive and
    whatever promises settle, the flag stays up and no further start is
    accepted: one accepted start, one write of [startedAt]. *)
Theorem start_guard_is_the_flag (w : World) (d : StartData) (evs : list Event) :
  (startPasses w = true ->
     inProgress (startAfterFind d w) = true
     /\ effects (startAfterFind d w)
        = DbFindByIdAndUpdate StOngoing (clock w (ticks w)) :: effects w)
  /\ (inProgress w = true -> dbCompetition w <> None ->
        exists m, startAfterFind d w = logEffect (ConsoleWarn m) w)
  /\ (inProgress w = true -> noEndTrigger evs = true ->
        inProgress (run evs w) = true
        /\ acceptedStarts (run evs w) = acceptedStarts w).
Proof.
  split; [|split].
  - intro Hp.
    destruct (startAfterFind_passes d w Hp) as (c & cd & _ & _ & _ & H1 & H2 & _).
    split; [|exact H2]. unfold inProgress. now rewrite H1.
  - intros Hflag Hdb. unfold startAfterFind, inProgress in *.
    destruct (dbCompetition w) as [c|]; [|congruence].
    destruct (compData w) as [cd|]; [|discriminate].
    rewrite Hflag. eexists; reflexivity.
  - intros Hflag Hevs.
    destruct (run_running evs w Hflag Hevs) as (H1 & H2 & _). split; assumption.
Qed.

Lemma start_guard_is_the_flag_witness :
  inProgress (startAfterFind demoData demoEnded) = true
  /\ (exists m, startAfterFind demoData demoRunning = logEffect (ConsoleWarn m) demoRunning)
  /\ acceptedStarts (run [EvStart demoData; EvResume 0 true] demoRunning)
     = acceptedStarts demoRunning.
Proof.
  destruct (start_guard_is_the_flag demoEnded demoData []) as (H1 & _ & _).
  destruct (start_guard_is_the_flag demoRunning demoData
              [EvStart demoData; EvResume 0 true]) as (_ & H2 & H3).
  split; [exact (proj1 (H1 eq_refl))|].
  split; [apply (H2 eq_refl); discriminate|].
  exact (proj2 (H3 eq_refl eq_refl)).
Defined.

(** C5 fails as stated: a session whose competition is completed is
    reachable, its start guard lets a start through, and that second start
    is carried out: two accepted starts, [startedAt] rewritten, the status
    back to ongoing. *)
Lemma start_passes_when_completed :
  Reachable demoEnded
  /\ option_map status (dbCompetition demoEnded) = Some StCompleted
  /\ startPasses demoEnded = true
  /\ acceptedStarts demoEnded = 1%nat
  /\ acceptedStarts (run [EvStart demoData; EvResume 0 true; EvResume 0 true] demoEnded)
     = 2%nat
  /\ option_map status
       (dbCompetition (run [EvStart demoData; EvResume 0 true; EvResume 0 true] demoEnded))
     = Some StOngoing.
Proof. split; [exact demoEnded_reachable | repeat split]. Qed.

Lemma resetParticipants_length clk t ps :
  List.length (resetParticipants clk t ps) = List.length ps.
Proof.
  revert t; induction ps as [|[k p] ps IH]; intro t; simpl; [reflexivity|].
  now rewrite IH.
Qed.

Lemma resetParticipants_nth clk t ps i key p :
  nth_error ps i = Some (key, p) ->
  nth_error (resetParticipants clk t ps) i
  = Some (key, mkParticipant (name p) (socketId p) (Some (freshData (clk (t + i)%nat)))).
Proof.
  revert t i; induction ps as [|[k q] ps IH]; intros t i H.
  - destruct i; discriminate.
  - destruct i as [|i]; simpl in *.
    + injection H as -> ->. now rewrite Nat.add_0_r.
    + rewrite (IH (S t) i H).
      replace (S t + i)%nat with (t + S i)%nat by lia. reflexivity.
Qed.

(** C8.  When a start gets past its guard, whatever the client sent, every
    entry of the participant map keeps its key, name and socket id and gets
    a new [competitionData] in which correctChars, totalChars, wpm,
    accuracy, errors, backspaces and wordsTyped are 0, completed is false,
    and testStartTime is a reading of the server's clock taken during that
    start, right after the reading that becomes [startedAt]: for the i-th
    participant it is reading number [ticks + 1 + i].  The payload plays no
    part in it. *)
Theorem start_resets_participants (w : World) (d : StartData) :
  startPasses w = true ->
  exists cd cd',
    compData w = Some cd
    /\ compData (startAfterFind d w) = Some cd'
    /\ competitionInProgress cd' = true
    /\ List.length (participants cd') = List.length (participants cd)
    /\ (forall i key p,
          nth_error (participants cd) i = Some (key, p) ->
          nth_error (participants cd') i
          = Some (key,
                  mkParticipant (name p) (socketId p)
                    (Some (mkCompetitionData
                             (Some 0%Q) (Some 0%Q) (Some 0%Q) (Some 0%Q) (Some 0%Q)
                             (Some 0%Q) (Some (clock w (ticks w + 1 + i)%nat))
                             (Some 0%Q) (Some false) None))))
    /\ forall d', compData (startAfterFind d' w) = Some cd'.
Proof.
  intro Hp.
  destruct (startAfterFind_passes d w Hp) as (c & cd & _ & Hcd & _ & H1 & _).
  exists cd. eexists. split; [exact Hcd|]. split; [exact H1|]. simpl.
  split; [reflexivity|]. split; [apply resetParticipants_length|]. split.
  - intros i key p Hi.
    rewrite (resetParticipants_nth _ _ _ _ _ _ Hi). unfold freshData.
    replace (S (ticks w) + i)%nat with (ticks w + 1 + i)%nat by lia.
    reflexivity.
  - intro d'.
    destruct (startAfterFind_passes d' w Hp) as (c2 & cd2 & _ & Hcd2 & _ & H2 & _).
    congruence.
Qed.

Lemma start_resets_participants_witness :
  exists cd',
    compData (startAfterFind demoData demoWorld) = Some cd'
    /\ nth_error (participants cd') 1
       = Some ("s2"%string,
               mkParticipant "bob" "s2"
                 (Some (mkCompetitionData
                          (Some 0%Q) (Some 0%Q) (Some 0%Q) (Some 0%Q) (Some 0%Q)
                          (Some 0%Q) (Some 1700000000002) (Some 0%Q) (Some false) None))).
Proof.
  destruct (start_resets_participants demoWorld demoData eq_refl)
    as (cd & cd' & Hcd & Hcd' & _ & _ & Hnth & _).
  exists cd'. split; [exact Hcd'|].
  injection Hcd as <-.
  exact (Hnth 1%nat "s2"%string bob eq_refl).
Defined.

(** ** Leaderboard throttle *)

Section Throttle.

Lemma notifyProgress_throttled now b :
  0 < now -> throttled b -> throttled (notifyProgress now b).
Proof.
  intros Hnow (Hs & Hlast & Hpos). unfold notifyProgress.
  destruct (neverBroadcast (lastLeaderboardUpdate b)
            || intervalElapsed now (lastLeaderboardUpdate b)) eqn:Hgo;
    [|repeat split; assumption].
  unfold throttled. simpl. split; [|split; [reflexivity | now constructor]].
  constructor; [exact Hs|].
  destruct (leaderboardEmissions b) as [|t es] eqn:Hes; [constructor|].
  simpl in Hlast. rewrite Hlast in Hgo. simpl in Hgo.
  inversion Hpos as [|? ? Ht _]; subst.
  apply orb_prop in Hgo. destruct Hgo as [Hzero | Hgap].
  - apply Z.eqb_eq in Hzero. lia.
  - apply Z.ltb_lt in Hgap.
    inversion Hs as [|? ? _ Hall]; subst.
    constructor; [exact Hgap|].
    rewrite Forall_forall in *. intros e He.
    specialize (Hall e He). unfold gapElapsed in *. lia.
Qed.

Lemma notifyAll_throttled times b :
  Forall (fun t => 0 < t) times -> throttled b -> throttled (notifyAll times b).
Proof.
  revert b; induction times as [|now times IH]; intros b Hpos Hb; [exact Hb|].
  inversion Hpos; subst. simpl. apply IH; [assumption|].
  now apply notifyProgress_throttled.
Qed.

Lemma gaps_exclude_same_window es :
  StronglySorted gapElapsed es ->
  ForallOrdPairs (fun later earlier => ~ sameWindow later earlier) es.
Proof.
  induction 1 as [|a es _ IH Hall]; constructor; [|exact IH].
  rewrite Forall_forall in *. intros e He.
  specialize (Hall e He). unfold gapElapsed, sameWindow in *. lia.
Qed.

Lemma throttled_initial : throttled initialBroadcaster.
Proof. repeat split; constructor. Qed.

Lemma notifyAll_gaps times :
  Forall (fun t => 0 < t) times ->
  StronglySorted gapElapsed (leaderboardEmissions (notifyAll times initialBroadcaster)).
Proof.
  intro Hpos. exact (proj1 (notifyAll_throttled times _ Hpos throttled_initial)).
Qed.

End Throttle.

(** C9.  Let any sequence of progress notifications reach the throttle of a
    fresh session, each handled at a reading of the clock (a positive number
    of milliseconds).  Then no two of the leaderboard emissions fall in the
    same 1000 ms window; indeed more than 1000 ms separate any two.  And a
    notification handled no more than 1000 ms after the recorded last
    broadcast leaves the broadcaster as it was: nothing is emitted and
    nothing is kept for later. *)
Theorem throttle_one_emission_per_window (times : list Z) (b : Broadcaster)
        (now last : Z) :
  Forall (fun t => 0 < t) times ->
  lastLeaderboardUpdate b = Some last -> 0 < last -> now - last <= 1000 ->
  ForallOrdPairs (fun later earlier => ~ sameWindow later earlier)
                 (leaderboardEmissions (notifyAll times initialBroadcaster))
  /\ StronglySorted gapElapsed
                    (leaderboardEmissions (notifyAll times initialBroadcaster))
  /\ notifyProgress now b = b.
Proof.
  intros Hpos Hlast Hlast0 Hearly.
  split; [apply gaps_exclude_same_window, notifyAll_gaps, Hpos|].
  split; [apply notifyAll_gaps, Hpos|].
  unfold notifyProgress. rewrite Hlast. simpl.
  destruct (Z.eqb_spec last 0) as [->|_]; [lia|].
  destruct (Z.ltb_spec 1000 (now - last)); [lia | reflexivity].
Qed.

Lemma throttle_one_emission_per_window_witness :
  leaderboardEmissions (notifyAll [5; 500; 1005; 1006; 2007] initialBroadcaster)
  = [2007; 1006; 5]
  /\ notifyProgress 1500 (mkBroadcaster (Some 1006) [1006; 5])
     = mkBroadcaster (Some 1006) [1006; 5].
Proof.
  split; [reflexivity|].
  refine (proj2 (proj2 (throttle_one_emission_per_window
            [5; 500; 1005; 1006; 2007] (mkBroadcaster (Some 1006) [1006; 5])
            1500 1006 _ eq_refl _ _))).
  - repeat constructor.
  - reflexivity.
  - discriminate.
Defined.

(** ** Scoring *)

(** C7.  For totalChars > 0 and elapsedSeconds > 0 the calculator gives
    wpm = (correctChars / 5) / (elapsedSeconds / 60), that is twelve correct
    characters per second, and accuracy = (correctChars / totalChars) * 100;
    with totalChars = 0 the accuracy is 0; and 400 correct characters out of
    410 in 60 seconds give 80 wpm and an accuracy of 4000/41. *)
Theorem scoring_formulas (correctChars totalChars elapsedSeconds : Q) :
  (0 < totalChars)%Q -> (0 < elapsedSeconds)%Q ->
  (calculateWpm correctChars elapsedSeconds
   == (correctChars / 5) / (elapsedSeconds / 60))%Q
  /\ (calculateWpm correctChars elapsedSeconds
      == 12 * correctChars / elapsedSeconds)%Q
  /\ (calculateAccuracy correctChars totalChars
      == (correctChars / totalChars) * 100)%Q
  /\ calculateAccuracy correctChars 0 = 0%Q
  /\ (calculateWpm 400 60 == 80)%Q
  /\ (calculateAccuracy 400 410 == 4000 # 41)%Q.
Proof.
  intros Ht He.
  assert (He0 : ~ (elapsedSeconds == 0)%Q)
    by (intro H; rewrite H in He; exact (Qlt_irrefl _ He)).
  split; [reflexivity|].
  split; [unfold calculateWpm, elapsedMinutes; field; exact He0|].
  split; [|repeat split].
  unfold calculateAccuracy, Qgt_bool.
  destruct (Qle_bool totalChars 0) eqn:Hle; [|reflexivity].
  apply Qle_bool_iff in Hle. exfalso. exact (Qlt_not_le _ _ Ht Hle).
Qed.

Lemma scoring_formulas_witness :
  (calculateWpm 400 60 == 12 * 400 / 60)%Q
  /\ (calculateAccuracy 400 410 == (400 / 410) * 100)%Q.
Proof.
  destruct (scoring_formulas 400 410 60 eq_refl eq_refl) as (_ & H1 & H2 & _).
  split; [exact H1 | exact H2].
Defined.

(** * Further properties of the handlers *)

Section HandlerExtras.

Lemma assignRanksFrom_bounds i l r :
  In r (assignRanksFrom i l) -> i < rank r.
Proof.
  revert i; induction l as [|x l IH]; intros i H; [contradiction|].
  simpl in H. destruct H as [<- | H]; [simpl; lia|].
  specialize (IH (i + 1) H). lia.
Qed.

Lemma assignRanksFrom_origin i l r :
  In r (assignRanksFrom i l) -> exists r0, In r0 l /\ wpm r = wpm r0.
Proof.
  revert i; induction l as [|x l IH]; intros i H; [contradiction|].
  simpl in H. destruct H as [<- | H].
  - exists x. split; [now left | reflexivity].
  - destruct (IH _ H) as (r0 & Hr0 & Hw). exists r0. split; [now right | exact Hw].
Qed.

Lemma assignRanksFrom_strict l :
  StronglySorted wpmDescending l ->
  forall i a b,
    In a (assignRanksFrom i l) -> In b (assignRanksFrom i l) ->
    (wpm b < wpm a)%Q -> rank a < rank b.
Proof.
  induction 1 as [|x l Hs IH Hall]; intros i a b Ha Hb Hlt; [contradiction|].
  simpl in Ha, Hb. destruct Ha as [<- | Ha]; destruct Hb as [<- | Hb].
  - exfalso. exact (Qlt_irrefl _ Hlt).
  - apply assignRanksFrom_bounds in Hb. simpl. lia.
  - exfalso. destruct (assignRanksFrom_origin _ _ _ Ha) as (a0 & Ha0 & Hw).
    rewrite Forall_forall in Hall. specialize (Hall a0 Ha0).
    unfold wpmDescending in Hall. simpl in Hlt. rewrite Hw in Hlt.
    exact (Qlt_not_le _ _ Hlt Hall).
  - exact (IH (i + 1) a b Ha Hb Hlt).
Qed.

Lemma NoDup_map_of_nat l : NoDup l -> NoDup (map Z.of_nat l).
Proof.
  induction 1 as [|x l Hx _ IH]; simpl; constructor; [|exact IH].
  intro Hin. apply in_map_iff in Hin. destruct Hin as (y & Hy & Hin).
  apply Nat2Z.inj in Hy. subst y. exact (Hx Hin).
Qed.

End HandlerExtras.

(** X1.  In the final results a strictly higher wpm always means a strictly
    better (smaller) rank, and no two results share a rank. *)
Theorem higher_wpm_ranks_better (l : list ResultRecord) :
  (forall a b, In a (rankResults l) -> In b (rankResults l) ->
               (wpm b < wpm a)%Q -> rank a < rank b)
  /\ NoDup (map rank (rankResults l)).
Proof.
  split.
  - intros a b. unfold rankResults, assignRanks.
    apply assignRanksFrom_strict.
    apply Sorted_StronglySorted; [exact wpmDescending_trans | apply sortBy_sorted].
  - rewrite rankResults_ranks.
    apply NoDup_map_of_nat, seq_NoDup.
Qed.

Section EndRun.

Lemma finalResults_found ps r :
  In r (computeFinalResults ps) -> participantFound ps r = true.
Proof.
  intro Hr. unfold participantFound.
  destruct (find _ ps) eqn:Hfind; [reflexivity|]. exfalso.
  pose proof (rankResults_perm (map snapshot ps)) as Hperm.
  fold (computeFinalResults ps) in Hperm.
  rewrite map_map, (map_ext _ _ snapshot_rank0) in Hperm.
  assert (Hin : In (setRank 0 r) (map snapshot ps)).
  { eapply Permutation_in; [exact Hperm | now apply in_map]. }
  apply in_map_iff in Hin. destruct Hin as (p & Hp & Hin).
  pose proof (find_none _ _ Hfind p Hin) as Hno. simpl in Hno.
  assert (Hid : participantId r = socketId p)
    by (change (participantId (setRank 0 r) = socketId p); now rewrite <- Hp).
  rewrite Hid, String.eqb_refl in Hno. discriminate.
Qed.

(** The loop of the end handler carried through with every promise
    fulfilled, when all participants are found and nothing else is in
    flight. *)
Lemma endLoop_run c ps fr rest w0 :
  tasks w0 = [] ->
  forallb (participantFound ps) rest = true ->
  let wf := run (repeat (EvResume 0 true) (S (List.length rest)))
                (endLoop c ps fr rest w0) in
  effects wf
  = LeaderboardCall :: RoomEmitEnded fr (mode c)
      :: rev (map pushEffect (pushesFrom (clock w0) (ticks w0) rest)) ++ effects w0
  /\ dbResults wf = dbResults w0 ++ pushesFrom (clock w0) (ticks w0) rest
  /\ tasks wf = []
  /\ compData wf = compData w0
  /\ dbCompetition wf = dbCompetition w0
  /\ timers wf = timers w0.
Proof.
  revert w0; induction rest as [|r rest IH]; intros w0 Htasks Hfound.
  - destruct w0; simpl in *; subst. simpl.
    rewrite app_nil_r. repeat split.
  - simpl in Hfound. apply andb_prop in Hfound. destruct Hfound as [Hr Hrest].
    unfold participantFound in Hr.
    cbn [endLoop List.length repeat].
    destruct (find _ ps) eqn:Hfind; [|discriminate].
    rewrite run_cons.
    set (w1 := setDbResults
                 (dbResults w0 ++ [(participantId r,
                                    toParticipantResult r (clock w0 (ticks w0)))])
                 (logEffect (DbPush (participantId r)
                                    (toParticipantResult r (clock w0 (ticks w0))))
                            (setTicks (S (ticks w0)) w0))).
    assert (Hstep : step (EvResume 0 true)
                      (suspend
                         (EndAwaitPush c ps fr
                            (participantId r,
                             toParticipantResult r (clock w0 (ticks w0))) rest)
                         (logEffect
                            (DbPush
                               (fst (participantId r,
                                     toParticipantResult r (clock w0 (ticks w0))))
                               (snd (participantId r,
                                     toParticipantResult r (clock w0 (ticks w0)))))
                            (setTicks (S (ticks w0)) w0)))
                    = endLoop c ps fr rest w1).
    { destruct w0; simpl in *; subst. reflexivity. }
    rewrite Hstep.
    destruct (IH w1 Htasks Hrest) as (H1 & H2 & H3 & H4 & H5 & H6).
    cbv zeta in *. cbn [repeat] in *. rewrite H1, H2, H3, H4, H5, H6. subst w1. simpl.
    repeat split.
    + unfold pushEffect at 2. simpl. now rewrite <- app_assoc.
    + now rewrite <- app_assoc.
Qed.

End EndRun.

(** X2.  An end that gets past its guard with nothing else in flight, and
    whose promises are all fulfilled, writes every final result exactly once:
    after the save of the completed document come the pushes, one per result
    in rank order (each participant is found, none is skipped), then the one
    broadcast of the final results, then the leaderboard call.  At the end
    the store holds the completed document, nothing is in flight and the flag
    is down. *)
Theorem end_carried_through (w : World) (c : Competition) (cd : CompData) :
  compData w = Some cd ->
  competitionInProgress cd = true ->
  tasks w = [] ->
  let finalResults := computeFinalResults (map snd (participants cd)) in
  let c' := markCompleted (clock w (ticks w)) finalResults c in
  let pushes := pushesFrom (clock w) (S (ticks w)) finalResults in
  let wf := run (EvEnd c :: repeat (EvResume 0 true) (List.length finalResults + 2)) w in
  effects wf
  = LeaderboardCall :: RoomEmitEnded finalResults (mode c)
      :: rev (map pushEffect pushes) ++ DbSave c' :: effects w
  /\ dbResults wf = dbResults w ++ pushes
  /\ List.length pushes = List.length (participants cd)
  /\ dbCompetition wf = Some c'
  /\ tasks wf = []
  /\ inProgress wf = false
  /\ timers wf = timers w.
Proof.
  intros Hcd Hflag Htasks finalResults c' pushes wf.
  assert (Hfound : forallb (participantFound (map snd (participants cd)))
                           finalResults = true).
  { apply forallb_forall. intros r Hr. now apply finalResults_found. }
  subst wf. rewrite run_cons.
  replace (List.length finalResults + 2)%nat
    with (S (S (List.length finalResults))) by lia.
  cbn [repeat]. rewrite run_cons.
  set (w1 := setDbCompetition (Some c')
               (logEffect (DbSave c')
                  (setCompData (Some (mkCompData false (participants cd)))
                     (setTicks (S (ticks w)) w)))).
  assert (Hstep : step (EvResume 0 true) (step (EvEnd c) w)
                  = endLoop c' (map snd (participants cd)) finalResults finalResults w1).
  { simpl. unfold handleEndCompetition. rewrite Hcd, Hflag. simpl.
    rewrite Htasks. simpl. subst w1 c' finalResults.
    destruct w; simpl in *; subst. reflexivity. }
  rewrite Hstep.
  destruct (endLoop_run c' (map snd (participants cd)) finalResults finalResults w1
              Htasks Hfound) as (H1 & H2 & H3 & H4 & H5 & H6).
  cbv zeta in *. cbn [repeat] in *. rewrite H1, H2.
  unfold inProgress. rewrite H3, H4, H5, H6. subst w1. simpl.
  repeat split.
  assert (Hlen : forall clk t l, List.length (pushesFrom clk t l) = List.length l).
  { intros clk t l. revert t. induction l as [|x l IH]; intro t; simpl;
      [reflexivity | now rewrite IH]. }
  subst pushes. rewrite Hlen.
  pose proof (rankResults_ranks (map snapshot (map snd (participants cd)))) as Hr.
  apply (f_equal (@List.length Z)) in Hr.
  rewrite !length_map, length_seq in Hr. exact Hr.
Qed.

Lemma end_carried_through_witness :
  dbResults (run (EvEnd demoCompetition :: repeat (EvResume 0 true) 5) demoTyped)
  = pushesFrom demoClock 6 (computeFinalResults [alice; bob; carol]).
Proof.
  exact (proj1 (proj2 (end_carried_through demoTyped demoCompetition demoTypedData
                         eq_refl eq_refl eq_refl))).
Defined.

(** X3.  A start that reaches its guard and is turned away changes neither
    the session, nor the store, nor the timers, and leaves nothing in
    flight.  It tells the caller only when the document is missing (and does
    so even when no session is registered); with the document present it is
    silent when no session is registered, and logs a warning when the
    session is in progress. *)
Theorem refused_start_changes_nothing (w : World) (k : nat) (d : StartData) :
  nth_error (tasks w) k = Some (StartAwaitFind d) ->
  startPasses w = false ->
  compData (step (EvResume k true) w) = compData w
  /\ dbCompetition (step (EvResume k true) w) = dbCompetition w
  /\ dbResults (step (EvResume k true) w) = dbResults w
  /\ timers (step (EvResume k true) w) = timers w
  /\ tasks (step (EvResume k true) w) = removeNth k (tasks w)
  /\ effects (step (EvResume k true) w)
     = match dbCompetition w, compData w with
       | None, _ => SocketEmitError "Competition not found" :: effects w
       | Some _, None => effects w
       | Some _, Some _ =>
           ConsoleWarn ("[RACE_CONDITION] Blocked duplicate startCompetition for "
                        ++ competitionId d)
             :: effects w
       end.
Proof.
  intros Hk Hp. simpl. rewrite Hk. simpl.
  unfold startPasses in Hp. unfold startAfterFind. simpl.
  destruct (dbCompetition w) as [c|] eqn:Hdb.
  - destruct (compData w) as [cd|] eqn:Hcd.
    + destruct (competitionInProgress cd); [|discriminate].
      simpl. rewrite Hdb, Hcd. repeat split.
    + simpl. rewrite Hdb, Hcd. repeat split.
  - simpl. rewrite Hdb. repeat split.
Qed.

Lemma refused_start_changes_nothing_witness :
  effects (step (EvResume 0 true) (step (EvStart demoData) demoRunning))
  = ConsoleWarn "[RACE_CONDITION] Blocked duplicate startCompetition for c1"
      :: effects (step (EvStart demoData) demoRunning).
Proof.
  exact (proj2 (proj2 (proj2 (proj2 (proj2
    (refused_start_changes_nothing (step (EvStart demoData) demoRunning) 0 demoData
       eq_refl eq_refl)))))).
Defined.

(** X4.  When the store rejects the update that an accepted start issued,
    the caller is told that the start failed, nothing is broadcast, no timer
    is armed and the stored document is untouched; but the flag stays up and
    the participants stay reset.  The session is then in progress without
    having been announced, and every further start is turned away. *)
Theorem failed_start_update_leaves_flag_up (w : World) (d : StartData) :
  startPasses w = true ->
  effects (step (EvResume (List.length (tasks w)) false) (startAfterFind d w))
  = SocketEmitError "Failed to start competition"
      :: ConsoleError "Start competition error"
      :: DbFindByIdAndUpdate StOngoing (clock w (ticks w)) :: effects w
  /\ inProgress (step (EvResume (List.length (tasks w)) false) (startAfterFind d w)) = true
  /\ compData (step (EvResume (List.length (tasks w)) false) (startAfterFind d w))
     = compData (startAfterFind d w)
  /\ timers (step (EvResume (List.length (tasks w)) false) (startAfterFind d w)) = timers w
  /\ dbCompetition (step (EvResume (List.length (tasks w)) false) (startAfterFind d w))
     = dbCompetition w
  /\ tasks (step (EvResume (List.length (tasks w)) false) (startAfterFind d w)) = tasks w
  /\ startPasses (step (EvResume (List.length (tasks w)) false) (startAfterFind d w)) = false.
Proof.
  intro Hp.
  destruct (startAfterFind_passes d w Hp)
    as (c & cd & Hdb & Hcd & Hflag & H1 & H2 & (cfg & H3) & H4 & H5).
  simpl. rewrite H3, nth_error_snoc, removeNth_snoc. simpl.
  unfold inProgress, startPasses. simpl. rewrite H1, H2, H4, H5, Hdb.
  repeat split.
Qed.

Lemma failed_start_update_leaves_flag_up_witness :
  inProgress (step (EvResume 0 false) (startAfterFind demoData demoWorld)) = true
  /\ startPasses (step (EvResume 0 false) (startAfterFind demoData demoWorld)) = false.
Proof.
  destruct (failed_start_update_leaves_flag_up demoWorld demoData eq_refl)
    as (_ & H1 & _ & _ & _ & _ & H2).
  split; [exact H1 | exact H2].
Defined.

(** X5.  When the update of an accepted start is fulfilled, the stored
    document becomes ongoing with the start's [startedAt], the start is
    broadcast once, and a timer is armed exactly when the mode is timed: one
    timer, due after timeLimit * 1000 ms, added behind those already armed.
    In the other modes the timers are left as they were. *)
Theorem fulfilled_start_arms_timer_iff_timed (w : World) (d : StartData)
        (c : Competition) :
  startPasses w = true ->
  dbCompetition w = Some c ->
  let w1 := step (EvResume (List.length (tasks w)) true) (startAfterFind d w) in
  let c' := markStarted (clock w (ticks w)) c in
  dbCompetition w1 = Some c'
  /\ tasks w1 = tasks w
  /\ inProgress w1 = true
  /\ timers w1 = match mode c with
                 | ModeTimed => timers w ++ [(timeLimit (modeConfig c) * 1000, c')]
                 | _ => timers w
                 end
  /\ exists cfg t,
       effects w1
       = match mode c with
         | ModeTimed => [SetTimeout (timeLimit (modeConfig c) * 1000)]
         | _ => []
         end
         ++ RoomEmitStarted cfg t
         :: DbFindByIdAndUpdate StOngoing (clock w (ticks w)) :: effects w.
Proof.
  intros Hp Hc w1 c'.
  destruct (startAfterFind_passes d w Hp)
    as (c0 & cd & Hdb & Hcd & Hflag & H1 & H2 & (cfg & H3) & H4 & H5).
  assert (c0 = c) by congruence. subst c0.
  subst w1. simpl. rewrite H3, nth_error_snoc, removeNth_snoc. simpl.
  unfold startAfterUpdate, inProgress. simpl.
  change (mode (markStarted (clock w (ticks w)) c)) with (mode c).
  change (modeConfig (markStarted (clock w (ticks w)) c)) with (modeConfig c).
  destruct (mode c); simpl; rewrite ?H1, ?H2, ?H4, ?H5, ?Hdb; simpl;
    (split; [reflexivity|]); (split; [reflexivity|]); (split; [reflexivity|]);
    (split; [reflexivity|]); eexists _, _; reflexivity.
Qed.

Lemma fulfilled_start_arms_timer_iff_timed_witness :
  timers (step (EvResume 0 true) (startAfterFind demoData demoWorld))
  = [(60000, markStarted (demoClock 0) demoCompetition)].
Proof.
  exact (proj1 (proj2 (proj2 (proj2
    (fulfilled_start_arms_timer_iff_timed demoWorld demoData demoCompetition
       eq_refl eq_refl))))).
Defined.

Section StartTimes.

Lemma resetParticipants_times clk t ps :
  map (fun kp => match competitionData (snd kp) with
                 | Some d => cd_testStartTime d
                 | None => None
                 end) (resetParticipants clk t ps)
  = map (fun i => Some (clk (t + i)%nat)) (seq 0 (List.length ps)).
Proof.
  revert t; induction ps as [|[k p] ps IH]; intro t; [reflexivity|].
  cbn [resetParticipants map List.length seq snd competitionData freshData
       cd_testStartTime].
  rewrite Nat.add_0_r. f_equal.
  rewrite IH, <- seq_shift, map_map. apply map_ext. intro i.
  now replace (S t + i)%nat with (t + S i)%nat by lia.
Qed.

End StartTimes.

(** X6.  With a clock that never runs backwards, the times of one accepted
    start are in order: [startedAt] is not later than any participant's
    [testStartTime], and none of these is later than the [startTime]
    announced to the room when the update is fulfilled.  Every participant
    has a [testStartTime] after the reset. *)
Theorem start_times_in_order (w : World) (d : StartData) :
  startPasses w = true ->
  monotoneClock (clock w) ->
  exists cfg announced,
    In (RoomEmitStarted cfg announced)
       (effects (step (EvResume (List.length (tasks w)) true) (startAfterFind d w)))
    /\ Forall (fun x => exists t, x = Some t
                                  /\ clock w (ticks w) <= t /\ t <= announced)
              (testStartTimes (startAfterFind d w)).
Proof.
  intros Hp Hmono.
  destruct (startAfterFind_passes d w Hp)
    as (c & cd & Hdb & Hcd & Hflag & H1 & H2 & (cfg & H3) & H4 & H5).
  exists cfg, (clock w (S (ticks w) + List.length (participants cd))%nat).
  split.
  - simpl. rewrite H3, nth_error_snoc, removeNth_snoc. simpl.
    unfold startAfterUpdate. simpl.
    assert (Hticks : ticks (startAfterFind d w)
                     = (S (ticks w) + List.length (participants cd))%nat).
    { unfold startAfterFind. rewrite Hdb, Hcd, Hflag. reflexivity. }
    assert (Hclock : clock (startAfterFind d w) = clock w).
    { unfold startAfterFind. rewrite Hdb, Hcd, Hflag. reflexivity. }
    rewrite Hticks, Hclock.
    destruct (mode _); simpl; auto.
  - unfold testStartTimes. rewrite H1. simpl.
    rewrite resetParticipants_times. apply Forall_forall.
    intros x Hx. apply in_map_iff in Hx. destruct Hx as (i & <- & Hi).
    apply in_seq in Hi. eexists. split; [reflexivity|].
    split; apply Hmono; lia.
Qed.

Lemma start_times_in_order_witness :
  exists cfg announced,
    In (RoomEmitStarted cfg announced)
       (effects (step (EvResume 0 true) (startAfterFind demoData demoWorld)))
    /\ Forall (fun x => exists t, x = Some t /\ demoClock 0 <= t /\ t <= announced)
              (testStartTimes (startAfterFind demoData demoWorld)).
Proof.
  apply (start_times_in_order demoWorld demoData eq_refl).
  intros a b Hab. change (demoClock a <= demoClock b).
  unfold demoClock. lia.
Defined.

Section LateProgress.

Lemma endLoop_setCompData x c ps fr rest w :
  endLoop c ps fr rest (setCompData x w) = setCompData x (endLoop c ps fr rest w).
Proof.
  induction rest as [|r rest IH]; simpl; [reflexivity|].
  destruct (find _ ps); [reflexivity | exact IH].
Qed.

Lemma resume_end_setCompData x t ok w :
  isEndTask t = true ->
  resume t ok (setCompData x w) = setCompData x (resume t ok w)
  /\ compData (resume t ok w) = compData w.
Proof.
  destruct t as [d | d c cfg st | c ps fr | c ps fr pushed rest | ];
    try discriminate; intros _; destruct ok; simpl; try (split; reflexivity).
  - split.
    + exact (endLoop_setCompData x c ps fr fr (setDbCompetition (Some c) w)).
    + now rewrite (proj1 (endLoop_frame c ps fr fr _)).
  - split.
    + exact (endLoop_setCompData x c ps fr rest
               (setDbResults (dbResults w ++ [pushed]) w)).
    + now rewrite (proj1 (endLoop_frame c ps fr rest _)).
Qed.

End LateProgress.

(** X7.  Once an end is past its guard, what it goes on to write and
    broadcast is fixed: a change made to the participant map by another
    handler while the end is in flight commutes with every later step of
    that end.  Progress that arrives after the snapshot reaches neither the
    stored results nor the final broadcast. *)
Theorem late_progress_misses_the_results (w : World) (k : nat) (ok : bool)
        (t : Task) (ps : list (string * Participant)) :
  nth_error (tasks w) k = Some t ->
  isEndTask t = true ->
  step (EvResume k ok) (step (EvParticipants ps) w)
  = step (EvParticipants ps) (step (EvResume k ok) w).
Proof.
  intros Hk Ht. simpl.
  destruct (compData w) as [cd|] eqn:Hcd.
  - simpl. rewrite Hk.
    destruct (resume_end_setCompData (Some (mkCompData (competitionInProgress cd) ps))
                t ok (setTasks (removeNth k (tasks w)) w) Ht) as [Hcomm Hsame].
    rewrite Hsame. simpl. rewrite Hcd. rewrite <- Hcomm. reflexivity.
  - rewrite Hk.
    destruct (resume_end_setCompData None t ok
                (setTasks (removeNth k (tasks w)) w) Ht) as [_ Hsame].
    rewrite Hsame. simpl. now rewrite Hcd.
Qed.

Lemma late_progress_misses_the_results_witness :
  step (EvResume 0 true) (step (EvParticipants []) demoEnding)
  = step (EvParticipants []) (step (EvResume 0 true) demoEnding).
Proof.
  refine (late_progress_misses_the_results demoEnding 0 true
            (EndAwaitSave _ _ _) [] _ eq_refl).
  vm_compute. reflexivity.
Defined.

Section NoSession.

Lemma step_unregistered e w :
  unregistered w ->
  unregistered (step e w)
  /\ dbCompetition (step e w) = dbCompetition w
  /\ dbResults (step e w) = dbResults w.
Proof.
  intros (Hcd & Htm & Hts & Hfx). unfold unregistered.
  destruct e as [d | c | k | k ok | ps]; simpl.
  - repeat split; try assumption.
    rewrite forallb_app, Hts. reflexivity.
  - unfold handleEndCompetition. rewrite Hcd. repeat split; assumption.
  - rewrite Htm. destruct k; simpl; repeat split; assumption.
  - destruct (nth_error (tasks w) k) as [t|] eqn:Hk; [|repeat split; assumption].
    pose proof (forallb_nth_error _ _ _ _ Hts Hk) as Ht.
    destruct t as [d | | | | ]; try discriminate Ht.
    pose proof (forallb_removeNth isStartAwaitFind k _ Hts) as Hts'.
    destruct ok; simpl.
    + unfold startAfterFind. simpl. rewrite Hcd.
      destruct (dbCompetition w) eqn:Hdb; simpl; repeat split; assumption.
    + simpl. repeat split; assumption.
  - rewrite Hcd. repeat split; assumption.
Qed.

Lemma run_unregistered evs w :
  unregistered w ->
  unregistered (run evs w)
  /\ dbCompetition (run evs w) = dbCompetition w
  /\ dbResults (run evs w) = dbResults w.
Proof.
  revert w; induction evs as [|e evs IH]; intros w Hw;
    [split; [exact Hw | split; reflexivity]|].
  rewrite run_cons.
  destruct (step_unregistered e w Hw) as (H1 & H2 & H3).
  destruct (IH (step e w) H1) as (K1 & K2 & K3).
  split; [exact K1|]. split; congruence.
Qed.

Lemma step_keeps_session e w :
  compData w <> None -> compData (step e w) <> None.
Proof.
  destruct (compData w) as [cd|] eqn:Hcd; [intros _ | congruence].
  destruct e as [d | c | k | k ok | ps]; simpl.
  - congruence.
  - unfold handleEndCompetition. rewrite Hcd.
    destruct (competitionInProgress cd); simpl; congruence.
  - destruct (nth_error (timers w) k) as [[dl c]|]; [|congruence].
    unfold handleEndCompetition. simpl. rewrite Hcd.
    destruct (competitionInProgress cd); simpl; congruence.
  - destruct (nth_error (tasks w) k) as [t|]; [|congruence].
    destruct t as [d | d c cfg st | c ps fr | c ps fr pushed rest | ];
      destruct ok; simpl; try congruence.
    + unfold startAfterFind. simpl. rewrite Hcd.
      destruct (dbCompetition w); [|simpl; congruence].
      destruct (competitionInProgress cd); simpl; congruence.
    + destruct (startAfterUpdate_frame d c cfg st
                  (setTasks (removeNth k (tasks w)) w)) as (-> & _).
      simpl. congruence.
    + rewrite (proj1 (endLoop_frame c ps fr fr _)). simpl. congruence.
    + rewrite (proj1 (endLoop_frame c ps fr rest _)). simpl. congruence.
  - rewrite Hcd. simpl. congruence.
Qed.

(** A timer is only ever armed for a session that is registered, and stays
    armed in front of it: in no reachable state does a callback hold a
    session that the registry does not. *)
Lemma armed_timer_has_session w :
  Reachable w -> compData w = None -> unregistered w.
Proof.
  induction 1 as [w (_ & Hts & Htm & Hfx) | w e _ IH]; intro Hcd.
  - repeat split; try assumption; [now rewrite Hts | now rewrite Hfx].
  - destruct (compData w) as [cd|] eqn:Hw.
    + exfalso. apply (step_keeps_session e w); congruence.
    + apply step_unregistered. now apply IH.
Qed.

Lemma lookups_are_quiet l :
  forallb isLookupOrError l = true ->
  filter isStartAccepted l = [] /\ filter isFinalization l = []
  /\ filter isRoomEmitEnded l = [].
Proof.
  induction l as [|e l IH]; simpl; [repeat split|].
  intro H. apply andb_prop in H. destruct H as [He Hl].
  destruct (IH Hl) as (H1 & H2 & H3).
  destruct e; try discriminate He; simpl; repeat split; assumption.
Qed.

End NoSession.

(** X8.  A competition id for which no session is registered when its
    first request arrives stays without one whatever follows: start
    requests, manual ends, timer events and settled promises in any order.
    No start and no end ever gets past its guard, no timer is armed, the
    stored document and the stored results are never written, nothing is
    sent to the room, and all that is ever done is to look the document up
    and to report errors to the requesting socket and the console. *)
Theorem no_session_no_transition (w0 : World) (evs : list Event) :
  Initial w0 ->
  compData w0 = None ->
  compData (run evs w0) = None
  /\ inProgress (run evs w0) = false
  /\ acceptedStarts (run evs w0) = 0%nat
  /\ finalizations (run evs w0) = 0%nat
  /\ timers (run evs w0) = []
  /\ dbCompetition (run evs w0) = dbCompetition w0
  /\ dbResults (run evs w0) = dbResults w0
  /\ filter isRoomEmitEnded (effects (run evs w0)) = []
  /\ forallb isLookupOrError (effects (run evs w0)) = true.
Proof.
  intros (_ & Hts & Htm & Hfx) Hcd.
  destruct (run_unregistered evs w0) as ((K1 & K2 & _ & K4) & K5 & K6).
  { repeat split; try assumption; [now rewrite Hts | now rewrite Hfx]. }
  destruct (lookups_are_quiet _ K4) as (L1 & L2 & L3).
  unfold inProgress, acceptedStarts, finalizations. rewrite K1, L1, L2.
  repeat split; assumption.
Qed.

Lemma no_session_no_transition_witness :
  acceptedStarts
    (run [EvStart demoData; EvResume 0 true; EvEnd demoCompetition; EvTimer 0;
          EvStart demoData; EvResume 0 false]
         (setCompData None demoWorld)) = 0%nat.
Proof.
  refine (proj1 (proj2 (proj2
    (no_session_no_transition (setCompData None demoWorld)
       [EvStart demoData; EvResume 0 true; EvEnd demoCompetition; EvTimer 0;
        EvStart demoData; EvResume 0 false] _ eq_refl)))).
  repeat split.
Defined.

(** * NetworkManager *)

Section Retry.

Context {A : Type}.

Lemma backoffDelay_bounds a : (1 <= a)%nat -> 1000 <= backoffDelay a <= 5000.
Proof.
  intro Ha. unfold backoffDelay.
  assert (0 < 2 ^ (Z.of_nat a - 1)) by (apply Z.pow_pos_nonneg; lia).
  lia.
Qed.

Lemma waitsOf_app l1 l2 : waitsOf (l1 ++ l2) = waitsOf l1 ++ waitsOf l2.
Proof. unfold waitsOf. apply flat_map_app. Qed.

Lemma callErrorCallbacks_log context cbs :
  forall i log,
    exists q, callErrorCallbacks i cbs context log = q ++ log
              /\ filter isOperationCalled q = []
              /\ waitsOf q = [].
Proof.
  induction cbs as [|cb cbs IHc]; intros i log; [now exists []|].
  simpl. destruct (cb context).
  - destruct (IHc (S i) (PageConsoleError "Error in error callback:"
                           :: ErrorCallbackCalled i context :: log))
      as (q & -> & Hq1 & Hq2).
    exists (q ++ [PageConsoleError "Error in error callback:";
                  ErrorCallbackCalled i context]).
    rewrite <- app_assoc. split; [reflexivity|].
    rewrite filter_app, waitsOf_app, Hq1, Hq2. split; reflexivity.
  - destruct (IHc (S i) (ErrorCallbackCalled i context :: log))
      as (q & -> & Hq1 & Hq2).
    exists (q ++ [ErrorCallbackCalled i context]).
    rewrite <- app_assoc. split; [reflexivity|].
    rewrite filter_app, waitsOf_app, Hq1, Hq2. split; reflexivity.
Qed.

(** Every run of [retryOperation] with enough fuel returns; it calls the
    operation at most as often as attempts are left, only adds to the log,
    and waits within the bounds of the backoff. *)
Lemma retryOperation_run fuel (operation : nat -> option A) context :
  forall calls nm,
    (maxRetries nm - retryAttempts nm < fuel)%nat ->
    exists res calls' nm' q,
      retryOperation fuel operation context calls nm = Some (res, calls', nm')
      /\ (calls <= calls' <= calls + (maxRetries nm - retryAttempts nm))%nat
      /\ pageLog nm' = q ++ pageLog nm
      /\ List.length (filter isOperationCalled q) = (calls' - calls)%nat
      /\ Forall (fun d => 1000 <= d <= 5000) (waitsOf q)
      /\ maxRetries nm' = maxRetries nm
      /\ isOnline nm' = isOnline nm
      /\ (res <> None -> retryAttempts nm' = 0%nat).
Proof.
  induction fuel as [|fuel IH]; intros calls nm Hfuel; [lia|].
  cbn [retryOperation].
  destruct (Nat.leb_spec (maxRetries nm) (retryAttempts nm)) as [Hmax|Hmax].
  - exists None, calls,
      (showNotification (NoteFailedAfter context (maxRetries nm)) nm),
      [ShowNotification (NoteFailedAfter context (maxRetries nm))].
    split; [reflexivity|]. split; [lia|]. split; [reflexivity|].
    split; [cbn [filter isOperationCalled List.length]; lia|]. split; [constructor|].
    split; [reflexivity|]. split; [reflexivity|]. congruence.
  - destruct (isOnline nm) eqn:Hon; cbn [negb].
    2:{ exists None, calls, (showNotification NoteCannotRetryOffline nm),
          [ShowNotification NoteCannotRetryOffline].
        split; [reflexivity|]. split; [lia|]. split; [reflexivity|].
        split; [cbn [filter isOperationCalled List.length]; lia|]. split; [constructor|].
        split; [reflexivity|]. split; [cbn; exact Hon|]. congruence. }
    destruct (operation calls) as [v|].
    + eexists (Some v), (S calls), _,
        [ShowNotification (NoteSuccessful context);
         OperationCalled calls;
         ShowNotification (NoteRetrying context (S (retryAttempts nm)) (maxRetries nm))].
      split; [reflexivity|]. split; [lia|]. split; [reflexivity|].
      split; [cbn [filter isOperationCalled List.length]; lia|]. split; [constructor|].
      split; [reflexivity|]. split; [cbn; exact Hon|]. intros _. reflexivity.
    + cbn [maxRetries retryAttempts pageDo showNotification setPageLog
           setRetryAttempts].
      destruct (Nat.leb_spec (maxRetries nm) (S (retryAttempts nm))) as [Hlast|Hmore].
      * destruct (callErrorCallbacks_log context (errorCallbacks nm) 0%nat
                    (PageConsoleError "Retry attempt failed"
                       :: OperationCalled calls
                       :: ShowNotification
                            (NoteRetrying context (S (retryAttempts nm)) (maxRetries nm))
                       :: pageLog nm)) as (q & Hq & Hq1 & Hq2).
        eexists None, (S calls), _,
          (ShowNotification (NoteFailedAfter context (maxRetries nm))
             :: q ++ [PageConsoleError "Retry attempt failed";
                      OperationCalled calls;
                      ShowNotification
                        (NoteRetrying context (S (retryAttempts nm)) (maxRetries nm))]).
        split; [reflexivity|]. split; [lia|].
        split; [cbn; rewrite Hq, <- app_assoc; reflexivity|].
        split; [cbn [filter isOperationCalled]; rewrite filter_app, Hq1, length_app; cbn [filter isOperationCalled List.length]; lia|].
        split; [change (waitsOf (ShowNotification (NoteFailedAfter context (maxRetries nm))
                                   :: q ++ [PageConsoleError "Retry attempt failed";
                                            OperationCalled calls;
                                            ShowNotification
                                              (NoteRetrying context (S (retryAttempts nm))
                                                            (maxRetries nm))]))
                  with (waitsOf (q ++ [PageConsoleError "Retry attempt failed";
                                       OperationCalled calls;
                                       ShowNotification
                                         (NoteRetrying context (S (retryAttempts nm))
                                                       (maxRetries nm))]));
                rewrite waitsOf_app, Hq2; constructor|].
        split; [reflexivity|]. split; [cbn; exact Hon|]. congruence.
      * set (nm5 := mkNetworkManager (isOnline nm) (connectionStatus nm)
                      (S (retryAttempts nm)) (maxRetries nm) (statusCallbacks nm)
                      (errorCallbacks nm)
                      (Waited (backoffDelay (S (retryAttempts nm)))
                         :: PageConsoleError "Retry attempt failed"
                         :: OperationCalled calls
                         :: ShowNotification
                              (NoteRetrying context (S (retryAttempts nm))
                                            (maxRetries nm))
                         :: pageLog nm)).
        destruct (IH (S calls) nm5) as (res & calls' & nm' & q & Hrun & Hc & Hlog
                                        & Hops & Hw & Hm & Ho & Hr).
        { subst nm5. cbn. lia. }
        exists res, calls', nm',
          (q ++ [Waited (backoffDelay (S (retryAttempts nm)));
                 PageConsoleError "Retry attempt failed";
                 OperationCalled calls;
                 ShowNotification (NoteRetrying context (S (retryAttempts nm))
                                                (maxRetries nm))]).
        split; [exact Hrun|].
        subst nm5. cbn [maxRetries retryAttempts isOnline pageLog] in *.
        split; [lia|].
        split; [rewrite Hlog, <- app_assoc; reflexivity|].
        split; [rewrite filter_app, length_app, Hops; cbn [filter isOperationCalled List.length]; lia|].
        split.
        { rewrite waitsOf_app. apply Forall_app. split; [exact Hw|].
          cbn. constructor; [|constructor].
          apply backoffDelay_bounds. lia. }
        split; [exact Hm|]. split; [congruence|]. exact Hr.
Qed.

End Retry.

Section RetryOutcomes.

Context {A : Type}.

Lemma retryOperation_again fuel (operation : nat -> option A) context calls nm :
  (S (retryAttempts nm) < maxRetries nm)%nat ->
  isOnline nm = true ->
  operation calls = None ->
  retryOperation (S fuel) operation context calls nm
  = retryOperation fuel operation context (S calls) (afterPause context calls nm).
Proof.
  intros Hleft Hon Hfail. cbn [retryOperation].
  destruct (Nat.leb_spec (maxRetries nm) (retryAttempts nm)); [lia|].
  rewrite Hon, Hfail. cbn [negb].
  cbn [maxRetries retryAttempts pageDo showNotification setPageLog setRetryAttempts].
  destruct (Nat.leb_spec (maxRetries nm) (S (retryAttempts nm))); [lia|].
  reflexivity.
Qed.

Lemma retryOperation_first_success (operation : nat -> option A) context v :
  forall j calls nm fuel,
    isOnline nm = true ->
    (j + retryAttempts nm < maxRetries nm)%nat ->
    (forall i, (i < j)%nat -> operation (calls + i)%nat = None) ->
    operation (calls + j)%nat = Some v ->
    (j < fuel)%nat ->
    exists nm',
      retryOperation fuel operation context calls nm
      = Some (Some v, S (calls + j), nm')
      /\ retryAttempts nm' = 0%nat.
Proof.
  induction j as [|j IH]; intros calls nm fuel Hon Hleft Hfail Hok Hfuel;
    (destruct fuel as [|fuel]; [lia|]).
  - cbn [retryOperation].
    destruct (Nat.leb_spec (maxRetries nm) (retryAttempts nm)); [lia|].
    rewrite Nat.add_0_r in Hok. rewrite Hon, Hok. cbn [negb].
    rewrite Nat.add_0_r. eexists. split; reflexivity.
  - assert (H0 : operation calls = None).
    { rewrite <- (Nat.add_0_r calls). apply Hfail. lia. }
    rewrite retryOperation_again by (assumption || lia).
    destruct (IH (S calls) (afterPause context calls nm) fuel) as (nm' & Hrun & Hzero).
    + exact Hon.
    + cbn. lia.
    + intros i Hi. replace (S calls + i)%nat with (calls + S i)%nat by lia.
      apply Hfail. lia.
    + replace (S calls + j)%nat with (calls + S j)%nat by lia. exact Hok.
    + lia.
    + exists nm'. split; [|exact Hzero].
      rewrite Hrun. replace (S calls + j)%nat with (calls + S j)%nat by lia.
      reflexivity.
Qed.

Lemma retryOperation_all_fail context :
  forall n calls nm fuel,
    isOnline nm = true ->
    maxRetries nm = (retryAttempts nm + S n)%nat ->
    (n < fuel)%nat ->
    exists nm' q,
      retryOperation fuel (@alwaysFails A) context calls nm
      = Some (None, (calls + S n)%nat, nm')
      /\ retryAttempts nm' = maxRetries nm
      /\ maxRetries nm' = maxRetries nm
      /\ pageLog nm' = q ++ pageLog nm
      /\ rev (waitsOf q) = map backoffDelay (seq (S (retryAttempts nm)) n).
Proof.
  induction n as [|n IH]; intros calls nm fuel Hon Hmax Hfuel;
    (destruct fuel as [|fuel]; [lia|]).
  - cbn [retryOperation].
    destruct (Nat.leb_spec (maxRetries nm) (retryAttempts nm)); [lia|].
    rewrite Hon. cbn [negb]. unfold alwaysFails at 1.
    cbn [maxRetries retryAttempts pageDo showNotification setPageLog setRetryAttempts].
    destruct (Nat.leb_spec (maxRetries nm) (S (retryAttempts nm))); [|lia].
    destruct (callErrorCallbacks_log context (errorCallbacks nm) 0%nat
                (PageConsoleError "Retry attempt failed"
                   :: OperationCalled calls
                   :: ShowNotification
                        (NoteRetrying context (S (retryAttempts nm)) (maxRetries nm))
                   :: pageLog nm)) as (q & Hq & _ & Hq2).
    eexists _,
      (ShowNotification (NoteFailedAfter context (maxRetries nm))
         :: q ++ [PageConsoleError "Retry attempt failed";
                  OperationCalled calls;
                  ShowNotification
                    (NoteRetrying context (S (retryAttempts nm)) (maxRetries nm))]).
    split; [rewrite Nat.add_1_r; reflexivity|].
    split; [cbn; lia|]. split; [reflexivity|]. split.
    + cbn. rewrite Hq, <- app_assoc. reflexivity.
    + change (waitsOf (ShowNotification (NoteFailedAfter context (maxRetries nm))
                         :: q ++ [PageConsoleError "Retry attempt failed";
                                  OperationCalled calls;
                                  ShowNotification
                                    (NoteRetrying context (S (retryAttempts nm))
                                                  (maxRetries nm))]))
        with (waitsOf (q ++ [PageConsoleError "Retry attempt failed";
                             OperationCalled calls;
                             ShowNotification
                               (NoteRetrying context (S (retryAttempts nm))
                                             (maxRetries nm))])).
      rewrite waitsOf_app, Hq2. reflexivity.
  - rewrite retryOperation_again by (assumption || reflexivity || lia).
    destruct (IH (S calls) (afterPause context calls nm) fuel)
      as (nm' & q & Hrun & Hat & Hm & Hlog & Hw).
    + exact Hon.
    + cbn. lia.
    + lia.
    + exists nm',
        (q ++ [Waited (backoffDelay (S (retryAttempts nm)));
               PageConsoleError "Retry attempt failed";
               OperationCalled calls;
               ShowNotification (NoteRetrying context (S (retryAttempts nm))
                                              (maxRetries nm))]).
      cbn [afterPause maxRetries retryAttempts pageLog pageDo showNotification
           setPageLog setRetryAttempts] in *.
      split; [rewrite Hrun; replace (S calls + S n)%nat with (calls + S (S n))%nat by lia;
              reflexivity|].
      split; [exact Hat|]. split; [exact Hm|]. split.
      * rewrite Hlog, <- app_assoc. reflexivity.
      * rewrite waitsOf_app, rev_app_distr, Hw. reflexivity.
Qed.

End RetryOutcomes.

Section PageLoopSteps.

Context {A : Type}.

Lemma callStatusCallbacks_quiet cbs st online :
  forall i log,
    exists q, callStatusCallbacks i cbs st online log = q ++ log
              /\ filter isOperationCalled q = []
              /\ waitsOf q = [].
Proof.
  induction cbs as [|cb cbs IHc]; intros i log; [now exists []|].
  simpl. destruct (cb st online).
  - destruct (IHc (S i) (PageConsoleError "Error in status callback:"
                           :: StatusCallbackCalled i st online :: log))
      as (q & -> & Hq1 & Hq2).
    exists (q ++ [PageConsoleError "Error in status callback:";
                  StatusCallbackCalled i st online]).
    rewrite <- app_assoc. split; [reflexivity|].
    rewrite filter_app, waitsOf_app, Hq1, Hq2. split; reflexivity.
  - destruct (IHc (S i) (StatusCallbackCalled i st online :: log))
      as (q & -> & Hq1 & Hq2).
    exists (q ++ [StatusCallbackCalled i st online]).
    rewrite <- app_assoc. split; [reflexivity|].
    rewrite filter_app, waitsOf_app, Hq1, Hq2. split; reflexivity.
Qed.

Lemma pauseDelay_bounds a : 500 <= pauseDelay a <= 5000.
Proof.
  destruct a as [|a]; [simpl; lia|].
  pose proof (backoffDelay_bounds (S a)). unfold pauseDelay. lia.
Qed.

(** What one turn of the page's event loop does to the counters and to the
    log.  The attempts that are left only go up at a reset, by at most
    [maxRetries]; every invocation of the operation uses one up. *)
Lemma pageStep_budget (e : PageEvent A) (p : Page A) :
  maxRetries (manager (pageStep e p)) = maxRetries (manager p)
  /\ (invoked (pageStep e p)
      + (maxRetries (manager p) - retryAttempts (manager (pageStep e p)))
      <= invoked p + (maxRetries (manager p) - retryAttempts (manager p))
         + maxRetries (manager p) * (if isReset e then 1 else 0))%nat
  /\ (invoked p <= invoked (pageStep e p))%nat
  /\ exists q,
       pageLog (manager (pageStep e p)) = q ++ pageLog (manager p)
       /\ List.length (filter isOperationCalled q) = (invoked (pageStep e p) - invoked p)%nat
       /\ Forall (fun d => 500 <= d <= 5000) (waitsOf q).
Proof.
  assert (Henter : forall context (p0 : Page A),
    maxRetries (manager (retryEnter context p0)) = maxRetries (manager p0)
    /\ (invoked (retryEnter context p0)
        + (maxRetries (manager p0) - retryAttempts (manager (retryEnter context p0)))
        <= invoked p0 + (maxRetries (manager p0) - retryAttempts (manager p0)))%nat
    /\ (invoked p0 <= invoked (retryEnter context p0))%nat
    /\ exists q,
         pageLog (manager (retryEnter context p0)) = q ++ pageLog (manager p0)
         /\ List.length (filter isOperationCalled q)
            = (invoked (retryEnter context p0) - invoked p0)%nat
         /\ Forall (fun d => 500 <= d <= 5000) (waitsOf q)).
  { intros context p0. unfold retryEnter. cbv zeta.
    destruct (Nat.leb_spec (maxRetries (manager p0)) (retryAttempts (manager p0)))
      as [Hmax|Hmax].
    - cbn -[Nat.sub Nat.mul]. split; [reflexivity|]. split; [lia|]. split; [lia|].
      exists [ShowNotification (NoteFailedAfter context (maxRetries (manager p0)))].
      split; [reflexivity|]. split; [cbn [filter isOperationCalled List.length]; lia | constructor].
    - destruct (isOnline (manager p0)); cbn -[Nat.sub Nat.mul].
      + split; [reflexivity|]. split; [lia|]. split; [lia|].
        exists [OperationCalled (invoked p0);
                ShowNotification (NoteRetrying context (S (retryAttempts (manager p0)))
                                               (maxRetries (manager p0)))].
        split; [reflexivity|]. split; [cbn [filter isOperationCalled List.length]; lia | constructor].
      + split; [reflexivity|]. split; [lia|]. split; [lia|].
        exists [ShowNotification NoteCannotRetryOffline].
        split; [reflexivity|]. split; [cbn [filter isOperationCalled List.length]; lia | constructor]. }
  destruct e as [context | k result | k | | ].
  - cbn [pageStep isReset]. destruct (Henter context p) as (H1 & H2 & H3 & H4).
    split; [exact H1|]. split; [lia|]. split; [exact H3 | exact H4].
  - cbn [pageStep].
    destruct (nth_error (retryTasks p) k) as [[context|context]|].
    2,3: (split; [reflexivity|]; split; [lia|]; split; [lia|]; exists [];
          split; [reflexivity|]; split; [cbn [filter isOperationCalled List.length]; lia | constructor]).
    set (p0 := setRetryTasks (removeNth k (retryTasks p)) p).
    change (manager p) with (manager p0). change (invoked p) with (invoked p0).
    clearbody p0. unfold retrySettled. cbv zeta.
    destruct result as [v|].
    + cbn -[Nat.sub Nat.mul]. split; [reflexivity|]. split; [lia|]. split; [lia|].
      exists [ShowNotification (NoteSuccessful context)].
      split; [reflexivity|]. split; [cbn [filter isOperationCalled List.length]; lia | constructor].
    + cbn [maxRetries retryAttempts pageDo setPageLog isReset].
      destruct (Nat.leb_spec (maxRetries (manager p0)) (retryAttempts (manager p0))).
      * destruct (callErrorCallbacks_log context (errorCallbacks (manager p0)) 0%nat
                    (PageConsoleError "Retry attempt failed" :: pageLog (manager p0)))
          as (q & Hq & Hq1 & Hq2).
        cbn -[Nat.sub Nat.mul]. rewrite Hq. split; [reflexivity|]. split; [lia|]. split; [lia|].
        exists (ShowNotification (NoteFailedAfter context (maxRetries (manager p0)))
                  :: q ++ [PageConsoleError "Retry attempt failed"]).
        split; [cbn; rewrite <- app_assoc; reflexivity|].
        split.
        -- cbn [filter isOperationCalled]. rewrite filter_app, Hq1. cbn [filter isOperationCalled List.length app]. lia.
        -- change (waitsOf (ShowNotification
                              (NoteFailedAfter context (maxRetries (manager p0)))
                              :: q ++ [PageConsoleError "Retry attempt failed"]))
             with (waitsOf (q ++ [PageConsoleError "Retry attempt failed"])).
           rewrite waitsOf_app, Hq2. constructor.
      * cbn -[Nat.sub Nat.mul]. split; [reflexivity|]. split; [lia|]. split; [lia|].
        exists [Waited (pauseDelay (retryAttempts (manager p0)));
                PageConsoleError "Retry attempt failed"].
        split; [reflexivity|]. split; [cbn [filter isOperationCalled List.length]; lia|].
        cbn. constructor; [apply pauseDelay_bounds | constructor].
  - cbn [pageStep isReset].
    destruct (nth_error (retryTasks p) k) as [[context|context]|].
    1,3: (split; [reflexivity|]; split; [lia|]; split; [lia|]; exists [];
          split; [reflexivity|]; split; [cbn [filter isOperationCalled List.length]; lia | constructor]).
    destruct (Henter context (setRetryTasks (removeNth k (retryTasks p)) p))
      as (H1 & H2 & H3 & H4).
    cbn [manager invoked setRetryTasks] in H1, H2, H3, H4.
    split; [exact H1|]. split; [lia|]. split; [exact H3 | exact H4].
  - cbn [pageStep isReset manager invoked setManager].
    unfold onlineEvent, handleOnline, updateConnectionStatus, notifyStatusChange.
    cbn [isOnline setOnline showNotification pageDo setPageLog negb
         setConnectionStatus setRetryAttempts statusCallbacks connectionStatus pageLog
         maxRetries retryAttempts].
    destruct (callStatusCallbacks_quiet (statusCallbacks (manager p)) Connected true 0%nat
                (ShowNotification NoteBackOnline
                   :: PageConsoleLog "Network: Online detected"
                   :: pageLog (manager p))) as (q & Hq & Hq1 & Hq2).
    rewrite Hq. split; [reflexivity|]. split; [lia|]. split; [lia|].
    exists (q ++ [ShowNotification NoteBackOnline;
                  PageConsoleLog "Network: Online detected"]).
    split; [rewrite <- app_assoc; reflexivity|].
    split; [rewrite filter_app, Hq1; cbn [filter isOperationCalled List.length app]; lia|].
    rewrite waitsOf_app, Hq2. constructor.
  - cbn [pageStep isReset manager invoked setManager].
    unfold offlineEvent, handleOffline, notifyStatusChange.
    cbn [isOnline setOnline showNotification pageDo setPageLog negb
         setConnectionStatus setRetryAttempts statusCallbacks connectionStatus pageLog
         maxRetries retryAttempts].
    destruct (callStatusCallbacks_quiet (statusCallbacks (manager p)) Disconnected false
                0%nat
                (ShowNotification NoteOffline
                   :: PageConsoleLog "Network: Offline detected"
                   :: pageLog (manager p))) as (q & Hq & Hq1 & Hq2).
    rewrite Hq. split; [reflexivity|]. split; [lia|]. split; [lia|].
    exists (q ++ [ShowNotification NoteOffline;
                  PageConsoleLog "Network: Offline detected"]).
    split; [rewrite <- app_assoc; reflexivity|].
    split; [rewrite filter_app, Hq1; cbn [filter isOperationCalled List.length app]; lia|].
    rewrite waitsOf_app, Hq2. constructor.
Qed.

Lemma pageRun_cons (e : PageEvent A) evs p :
  pageRun (e :: evs) p = pageRun evs (pageStep e p).
Proof. reflexivity. Qed.

End PageLoopSteps.

(** X9.  However calls of [retryOperation], the settling of their
    operations, the ends of their pauses and the window's online and offline
    events interleave, the operation is invoked at most as often as attempts
    were left at the outset ([maxRetries - retryAttempts]) plus [maxRetries]
    times for every reset of the counter, a reset being an online event or
    an operation that succeeds.  [maxRetries] never changes, the page log
    only grows, and every pause lasts between 500 and 5000 ms. *)
Theorem retry_is_bounded {A : Type} (evs : list (PageEvent A)) (p : Page A) :
  maxRetries (manager (pageRun evs p)) = maxRetries (manager p)
  /\ (invoked (pageRun evs p)
      + (maxRetries (manager p) - retryAttempts (manager (pageRun evs p)))
      <= invoked p + (maxRetries (manager p) - retryAttempts (manager p))
         + maxRetries (manager p) * resets evs)%nat
  /\ (invoked p <= invoked (pageRun evs p))%nat
  /\ exists q,
       pageLog (manager (pageRun evs p)) = q ++ pageLog (manager p)
       /\ List.length (filter isOperationCalled q) = (invoked (pageRun evs p) - invoked p)%nat
       /\ Forall (fun d => 500 <= d <= 5000) (waitsOf q).
Proof.
  revert p; induction evs as [|e evs IH]; intro p.
  - unfold resets. cbn. split; [reflexivity|]. split; [lia|]. split; [lia|].
    exists []. split; [reflexivity|]. split; [cbn; lia | constructor].
  - rewrite pageRun_cons.
    destruct (pageStep_budget e p) as (H1 & H2 & H3 & q1 & Hq1 & Hn1 & Hw1).
    destruct (IH (pageStep e p)) as (K1 & K2 & K3 & q2 & Hq2 & Hn2 & Hw2).
    rewrite H1 in K1, K2.
    assert (Hr : resets (e :: evs) = ((if isReset e then 1 else 0) + resets evs)%nat)
      by (unfold resets; cbn [filter]; destruct (isReset e); reflexivity).
    split; [exact K1|]. split; [rewrite Hr; nia|]. split; [lia|].
    exists (q2 ++ q1). split; [rewrite Hq2, Hq1; apply app_assoc|].
    split; [rewrite filter_app, length_app; lia|].
    rewrite waitsOf_app. apply Forall_app. split; assumption.
Qed.

(** The bound of X9 is reached: with one online event arriving while the
    third attempt is pending, a single call invokes the operation six times,
    and its third pause lasts 500 ms. *)
Example online_event_renews_attempts :
  invoked demoRenewedRetry = 6%nat
  /\ returned demoRenewedRetry = [None]
  /\ rev (waitsOf (pageLog (manager demoRenewedRetry))) = [1000; 2000; 500; 1000; 2000].
Proof. vm_compute. repeat split. Qed.

Section SoloRun.

Context {A : Type}.

Lemma soloSchedule_succ (operation : nat -> option A) calls n :
  soloSchedule operation calls (S n)
  = PgSettle 0 (operation calls) :: PgPauseOver 0 :: soloSchedule operation (S calls) n.
Proof. reflexivity. Qed.

(** A result of the atomic run is the result of the event loop when the
    events of the call follow each other with nothing in between. *)
Lemma retryOperation_solo (operation : nat -> option A) context :
  forall fuel calls nm res calls' nm',
    retryOperation fuel operation context calls nm = Some (res, calls', nm') ->
    (calls <= calls')%nat
    /\ pageRun (PgRetry context :: soloSchedule operation calls (calls' - calls))
               (mkPage nm [] calls [])
       = mkPage nm' [] calls' [res].
Proof.
  induction fuel as [|fuel IH]; intros calls nm res calls' nm' Hrun; [discriminate|].
  cbn [retryOperation] in Hrun. rewrite pageRun_cons.
  cbn [pageStep]. unfold retryEnter. cbv zeta. cbn [manager invoked retryTasks returned].
  destruct (maxRetries nm <=? retryAttempts nm)%nat.
  { injection Hrun as <- <- <-. split; [lia|].
    rewrite Nat.sub_diag. reflexivity. }
  destruct (isOnline nm); cbn [negb] in *.
  2:{ injection Hrun as <- <- <-. split; [lia|].
      rewrite Nat.sub_diag. reflexivity. }
  destruct (operation calls) as [v|] eqn:Hop.
  - injection Hrun as <- <- <-. split; [lia|].
    replace (S calls - calls)%nat with 1%nat by lia.
    rewrite soloSchedule_succ, Hop. reflexivity.
  - cbn [maxRetries retryAttempts pageDo showNotification setPageLog setRetryAttempts]
      in Hrun.
    destruct (maxRetries nm <=? S (retryAttempts nm))%nat eqn:Hlast.
    + injection Hrun as <- <- <-. split; [lia|].
      replace (S calls - calls)%nat with 1%nat by lia.
      rewrite soloSchedule_succ, Hop.
      rewrite !pageRun_cons. cbn [pageStep retryTasks app nth_error].
      unfold retrySettled. cbv zeta.
      cbn [manager maxRetries retryAttempts pageDo showNotification setPageLog
           setRetryAttempts setRetryTasks].
      rewrite Hlast. reflexivity.
    + destruct (IH _ _ _ _ _ Hrun) as (Hle & Hsolo).
      split; [lia|].
      replace (calls' - calls)%nat with (S (calls' - S calls))%nat by lia.
      rewrite soloSchedule_succ, Hop.
      rewrite !pageRun_cons. cbn [pageStep retryTasks app nth_error].
      unfold retrySettled. cbv zeta.
      cbn [manager maxRetries retryAttempts pageDo showNotification setPageLog
           setRetryAttempts setRetryTasks].
      rewrite Hlast.
      cbn [pageStep retryTasks app nth_error removeNth setRetryTasks manager invoked
           returned pauseDelay].
      rewrite pageRun_cons in Hsolo. exact Hsolo.
Qed.

End SoloRun.

(** X26.  A call of [retryOperation] that nothing interleaves with always
    returns, and the event loop gives what the function [retryOperation]
    computes in one go: when the call is entered on a page with no other
    call suspended, and each of its operations settles and each of its
    pauses ends before any other event, the page ends with the same manager
    and the same number of invocations, no call suspended, and the same
    value returned. *)
Theorem solo_retry_is_the_atomic_run {A : Type} (operation : nat -> option A)
        (context : string) (calls : nat) (nm : NetworkManager) :
  exists res calls' nm',
    retryOperation (S (maxRetries nm - retryAttempts nm)) operation context calls nm
    = Some (res, calls', nm')
    /\ (calls <= calls' <= calls + (maxRetries nm - retryAttempts nm))%nat
    /\ pageRun (PgRetry context :: soloSchedule operation calls (calls' - calls))
               (mkPage nm [] calls [])
       = mkPage nm' [] calls' [res].
Proof.
  destruct (retryOperation_run (S (maxRetries nm - retryAttempts nm))
              operation context calls nm)
    as (res & calls' & nm' & q & Hrun & Hcalls & _); [lia|].
  exists res, calls', nm'. split; [exact Hrun|]. split; [exact Hcalls|].
  exact (proj2 (retryOperation_solo operation context _ _ _ _ _ _ Hrun)).
Qed.

(** X10.  While the page is online, [retryOperation] returns the value of
    the first invocation that does not throw, provided it comes before the
    attempts run out: after [j] failures and a success it has invoked the
    operation [j + 1] times, returns that value and has reset the attempt
    counter to 0. *)
Theorem retry_returns_first_success {A : Type} (operation : nat -> option A)
        (context : string) (v : A) (j calls : nat) (nm : NetworkManager) :
  isOnline nm = true ->
  (j + retryAttempts nm < maxRetries nm)%nat ->
  (forall i, (i < j)%nat -> operation (calls + i)%nat = None) ->
  operation (calls + j)%nat = Some v ->
  exists nm',
    retryOperation (S (maxRetries nm - retryAttempts nm)) operation context calls nm
    = Some (Some v, S (calls + j), nm')
    /\ retryAttempts nm' = 0%nat.
Proof.
  intros Hon Hleft Hfail Hok.
  apply retryOperation_first_success; try assumption. lia.
Qed.

Lemma retry_returns_first_success_witness :
  exists nm',
    retryOperation 4 (fun n => if (n =? 2)%nat then Some 7 else None) "save" 0
                   (newNetworkManager true)
    = Some (Some 7, 3%nat, nm')
    /\ retryAttempts nm' = 0%nat.
Proof.
  apply (retry_returns_first_success
           (fun n => if (n =? 2)%nat then Some 7 else None) "save" 7 2 0
           (newNetworkManager true)).
  - reflexivity.
  - simpl. lia.
  - intros i Hi. destruct i as [|[|i]]; [reflexivity | reflexivity | lia].
  - reflexivity.
Defined.

(** X11.  When the page is online and every invocation throws,
    [retryOperation] uses up the attempts that are left: it invokes the
    operation [maxRetries - retryAttempts] times, pausing
    min(1000 * 2^(k-1), 5000) ms after the k-th attempt except the last,
    returns false and leaves the attempt counter at [maxRetries].  The
    counter is not reset by the failure, so from then on every call of
    [retryOperation], whatever the operation, reports failure at once
    without invoking it; an online event is what brings the counter back to
    0. *)
Theorem retry_exhaustion_is_sticky {A : Type} (context : string) (calls : nat)
        (nm : NetworkManager) :
  isOnline nm = true ->
  (retryAttempts nm < maxRetries nm)%nat ->
  exists nm' q,
    retryOperation (S (maxRetries nm - retryAttempts nm)) (@alwaysFails A)
                   context calls nm
    = Some (None, (calls + (maxRetries nm - retryAttempts nm))%nat, nm')
    /\ retryAttempts nm' = maxRetries nm
    /\ maxRetries nm' = maxRetries nm
    /\ pageLog nm' = q ++ pageLog nm
    /\ rev (waitsOf q)
       = map backoffDelay
             (seq (S (retryAttempts nm)) (maxRetries nm - S (retryAttempts nm)))
    /\ (forall (operation : nat -> option A) context2 calls2 fuel,
          retryOperation (S fuel) operation context2 calls2 nm'
          = Some (None, calls2,
                  showNotification (NoteFailedAfter context2 (maxRetries nm')) nm'))
    /\ retryAttempts (onlineEvent nm') = 0%nat.
Proof.
  intros Hon Hleft.
  destruct (@retryOperation_all_fail A context
              (maxRetries nm - S (retryAttempts nm)) calls nm
              (S (maxRetries nm - retryAttempts nm)) Hon)
    as (nm' & q & Hrun & Hat & Hm & Hlog & Hw); [lia | lia |].
  exists nm', q.
  split; [rewrite Hrun; repeat f_equal; lia|].
  split; [exact Hat|]. split; [exact Hm|]. split; [exact Hlog|].
  split; [exact Hw|]. split.
  - intros operation context2 calls2 fuel. cbn [retryOperation].
    destruct (Nat.leb_spec (maxRetries nm') (retryAttempts nm')); [reflexivity|lia].
  - reflexivity.
Qed.

Lemma retry_exhaustion_is_sticky_witness :
  exists nm' q,
    retryAttempts nm' = 3%nat
    /\ pageLog nm' = q ++ pageLog (newNetworkManager true)
    /\ rev (waitsOf q) = [1000; 2000].
Proof.
  destruct (@retry_exhaustion_is_sticky Z "save" 0 (newNetworkManager true) eq_refl)
    as (nm' & q & _ & H2 & _ & H3 & H4 & _); [cbn; lia|].
  exists nm', q. split; [exact H2|]. split; [exact H3 | exact H4].
Defined.

Section Callbacks.

Lemma statusCallsOf_app l1 l2 :
  statusCallsOf (l1 ++ l2) = statusCallsOf l1 ++ statusCallsOf l2.
Proof. unfold statusCallsOf. apply flat_map_app. Qed.

Lemma callStatusCallbacks_log cbs st online :
  forall i log,
    exists q,
      callStatusCallbacks i cbs st online log = q ++ log
      /\ rev (statusCallsOf q) = seq i (List.length cbs)
      /\ filter isReconnectedNotice q = []
      /\ Forall (fun e => match e with
                          | StatusCallbackCalled _ st' online' =>
                              st' = st /\ online' = online
                          | PageConsoleError _ => True
                          | _ => False
                          end) q.
Proof.
  induction cbs as [|cb cbs IH]; intros i log.
  - exists []. repeat split. constructor.
  - simpl. destruct (cb st online).
    + destruct (IH (S i) (PageConsoleError "Error in status callback:"
                            :: StatusCallbackCalled i st online :: log))
        as (q & -> & Hq1 & Hq2 & Hq3).
      exists (q ++ [PageConsoleError "Error in status callback:";
                    StatusCallbackCalled i st online]).
      rewrite <- app_assoc. split; [reflexivity|].
      rewrite statusCallsOf_app, rev_app_distr, filter_app, Hq1, Hq2.
      split; [reflexivity|]. split; [reflexivity|].
      apply Forall_app. split; [exact Hq3|]. repeat constructor.
    + destruct (IH (S i) (StatusCallbackCalled i st online :: log))
        as (q & -> & Hq1 & Hq2 & Hq3).
      exists (q ++ [StatusCallbackCalled i st online]).
      rewrite <- app_assoc. split; [reflexivity|].
      rewrite statusCallsOf_app, rev_app_distr, filter_app, Hq1, Hq2.
      split; [reflexivity|]. split; [reflexivity|].
      apply Forall_app. split; [exact Hq3|]. repeat constructor.
Qed.

(** What [notifyStatusChange] adds to the log, oldest entry first: for
    each callback its call and, exactly when it throws, the console error. *)
Lemma callStatusCallbacks_entries cbs st online :
  forall i log,
    callStatusCallbacks i cbs st online log
    = rev (flat_map
             (fun ic : nat * (ConnectionStatus -> bool -> bool) =>
                StatusCallbackCalled (fst ic) st online
                          :: (if snd ic st online
                              then [PageConsoleError "Error in status callback:"]
                              else []))
             (combine (seq i (List.length cbs)) cbs)) ++ log.
Proof.
  induction cbs as [|cb cbs IH]; intros i log; [reflexivity|].
  cbn [callStatusCallbacks List.length seq combine flat_map fst snd].
  rewrite IH, rev_app_distr, <- app_assoc.
  destruct (cb st online); reflexivity.
Qed.

Lemma statusEntries_observed cbs st online :
  forall i,
    let entries :=
      flat_map
        (fun ic : nat * (ConnectionStatus -> bool -> bool) =>
           StatusCallbackCalled (fst ic) st online
             :: (if snd ic st online
                 then [PageConsoleError "Error in status callback:"]
                 else []))
        (combine (seq i (List.length cbs)) cbs) in
    rev (statusCallsOf (rev entries)) = seq i (List.length cbs)
    /\ List.length (filter isPageConsoleError (rev entries))
       = List.length (filter (fun cb => cb st online) cbs).
Proof.
  induction cbs as [|cb cbs IH]; intro i; cbv zeta; [split; reflexivity|].
  cbn [List.length seq combine flat_map fst snd filter].
  destruct (IH (S i)) as (H1 & H2).
  rewrite rev_app_distr, statusCallsOf_app, rev_app_distr, filter_app, length_app,
    H1, H2.
  destruct (cb st online); split; cbn; try reflexivity; lia.
Qed.

Lemma reconnectListener_notices nm :
  List.length (filter isReconnectedNotice (pageLog (reconnectListener nm)))
  = S (List.length (filter isReconnectedNotice (pageLog nm))).
Proof.
  unfold reconnectListener, notifyStatusChange. simpl.
  destruct (callStatusCallbacks_log (statusCallbacks nm) Connected (isOnline nm) 0%nat
              (ShowNotification NoteReconnected :: pageLog nm))
    as (q & -> & _ & Hq & _).
  rewrite filter_app, Hq. reflexivity.
Qed.

Lemma webSocketErrors_listeners n nm socket :
  reconnectListeners (snd (webSocketErrors n nm socket))
  = (n + reconnectListeners socket)%nat.
Proof.
  unfold webSocketErrors. induction n as [|n IH]; [reflexivity|].
  rewrite Nat.iter_succ. cbn [handleWebSocketError snd reconnectListeners].
  now rewrite IH.
Qed.

End Callbacks.

(** X12.  [notifyStatusChange] calls every registered status callback
    exactly once, in the order of registration, with the current connection
    status and online flag.  A callback that throws is logged to the console
    right after its call and does not keep the later ones from being
    called; a callback that returns adds nothing but its call.  So the
    console errors are as many as the callbacks that throw, and nothing
    else of the manager changes. *)
Theorem every_status_callback_is_called (nm : NetworkManager) :
  exists q,
    notifyStatusChange nm = setPageLog (q ++ pageLog nm) nm
    /\ rev q
       = flat_map
           (fun ic : nat * (ConnectionStatus -> bool -> bool) =>
              StatusCallbackCalled (fst ic) (connectionStatus nm) (isOnline nm)
                        :: (if snd ic (connectionStatus nm) (isOnline nm)
                            then [PageConsoleError "Error in status callback:"]
                            else []))
           (combine (seq 0 (List.length (statusCallbacks nm))) (statusCallbacks nm))
    /\ rev (statusCallsOf q) = seq 0 (List.length (statusCallbacks nm))
    /\ List.length (filter isPageConsoleError q)
       = List.length (filter (fun cb => cb (connectionStatus nm) (isOnline nm))
                             (statusCallbacks nm)).
Proof.
  unfold notifyStatusChange.
  rewrite (callStatusCallbacks_entries (statusCallbacks nm) (connectionStatus nm)
             (isOnline nm) 0%nat (pageLog nm)).
  eexists. split; [reflexivity|].
  split; [apply rev_involutive|].
  exact (statusEntries_observed (statusCallbacks nm) (connectionStatus nm)
           (isOnline nm) 0%nat).
Qed.

(** X13.  Each handled WebSocket error puts one more ['reconnect'] listener
    on the socket and none is ever taken off: after [n] errors on a socket
    that had [m] of them, a single reconnect event runs [n + m] listeners
    and shows the reconnected notification [n + m] times. *)
Theorem reconnect_listeners_accumulate (n : nat) (nm : NetworkManager)
        (socket : Socket) :
  reconnectListeners (snd (webSocketErrors n nm socket))
  = (n + reconnectListeners socket)%nat
  /\ forall nm1,
       List.length (filter isReconnectedNotice
                      (pageLog (reconnectEvent (snd (webSocketErrors n nm socket)) nm1)))
       = (n + reconnectListeners socket
          + List.length (filter isReconnectedNotice (pageLog nm1)))%nat.
Proof.
  split; [apply webSocketErrors_listeners|].
  intro nm1. unfold reconnectEvent. rewrite webSocketErrors_listeners.
  induction (n + reconnectListeners socket)%nat as [|k IH]; [reflexivity|].
  rewrite Nat.iter_succ, reconnectListener_notices, IH. reflexivity.
Qed.

(** * Creating a competition *)

Section CreateProperties.

Variable trim : string -> string.

Lemma missingOrBelow_false x bound :
  missingOrBelow x bound = false -> exists q, x = Some q /\ (bound <= q)%Q.
Proof.
  destruct x as [q|]; [|discriminate]. simpl. intro H.
  apply orb_false_elim in H. destruct H as [_ H].
  apply negb_false_iff, Qle_bool_iff in H. now exists q.
Qed.

Lemma missingOrEmpty_false {B : Type} (l : option (list B)) :
  missingOrEmpty l = false -> exists x xs, l = Some (x :: xs).
Proof.
  destruct l as [[|x xs]|]; try discriminate. intros _. now exists x, xs.
Qed.

Lemma badMaxPlayers_false m :
  badMaxPlayers m = false ->
  forall v, m = Some v -> exists q, v = JsNumber q /\ (1 <= q)%Q.
Proof.
  intros H v ->. destruct v as [q|]; [|discriminate].
  simpl in H. apply negb_false_iff, Qle_bool_iff in H. now exists q.
Qed.

Lemma buildRounds_length clk t i rounds :
  List.length (buildRounds trim clk t i rounds) = List.length rounds.
Proof.
  revert t i; induction rounds as [|r rounds IH]; intros t i; simpl;
    [reflexivity | now rewrite IH].
Qed.

Lemma buildRounds_numbers clk t i rounds :
  map rd_roundNumber (buildRounds trim clk t i rounds)
  = map (fun k => i + Z.of_nat k) (seq 1 (List.length rounds)).
Proof.
  revert t i; induction rounds as [|r rounds IH]; intros t i; [reflexivity|].
  cbn [buildRounds map List.length seq rd_roundNumber].
  rewrite IH. f_equal.
  rewrite <- (seq_shift (List.length rounds) 1), map_map.
  apply map_ext. intro k. lia.
Qed.

Lemma buildRounds_fields clk t i rounds :
  map rd_text (buildRounds trim clk t i rounds) = map (fun r => trim (ri_text r)) rounds
  /\ map rd_duration (buildRounds trim clk t i rounds) = map ri_duration rounds
  /\ Forall (fun r => rd_status r = "pending"%string /\ rd_results r = []
                      /\ rd_startedAt r = None /\ rd_endedAt r = None)
            (buildRounds trim clk t i rounds).
Proof.
  revert t i; induction rounds as [|r rounds IH]; intros t i; simpl.
  - repeat split. constructor.
  - destruct (IH (S t) (i + 1)) as (H1 & H2 & H3).
    rewrite H1, H2. repeat split. constructor; [repeat split | exact H3].
Qed.

(** The outcome of the handler once the five checks are passed. *)
Lemma createCompetition_accepted oid oname code clk t body doc :
  createCompetition trim oid oname code clk t body = CreateAccepted doc ->
  let mode := match cb_mode body with Some m => m | None => "rounds"%string end in
  let modeConfig := match cb_modeConfig body with
                    | Some mc => mc
                    | None => mkModeConfigInput None None None
                    end in
  (String.eqb mode "timed" && missingOrBelow (mc_timeLimit modeConfig) 30%Q = false)
  /\ (String.eqb mode "word-count"
      && missingOrBelow (mc_targetWords modeConfig) 10%Q = false)
  /\ (String.eqb mode "word-count" && missingOrEmpty (mc_textPool modeConfig) = false)
  /\ (String.eqb mode "rounds" && missingOrEmpty (cb_rounds body) = false)
  /\ badMaxPlayers (cb_maxPlayers body) = false
  /\ doc_mode doc = mode
  /\ doc_modeConfig doc = modeConfig
  /\ doc_maxPlayers doc = cb_maxPlayers body
  /\ doc_status doc = "pending"%string
  /\ doc_currentRound doc = -1
  /\ doc_roundsCompleted doc = 0
  /\ doc_finalRankings doc = []
  /\ doc_code doc = code
  /\ doc_rounds doc
     = match cb_rounds body with
       | Some rounds => if String.eqb mode "rounds"
                        then Some (buildRounds trim clk (S t) 0 rounds)
                        else None
       | None => None
       end
  /\ doc_totalRounds doc
     = match cb_rounds body with
       | Some rounds => if String.eqb mode "rounds"
                        then Z.of_nat (List.length rounds) else 0
       | None => 0
       end.
Proof.
  intro H. cbv zeta. unfold createCompetition in H. cbv zeta in H.
  set (mode := match cb_mode body with Some m => m | None => "rounds"%string end) in *.
  set (modeConfig := match cb_modeConfig body with
                     | Some mc => mc
                     | None => mkModeConfigInput None None None
                     end) in *.
  destruct (String.eqb mode "timed" && missingOrBelow (mc_timeLimit modeConfig) 30%Q);
    [discriminate|].
  destruct (String.eqb mode "word-count"
            && missingOrBelow (mc_targetWords modeConfig) 10%Q); [discriminate|].
  destruct (String.eqb mode "word-count" && missingOrEmpty (mc_textPool modeConfig));
    [discriminate|].
  destruct (String.eqb mode "rounds" && missingOrEmpty (cb_rounds body));
    [discriminate|].
  destruct (badMaxPlayers (cb_maxPlayers body)); [discriminate|].
  injection H as <-. cbn [doc_mode doc_modeConfig doc_maxPlayers doc_status
                          doc_currentRound doc_roundsCompleted doc_finalRankings
                          doc_code doc_rounds doc_totalRounds].
  repeat (split; [reflexivity|]).
  split; destruct (cb_rounds body); reflexivity.
Qed.

End CreateProperties.

(** X14.  Every competition that the create handler accepts meets the
    requirements of its mode: a timed one has a time limit of at least 30
    seconds, a word-count one a target of at least 10 words and a text pool
    that is not empty, a rounds one at least one round; and [maxPlayers],
    when given, is a number not below 1.  The document starts out pending,
    with no current round, no completed round and no final ranking. *)
Theorem accepted_competitions_meet_their_mode (trim : string -> string)
        (organizerId organizerName code : string) (clk : nat -> Z) (t : nat)
        (body : CreateBody) (doc : CompetitionDoc) :
  createCompetition trim organizerId organizerName code clk t body
  = CreateAccepted doc ->
  (doc_mode doc = "timed"%string ->
     exists q, mc_timeLimit (doc_modeConfig doc) = Some q /\ (30 <= q)%Q)
  /\ (doc_mode doc = "word-count"%string ->
        (exists q, mc_targetWords (doc_modeConfig doc) = Some q /\ (10 <= q)%Q)
        /\ exists x xs, mc_textPool (doc_modeConfig doc) = Some (x :: xs))
  /\ (doc_mode doc = "rounds"%string ->
        exists r rs, doc_rounds doc = Some (r :: rs)
                     /\ doc_totalRounds doc = Z.of_nat (S (List.length rs)))
  /\ (forall v, doc_maxPlayers doc = Some v -> exists q, v = JsNumber q /\ (1 <= q)%Q)
  /\ doc_status doc = "pending"%string
  /\ doc_currentRound doc = -1
  /\ doc_roundsCompleted doc = 0
  /\ doc_finalRankings doc = [].
Proof.
  intro H.
  destruct (createCompetition_accepted trim _ _ _ _ _ _ _ H)
    as (H1 & H2 & H3 & H4 & H5 & Hm & Hc & Hp & Hst & Hcr & Hrc & Hfr & _ & Hr & Htr).
  rewrite Hm, Hc, Hp.
  split; [|split; [|split; [|split; [|repeat split; assumption]]]].
  - intro Hmode. rewrite Hmode in H1. simpl in H1.
    now apply missingOrBelow_false.
  - intro Hmode. rewrite Hmode in H2, H3. simpl in H2, H3. split.
    + now apply missingOrBelow_false.
    + now apply missingOrEmpty_false.
  - intro Hmode. rewrite Hr, Htr. rewrite Hmode in *. simpl in *.
    destruct (missingOrEmpty_false _ H4) as (x & xs & ->). simpl.
    eexists _, _. split; [reflexivity|].
    now rewrite buildRounds_length.
  - now apply badMaxPlayers_false.
Qed.

Lemma accepted_competitions_meet_their_mode_witness :
  exists doc,
    createCompetition (fun s => s) "org1" "Ada" "AB12C" demoClock 0 demoTimedBody
    = CreateAccepted doc
    /\ exists q, mc_timeLimit (doc_modeConfig doc) = Some q /\ (30 <= q)%Q.
Proof.
  eexists. split; [reflexivity|].
  exact (proj1 (accepted_competitions_meet_their_mode (fun s => s) "org1" "Ada" "AB12C"
                  demoClock 0 demoTimedBody _ eq_refl) eq_refl).
Defined.

(** X15.  The rounds of an accepted rounds-mode competition are the rounds
    of the request in the same order, numbered 1, 2, ..., n, each with its
    text trimmed and its duration as sent, each pending with no results and
    no start or end time; [totalRounds] is their number. *)
Theorem created_rounds_are_numbered (trim : string -> string)
        (organizerId organizerName code : string) (clk : nat -> Z) (t : nat)
        (body : CreateBody) (doc : CompetitionDoc) (rs : list RoundDoc) :
  createCompetition trim organizerId organizerName code clk t body
  = CreateAccepted doc ->
  doc_rounds doc = Some rs ->
  exists rounds,
    cb_rounds body = Some rounds
    /\ map rd_roundNumber rs = map Z.of_nat (seq 1 (List.length rounds))
    /\ map rd_text rs = map (fun r => trim (ri_text r)) rounds
    /\ map rd_duration rs = map ri_duration rounds
    /\ Forall (fun r => rd_status r = "pending"%string /\ rd_results r = []
                        /\ rd_startedAt r = None /\ rd_endedAt r = None) rs
    /\ doc_totalRounds doc = Z.of_nat (List.length rs).
Proof.
  intros H Hrs.
  destruct (createCompetition_accepted trim _ _ _ _ _ _ _ H)
    as (_ & _ & _ & _ & _ & _ & _ & _ & _ & _ & _ & _ & _ & Hr & Htr).
  rewrite Hrs in Hr. rewrite Htr.
  destruct (cb_rounds body) as [rounds|]; [|discriminate].
  destruct (String.eqb _ "rounds"); [|discriminate].
  injection Hr as ->. exists rounds.
  destruct (buildRounds_fields trim clk (S t) 0 rounds) as (H1 & H2 & H3).
  split; [reflexivity|]. split.
  - rewrite buildRounds_numbers. apply map_ext. intro k. lia.
  - repeat split; try assumption. now rewrite buildRounds_length.
Qed.

Lemma created_rounds_are_numbered_witness :
  exists doc rs,
    createCompetition (fun s => s) "org1" "Ada" "AB12C" demoClock 0 demoBody
    = CreateAccepted doc
    /\ doc_rounds doc = Some rs
    /\ map rd_roundNumber rs = [1; 2].
Proof.
  eexists _, _. split; [reflexivity|]. split; [reflexivity|].
  destruct (created_rounds_are_numbered (fun s => s) "org1" "Ada" "AB12C"
              demoClock 0 demoBody _ _ eq_refl eq_refl)
    as (rounds & Hb & Hn & _).
  injection Hb as <-. exact Hn.
Defined.



(** * The performance heatmap *)

Section Heatmap.

Lemma replaceNth_length {B : Type} (l : list B) i x :
  List.length (replaceNth l i x) = List.length l.
Proof.
  revert i; induction l as [|y l IH]; intros [|i]; simpl; try reflexivity.
  now rewrite IH.
Qed.

Lemma nth_error_replaceNth {B : Type} (l : list B) i x j :
  nth_error (replaceNth l i x) j
  = if (i =? j)%nat
    then match nth_error l i with Some _ => Some x | None => None end
    else nth_error l j.
Proof.
  revert i j; induction l as [|y l IH]; intros i j.
  - destruct i, j; simpl; try reflexivity; now destruct (i =? j)%nat.
  - destruct i as [|i], j as [|j]; simpl; try reflexivity. apply IH.
Qed.

Lemma arraySet_length a i v :
  (i < List.length a)%nat -> List.length (arraySet a i v) = List.length a.
Proof.
  revert i; induction a as [|c a IH]; intros i Hi; simpl in Hi; [lia|].
  destruct i as [|i]; simpl; [reflexivity|]. rewrite IH; [reflexivity | lia].
Qed.

Lemma nth_error_arraySet a i v j :
  (i < List.length a)%nat ->
  nth_error (arraySet a i v) j
  = if (i =? j)%nat then Some (Some v) else nth_error a j.
Proof.
  revert i j; induction a as [|c a IH]; intros i j Hi; simpl in Hi; [lia|].
  destruct i as [|i], j as [|j]; simpl; try reflexivity.
  apply IH. lia.
Qed.

Lemma arraySet_full a i v :
  (i < List.length a)%nat ->
  Forall (fun c => c <> None) a -> Forall (fun c => c <> None) (arraySet a i v).
Proof.
  revert i; induction a as [|c a IH]; intros i Hi Hfull; simpl in Hi; [lia|].
  inversion Hfull; subst.
  destruct i as [|i]; simpl; constructor; try assumption; try discriminate.
  apply IH; [lia | assumption].
Qed.

Lemma replaceNth_full (g : Grid) i row :
  fullGrid g ->
  List.length row = 24%nat -> Forall (fun c => c <> None) row ->
  fullGrid (replaceNth g i row).
Proof.
  intros [Hlen Hrows] Hrow Hfull. split; [now rewrite replaceNth_length|].
  clear Hlen. revert i; induction g as [|r g IH]; intros i; [destruct i; constructor|].
  inversion Hrows; subst.
  destruct i as [|i]; simpl; constructor; try assumption; [now split | now apply IH].
Qed.

Lemma fullGrid_row (g : Grid) y :
  fullGrid g -> (y < 7)%nat ->
  exists row, nth_error g y = Some row
              /\ List.length row = 24%nat /\ Forall (fun c => c <> None) row.
Proof.
  intros [Hlen Hrows] Hy.
  destruct (nth_error g y) as [row|] eqn:Hrow.
  - exists row. split; [reflexivity|].
    rewrite Forall_forall in Hrows. apply Hrows.
    eapply nth_error_In; eassumption.
  - apply nth_error_None in Hrow. lia.
Qed.

Lemma itemHasKey_spec y x item d h :
  hi_dayOfWeek item = Some d -> hi_hour item = Some h ->
  1 <= d -> 0 <= h ->
  itemHasKey y x item
  = ((Z.to_nat (d - 1) =? y)%nat && (Z.to_nat h =? x)%nat).
Proof.
  intros Hd Hh Hd1 Hh0. unfold itemHasKey. rewrite Hd, Hh.
  destruct (Z.eqb_spec d (Z.of_nat y + 1)), (Nat.eqb_spec (Z.to_nat (d - 1)) y);
    try lia;
    destruct (Z.eqb_spec h (Z.of_nat x)), (Nat.eqb_spec (Z.to_nat h) x);
    try lia; reflexivity.
Qed.

(** One group whose key is in range: both grids stay full, and in the
    activity grid the cell of the key takes the group's count. *)
Lemma heatmapStep_inRange g wg item :
  fullGrid g -> fullGrid wg -> itemInRange item ->
  exists g' wg',
    heatmapStep (g, wg) item = Some (g', wg')
    /\ fullGrid g' /\ fullGrid wg'
    /\ forall y x,
         cellAt g' y x
         = if itemHasKey y x item then Some (hi_count item) else cellAt g y x.
Proof.
  intros Hg Hwg [(d & Hd & Hd1) (h & Hh & Hh1)].
  assert (Hday : (Z.to_nat (d - 1) < 7)%nat) by lia.
  assert (Hhour : (Z.to_nat h < 24)%nat) by lia.
  destruct (fullGrid_row g _ Hg Hday) as (row & Hrow & Hrlen & Hrfull).
  destruct (fullGrid_row wg _ Hwg Hday) as (wrow & Hwrow & Hwlen & Hwfull).
  unfold heatmapStep, rowOf. rewrite Hd, Hh. cbn [fst snd arrayAssign].
  destruct (Z.leb_spec 0 (d - 1)); [|lia].
  destruct (Z.leb_spec 0 h); [|lia].
  rewrite Hrow, Hwrow.
  eexists _, _. split; [reflexivity|].
  split; [|split].
  - apply replaceNth_full; [exact Hg | | ].
    + rewrite arraySet_length; [exact Hrlen | lia].
    + apply arraySet_full; [lia | exact Hrfull].
  - apply replaceNth_full; [exact Hwg | | ].
    + rewrite arraySet_length; [exact Hwlen | lia].
    + apply arraySet_full; [lia | exact Hwfull].
  - intros y x. unfold cellAt.
    rewrite nth_error_replaceNth, Hrow.
    rewrite (itemHasKey_spec y x item d h Hd Hh) by lia.
    destruct (Nat.eqb_spec (Z.to_nat (d - 1)) y) as [Hy|Hy]; cbn [andb].
    + rewrite nth_error_arraySet by lia.
      destruct (Nat.eqb_spec (Z.to_nat h) x); [reflexivity|].
      subst y. now rewrite Hrow.
    + reflexivity.
Qed.

Lemma heatmapFill_inRange items :
  Forall itemInRange items ->
  forall g wg,
    fullGrid g -> fullGrid wg ->
    exists g' wg',
      heatmapFill items (g, wg) = Some (g', wg')
      /\ fullGrid g' /\ fullGrid wg'
      /\ forall y x acc,
           cellAt g y x = Some acc ->
           cellAt g' y x = Some (lastCount items y x acc).
Proof.
  induction 1 as [|item items Hitem _ IH]; intros g wg Hg Hwg.
  - exists g, wg. split; [reflexivity|]. split; [exact Hg|]. split; [exact Hwg|].
    intros y x acc H. exact H.
  - destruct (heatmapStep_inRange g wg item Hg Hwg Hitem)
      as (g1 & wg1 & Hstep & Hg1 & Hwg1 & Hcell).
    destruct (IH g1 wg1 Hg1 Hwg1) as (g' & wg' & Hfill & Hg' & Hwg' & Hlast).
    exists g', wg'. cbn [heatmapFill]. rewrite Hstep.
    split; [exact Hfill|]. split; [exact Hg'|]. split; [exact Hwg'|].
    intros y x acc Hacc. cbn [lastCount]. apply Hlast.
    rewrite Hcell. destruct (itemHasKey y x item); [reflexivity | exact Hacc].
Qed.

Lemma emptyGrid_full : fullGrid emptyGrid.
Proof.
  split; [reflexivity|]. unfold emptyGrid.
  apply Forall_forall. intros row Hrow. apply repeat_spec in Hrow. subst row.
  split; [reflexivity|].
  apply Forall_forall. intros c Hc. apply repeat_spec in Hc. now subst c.
Qed.

Lemma emptyGrid_cell y x :
  (y < 7)%nat -> (x < 24)%nat -> cellAt emptyGrid y x = Some 0.
Proof.
  intros Hy Hx. unfold cellAt, emptyGrid.
  rewrite nth_error_repeat by exact Hy. now rewrite nth_error_repeat by exact Hx.
Qed.

Lemma heatmapStep_lengths (gs : Grid * Grid) item gs' :
  heatmapStep gs item = Some gs' ->
  List.length (fst gs') = List.length (fst gs).
Proof.
  unfold heatmapStep. cbv zeta.
  destruct (rowOf (fst gs) _); [|discriminate].
  destruct (rowOf (snd gs) _); [|discriminate].
  intro H. injection H as <-. cbn [fst]. apply replaceNth_length.
Qed.

Lemma heatmapStep_throws (gs : Grid * Grid) item :
  List.length (fst gs) = 7%nat -> dayOutOfRange item -> heatmapStep gs item = None.
Proof.
  intros Hlen Hbad. unfold dayOutOfRange in Hbad.
  unfold heatmapStep, rowOf. cbv zeta.
  destruct (hi_dayOfWeek item) as [d|]; [|reflexivity].
  destruct (Z.leb_spec 0 (d - 1)); [|reflexivity].
  assert (Hrow : nth_error (fst gs) (Z.to_nat (d - 1)) = None)
    by (apply nth_error_None; lia).
  now rewrite Hrow.
Qed.

Lemma heatmapFill_throws items :
  forall (gs : Grid * Grid) item,
    List.length (fst gs) = 7%nat ->
    In item items -> dayOutOfRange item ->
    heatmapFill items gs = None.
Proof.
  induction items as [|it items IH]; intros gs item Hlen Hin Hbad; [contradiction|].
  cbn [heatmapFill].
  destruct (heatmapStep gs it) as [gs'|] eqn:Hstep; [|reflexivity].
  destruct Hin as [-> | Hin].
  - rewrite (heatmapStep_throws gs item Hlen Hbad) in Hstep. discriminate.
  - apply (IH gs' item); try assumption.
    rewrite (heatmapStep_lengths _ _ _ Hstep). exact Hlen.
Qed.

Lemma rowPoints_In y row :
  forall x0 p,
    In p (rowPoints y x0 row)
    <-> hp_y p = y /\ (x0 <= hp_x p)%nat
        /\ nth_error row (hp_x p - x0) = Some (Some (hp_v p)) /\ 0 < hp_v p.
Proof.
  induction row as [|c row IH]; intros x0 p; cbn [rowPoints].
  - split; [contradiction|]. intros (_ & _ & H & _).
    destruct (hp_x p - x0)%nat; discriminate.
  - rewrite in_app_iff, IH. split.
    + intros [H | (Hy & Hx & Hn & Hv)].
      * destruct c as [a|]; [|contradiction].
        destruct (Z.ltb_spec 0 a); [|contradiction].
        destruct H as [<- | []]. cbn. rewrite Nat.sub_diag.
        repeat split; first [lia | reflexivity].
      * split; [exact Hy|]. split; [lia|]. split; [|exact Hv].
        replace (hp_x p - x0)%nat with (S (hp_x p - S x0)) by lia. exact Hn.
    + intros (Hy & Hx & Hn & Hv).
      destruct (Nat.eq_dec (hp_x p) x0) as [Heq|Hneq].
      * left. rewrite Heq, Nat.sub_diag in Hn. cbn in Hn. injection Hn as ->.
        destruct (Z.ltb_spec 0 (hp_v p)); [|lia].
        left. destruct p; cbn in *; subst. reflexivity.
      * right. split; [exact Hy|]. split; [lia|]. split; [|exact Hv].
        replace (hp_x p - x0)%nat with (S (hp_x p - S x0)) in Hn by lia. exact Hn.
Qed.

Lemma gridPoints_In (g : Grid) :
  forall y0 p,
    In p (gridPoints y0 g)
    <-> (y0 <= hp_y p)%nat /\ 0 < hp_v p
        /\ cellAt g (hp_y p - y0) (hp_x p) = Some (hp_v p).
Proof.
  induction g as [|row g IH]; intros y0 p; cbn [gridPoints].
  - split; [contradiction|]. intros (_ & _ & H).
    unfold cellAt in H. destruct (hp_y p - y0)%nat; discriminate.
  - rewrite in_app_iff, IH, rowPoints_In. rewrite Nat.sub_0_r. split.
    + intros [(Hy & _ & Hn & Hv) | (Hy & Hv & Hc)].
      * split; [lia|]. split; [exact Hv|].
        rewrite Hy, Nat.sub_diag. unfold cellAt. cbn. now rewrite Hn.
      * split; [lia|]. split; [exact Hv|].
        replace (hp_y p - y0)%nat with (S (hp_y p - S y0)) by lia. exact Hc.
    + intros (Hy & Hv & Hc).
      destruct (Nat.eq_dec (hp_y p) y0) as [Heq|Hneq].
      * left. split; [exact Heq|]. split; [lia|]. split; [|exact Hv].
        rewrite Heq, Nat.sub_diag in Hc. unfold cellAt in Hc. cbn in Hc.
        destruct (nth_error row (hp_x p)) as [c|]; [|discriminate]. now rewrite Hc.
      * right. split; [lia|]. split; [exact Hv|].
        replace (hp_y p - y0)%nat with (S (hp_y p - S y0)) in Hc by lia. exact Hc.
Qed.

End Heatmap.

Section HeatmapCounts.

Lemma itemHasKey_true y x item :
  itemHasKey y x item = true
  <-> hi_dayOfWeek item = Some (Z.of_nat y + 1) /\ hi_hour item = Some (Z.of_nat x).
Proof.
  unfold itemHasKey.
  destruct (hi_dayOfWeek item) as [d|], (hi_hour item) as [h|];
    try (split; [discriminate | intros [? ?]; discriminate]).
  rewrite andb_true_iff, !Z.eqb_eq. split.
  - intros [-> ->]. split; reflexivity.
  - intros [Hd Hh]. injection Hd as ->. injection Hh as ->. split; reflexivity.
Qed.

Lemma lastCount_none items y x :
  forall acc,
    (forall item, In item items -> itemHasKey y x item = false) ->
    lastCount items y x acc = acc.
Proof.
  induction items as [|it items IH]; intros acc Hno; [reflexivity|].
  cbn [lastCount]. rewrite (Hno it (or_introl eq_refl)).
  apply IH. intros item Hin. apply Hno. now right.
Qed.

Lemma lastCount_origin items y x :
  forall acc,
    lastCount items y x acc = acc
    \/ exists item, In item items /\ itemHasKey y x item = true
                    /\ hi_count item = lastCount items y x acc.
Proof.
  induction items as [|it items IH]; intros acc; [now left|].
  cbn [lastCount]. destruct (itemHasKey y x it) eqn:Hkey.
  - right. destruct (IH (hi_count it)) as [Heq | (item & Hin & Hk & Hc)].
    + exists it. rewrite Heq. repeat split; [now left | exact Hkey].
    + exists item. repeat split; [now right | exact Hk | exact Hc].
  - destruct (IH acc) as [Heq | (item & Hin & Hk & Hc)]; [now left|].
    right. exists item. repeat split; [now right | exact Hk | exact Hc].
Qed.

Lemma lastCount_unique items y x :
  forall acc item,
    NoDup (map heatKey items) ->
    In item items -> itemHasKey y x item = true ->
    lastCount items y x acc = hi_count item.
Proof.
  induction items as [|it items IH]; intros acc item Hnd Hin Hkey; [contradiction|].
  cbn [map] in Hnd. inversion Hnd as [|? ? Hfresh Hnd']; subst.
  cbn [lastCount]. destruct Hin as [-> | Hin].
  - rewrite Hkey. apply lastCount_none.
    intros other Hother. destruct (itemHasKey y x other) eqn:Hk; [|reflexivity].
    exfalso. apply Hfresh.
    apply itemHasKey_true in Hkey, Hk. destruct Hkey as [Hd Hh], Hk as [Hd' Hh'].
    replace (heatKey item) with (heatKey other)
      by (unfold heatKey; now rewrite Hd, Hh, Hd', Hh').
    now apply in_map.
  - now apply IH.
Qed.

Lemma fullGrid_cell_bounds (g : Grid) y x v :
  fullGrid g -> cellAt g y x = Some v -> (y < 7)%nat /\ (x < 24)%nat.
Proof.
  intros [Hlen Hrows] Hc. unfold cellAt in Hc.
  destruct (nth_error g y) as [row|] eqn:Hrow; [|discriminate].
  destruct (nth_error row x) as [c|] eqn:Hx; [|discriminate].
  assert (Hy : nth_error g y <> None) by (rewrite Hrow; discriminate).
  assert (Hx' : nth_error row x <> None) by (rewrite Hx; discriminate).
  apply nth_error_Some in Hy, Hx'.
  rewrite Forall_forall in Hrows.
  destruct (Hrows row (nth_error_In _ _ Hrow)) as [Hr _]. lia.
Qed.

End HeatmapCounts.

(** X17.  The points of the bubble chart are exactly the positive cells of
    the activity grid: a point with coordinates (x, y) and value v is drawn
    if and only if v > 0 and row y, column x of the grid holds v.  Zero
    cells, holes and nulls give no point. *)
Theorem heat_points_are_the_positive_cells (g : Grid) (p : HeatPoint) :
  In p (activityData g)
  <-> 0 < hp_v p /\ cellAt g (hp_y p) (hp_x p) = Some (hp_v p).
Proof.
  unfold activityData. rewrite gridPoints_In, Nat.sub_0_r.
  split; [intros (_ & Hv & Hc) | intros (Hv & Hc)]; repeat split;
    try assumption; lia.
Qed.

(** X18.  When every group has a day of the week from 1 to 7 and an hour
    from 0 to 23, the route answers with two grids of 7 rows of 24 numbers
    and no hole, and the activity cell of day d - 1, hour h holds the count
    of the last group with key (d, h), or 0 when there is none. *)
Theorem heatmap_grids_hold_the_counts (items : list HeatItem) :
  Forall itemInRange items ->
  exists g wg,
    performanceHeatmap items = Some (g, wg)
    /\ fullGrid g /\ fullGrid wg
    /\ forall y x, (y < 7)%nat -> (x < 24)%nat ->
                   cellAt g y x = Some (lastCount items y x 0).
Proof.
  intro Hitems.
  destruct (heatmapFill_inRange items Hitems emptyGrid emptyGrid
              emptyGrid_full emptyGrid_full) as (g & wg & Hfill & Hg & Hwg & Hlast).
  exists g, wg. split; [exact Hfill|]. split; [exact Hg|]. split; [exact Hwg|].
  intros y x Hy Hx. apply Hlast. now apply emptyGrid_cell.
Qed.

Lemma heatmap_grids_hold_the_counts_witness :
  exists g wg,
    performanceHeatmap demoHeatItems = Some (g, wg)
    /\ cellAt g 1 14 = Some 5.
Proof.
  destruct (heatmap_grids_hold_the_counts demoHeatItems)
    as (g & wg & Hrun & _ & _ & Hcell).
  - repeat (constructor;
            [unfold itemInRange; cbn; split; eexists; (split; [reflexivity | lia])|]).
    constructor.
  - exists g, wg. split; [exact Hrun|].
    exact (Hcell 1%nat 14%nat ltac:(lia) ltac:(lia)).
Defined.

(** X19.  A single group whose day of the week is [null], or no day from 1
    to 7, makes the route throw, wherever it stands among the groups:
    [grid[day]] is then [undefined] and no grid is sent. *)
Theorem heatmap_throws_on_dateless_group (items : list HeatItem) (item : HeatItem) :
  In item items -> dayOutOfRange item -> performanceHeatmap items = None.
Proof.
  intros Hin Hbad. unfold performanceHeatmap.
  apply (heatmapFill_throws items (emptyGrid, emptyGrid) item); try assumption.
  reflexivity.
Qed.

Lemma heatmap_throws_on_dateless_group_witness :
  performanceHeatmap (demoHeatItems ++ [mkHeatItem None None 1 None]) = None.
Proof.
  apply (heatmap_throws_on_dateless_group _ (mkHeatItem None None 1 None)).
  - apply in_or_app. right. left. reflexivity.
  - exact I.
Defined.

(** X20.  Route and dashboard together: when the groups have keys in range
    and no two groups share a key, the bubbles drawn are exactly the groups
    with a positive count, each at column hour and row day - 1 with its count
    as value. *)
Theorem bubbles_are_the_positive_groups (items : list HeatItem) (g wg : Grid)
        (p : HeatPoint) :
  Forall itemInRange items ->
  NoDup (map heatKey items) ->
  performanceHeatmap items = Some (g, wg) ->
  In p (activityData g)
  <-> exists item,
        In item items
        /\ hi_dayOfWeek item = Some (Z.of_nat (hp_y p) + 1)
        /\ hi_hour item = Some (Z.of_nat (hp_x p))
        /\ hi_count item = hp_v p
        /\ 0 < hp_v p.
Proof.
  intros Hitems Hnd Hrun.
  destruct (heatmapFill_inRange items Hitems emptyGrid emptyGrid
              emptyGrid_full emptyGrid_full) as (g0 & wg0 & Hrun0 & Hg & _ & Hlast).
  unfold performanceHeatmap in Hrun.
  rewrite Hrun in Hrun0. injection Hrun0 as <- <-.
  assert (Hcell : forall y x, (y < 7)%nat -> (x < 24)%nat ->
                              cellAt g y x = Some (lastCount items y x 0))
    by (intros y x Hy Hx; apply Hlast; now apply emptyGrid_cell).
  unfold activityData. rewrite gridPoints_In, Nat.sub_0_r. split.
  - intros (_ & Hv & Hc).
    destruct (fullGrid_cell_bounds g _ _ _ Hg Hc) as [Hy Hx].
    rewrite (Hcell _ _ Hy Hx) in Hc. injection Hc as Hc.
    destruct (lastCount_origin items (hp_y p) (hp_x p) 0)
      as [Hzero | (item & Hin & Hkey & Hcount)]; [lia|].
    apply itemHasKey_true in Hkey. destruct Hkey as [Hd Hh].
    exists item. repeat split; try assumption. congruence.
  - intros (item & Hin & Hd & Hh & Hcount & Hv).
    split; [lia|]. split; [exact Hv|].
    rewrite Forall_forall in Hitems.
    destruct (Hitems item Hin) as [(d & Hd' & Hd1) (h & Hh' & Hh1)].
    rewrite Hd in Hd'. rewrite Hh in Hh'. injection Hd' as <-. injection Hh' as <-.
    rewrite Hcell by lia. f_equal. rewrite <- Hcount.
    apply lastCount_unique; try assumption.
    apply itemHasKey_true. split; assumption.
Qed.

Lemma bubbles_are_the_positive_groups_witness :
  exists g wg,
    performanceHeatmap demoHeatItems = Some (g, wg)
    /\ In (mkHeatPoint 14 1 5) (activityData g).
Proof.
  destruct (performanceHeatmap demoHeatItems) as [[g wg]|] eqn:Hrun;
    [|vm_compute in Hrun; discriminate Hrun].
  exists g, wg. split; [reflexivity|].
  assert (Hrange : Forall itemInRange demoHeatItems).
  { repeat (constructor;
            [unfold itemInRange; cbn; split; eexists; (split; [reflexivity | lia])|]).
    constructor. }
  assert (Hkeys : NoDup (map heatKey demoHeatItems)).
  { unfold demoHeatItems, heatKey. cbn [map hi_dayOfWeek hi_hour].
    constructor; [intros [H | [H | []]]; discriminate H|].
    constructor; [intros [H | []]; discriminate H|].
    constructor; [intros []|]. constructor. }
  apply (proj2 (bubbles_are_the_positive_groups demoHeatItems g wg
                  (mkHeatPoint 14 1 5) Hrange Hkeys Hrun)).
  exists (mkHeatItem (Some 2) (Some 14) 5 (Some (161 # 2))).
  cbn. repeat split; first [now left | lia | reflexivity].
Defined.

(** * Accuracy distribution *)

(** X21.  The label that the route gives a bucket ends where the bucket
    ends only for the buckets that start at 50, 60, 70, 90 and 95.  The
    bucket from 0 to 50 is labelled 0-10, the one from 80 to 85 is labelled
    80-90 and the one from 85 to 90 is labelled 85-95. *)
Theorem range_labels_and_buckets (id upper : Z) :
  nextBoundary accuracyBoundaries id = Some upper ->
  (snd (rangeLabel (BucketFrom id)) = upper <-> In id [50; 60; 70; 90; 95])
  /\ fst (rangeLabel (BucketFrom id)) = id
  /\ (id = 0 -> rangeLabel (BucketFrom id) = (0, 10) /\ upper = 50)
  /\ (id = 80 -> rangeLabel (BucketFrom id) = (80, 90) /\ upper = 85)
  /\ (id = 85 -> rangeLabel (BucketFrom id) = (85, 95) /\ upper = 90).
Proof.
  intro H.
  assert (Hcases : (id = 0 /\ upper = 50) \/ (id = 50 /\ upper = 60)
                   \/ (id = 60 /\ upper = 70) \/ (id = 70 /\ upper = 80)
                   \/ (id = 80 /\ upper = 85) \/ (id = 85 /\ upper = 90)
                   \/ (id = 90 /\ upper = 95) \/ (id = 95 /\ upper = 100)).
  { unfold accuracyBoundaries in H. cbn [nextBoundary] in H.
    repeat match type of H with
           | (if ?a =? id then _ else _) = _ =>
               destruct (Z.eqb_spec a id);
               [injection H as H; lia|]
           end.
    discriminate H. }
  unfold rangeLabel. cbn [fst snd In].
  destruct Hcases as [[-> ->] | [[-> ->] | [[-> ->] | [[-> ->] | [[-> ->] | [[-> ->]
                     | [[-> ->] | [-> ->]]]]]]]];
    cbn; (split; [split; [try lia; intro Hx; exfalso; lia
                         | intro Hx; intuition lia]|]);
    (split; [reflexivity|]);
    repeat split; intros; try lia; try reflexivity.
Qed.

Lemma range_labels_and_buckets_witness :
  rangeLabel (BucketFrom 0) = (0, 10).
Proof.
  exact (proj1 (proj1 (proj2 (proj2 (range_labels_and_buckets 0 50 eq_refl))) eq_refl)).
Defined.

(** * CSV export *)

Section Csv.

Lemma countChar_app c s1 s2 :
  countChar c (s1 ++ s2)%string = (countChar c s1 + countChar c s2)%nat.
Proof.
  induction s1 as [|a s1 IH]; cbn; [reflexivity|]. rewrite IH. lia.
Qed.

Lemma countChar_concat c sep l :
  countChar c (String.concat sep l)
  = (list_sum (map (countChar c) l) + (List.length l - 1) * countChar c sep)%nat.
Proof.
  induction l as [|x l IH]; [reflexivity|].
  destruct l as [|y l].
  - cbn. lia.
  - change (String.concat sep (x :: y :: l))
      with (x ++ sep ++ String.concat sep (y :: l))%string.
    rewrite !countChar_app, IH. cbn [map list_sum List.length].
    replace (S (S (List.length l)) - 1)%nat with (S (List.length l)) by lia.
    replace (S (List.length l) - 1)%nat with (List.length l) by lia.
    cbn [Nat.mul]. unfold list_sum. cbn [fold_right]. lia.
Qed.

Lemma list_sum_cons_eq a l : list_sum (a :: l) = (a + list_sum l)%nat.
Proof. reflexivity. Qed.

Lemma csvRow_lineFeeds row :
  countChar (Ascii.ascii_of_nat 10) (csvRow row) = lineFeedsIn row.
Proof.
  unfold csvRow, lineFeedsIn. rewrite countChar_concat, map_map.
  change (countChar (Ascii.ascii_of_nat 10) ",") with 0%nat.
  rewrite Nat.mul_0_r, Nat.add_0_r. f_equal.
  apply map_ext. intro cell. rewrite !countChar_app. cbn. lia.
Qed.

End Csv.

(** X22.  The exported text has one line for the header and one per row,
    and as many more as there are line feeds inside the cells: cells are
    wrapped in quotes but never escaped, so a line feed in a cell breaks its
    row in two.  With no line feed in any cell the file has exactly
    1 + (number of rows) lines. *)
Theorem csv_lines (headers : list string) (data : list (list string)) :
  lineCount (csvContent headers data)
  = (1 + List.length data + lineFeedsIn headers
     + list_sum (map lineFeedsIn data))%nat
  /\ (lineFeedsIn headers = 0%nat ->
      Forall (fun row => lineFeedsIn row = 0%nat) data ->
      lineCount (csvContent headers data) = S (List.length data)).
Proof.
  assert (Hcount : lineCount (csvContent headers data)
                   = (1 + List.length data + lineFeedsIn headers
                      + list_sum (map lineFeedsIn data))%nat).
  { unfold lineCount, csvContent. rewrite countChar_concat.
    cbn [map List.length]. rewrite length_map, list_sum_cons_eq.
    rewrite map_map, (map_ext _ _ csvRow_lineFeeds).
    replace (S (List.length data) - 1)%nat with (List.length data) by lia.
    change (countChar (Ascii.ascii_of_nat 10) newline) with 1%nat.
    rewrite Nat.mul_1_r.
    assert (Hh : countChar (Ascii.ascii_of_nat 10) (String.concat "," headers)
                 = lineFeedsIn headers).
    { unfold lineFeedsIn. rewrite countChar_concat.
      change (countChar (Ascii.ascii_of_nat 10) ",") with 0%nat. lia. }
    rewrite Hh. lia. }
  split; [exact Hcount|].
  intros Hh Hd. rewrite Hcount, Hh.
  assert (Hz : list_sum (map lineFeedsIn data) = 0%nat).
  { clear Hcount. induction Hd as [|row data Hrow _ IH]; [reflexivity|].
    cbn [map]. rewrite list_sum_cons_eq, Hrow, IH. reflexivity. }
  lia.
Qed.

Lemma csv_lines_witness :
  lineCount (csvContent ["Name"; "Code"]%string
                        [["Spring cup"; "AB12C"]; ["Sprint"; "ZZ9ZZ"]]%string)
  = 3%nat.
Proof.
  apply (proj2 (csv_lines ["Name"; "Code"]%string
                  [["Spring cup"; "AB12C"]; ["Sprint"; "ZZ9ZZ"]]%string)).
  - reflexivity.
  - repeat constructor.
Defined.

(** X23.  Only the types ['competitions'] and ['participants'] export
    anything.  For every other type, and for none, the response is the file
    analytics-export.csv with an empty body, whatever data there is; among
    them are ['overview'] and ['trends'], which the dashboard's export
    buttons ask for. *)
Theorem other_exports_are_empty (type : option string)
        (competitionRows participantRows : list (list string)) :
  type <> Some "competitions"%string ->
  type <> Some "participants"%string ->
  exportCsv type competitionRows participantRows
  = ("analytics-export.csv"%string, EmptyString).
Proof.
  intros Hc Hp. unfold exportCsv.
  destruct type as [t|].
  - destruct (String.eqb_spec t "competitions"); [subst; congruence|].
    destruct (String.eqb_spec t "participants"); [subst; congruence|].
    reflexivity.
  - reflexivity.
Qed.

Lemma other_exports_are_empty_witness :
  exportCsv (Some "trends"%string) [["Spring cup"%string]] [["alice"%string]]
  = ("analytics-export.csv"%string, EmptyString).
Proof.
  apply other_exports_are_empty; discriminate.
Defined.

(** * Throttle and scoring, further *)

Section ThrottleRate.

Lemma notifyAll_emits_notifications times :
  forall b t,
    In t (leaderboardEmissions (notifyAll times b)) ->
    In t times \/ In t (leaderboardEmissions b).
Proof.
  induction times as [|now times IH]; intros b t Hin; [now right|].
  cbn [notifyAll fold_left] in Hin.
  change (In t (leaderboardEmissions (notifyAll times (notifyProgress now b)))) in Hin.
  destruct (IH _ _ Hin) as [H | H]; [left; now right|].
  unfold notifyProgress in H.
  destruct (neverBroadcast _ || intervalElapsed now _); [|now right].
  cbn in H. destruct H as [<- | H]; [left; now left | now right].
Qed.

Lemma gaps_span l :
  StronglySorted gapElapsed l ->
  forall lo hi,
    Forall (fun e => lo <= e <= hi) l -> l <> [] ->
    1000 * (Z.of_nat (List.length l) - 1) <= hi - lo.
Proof.
  induction 1 as [|a l Hs IH Hall]; intros lo hi Hin Hne; [congruence|].
  inversion Hin as [|? ? Ha Hl]; subst.
  destruct l as [|b l]; [cbn; lia|].
  assert (Hl' : Forall (fun e => lo <= e <= a - 1001) (b :: l)).
  { rewrite Forall_forall in *. intros e He.
    specialize (Hall e He). specialize (Hl e He). unfold gapElapsed in Hall. lia. }
  specialize (IH lo (a - 1001) Hl' ltac:(discriminate)).
  cbn [List.length] in *. lia.
Qed.

End ThrottleRate.

(** X24.  The throttle bounds the rate of leaderboard emissions whatever
    the traffic: if all the progress notifications of a fresh session fall
    between the instants lo and hi, the n emissions they cause satisfy
    1000 * (n - 1) <= hi - lo, so a window of W ms sees at most W / 1000 + 1
    of them; and every emission happens at the instant of one of the
    notifications. *)
Theorem throttle_rate_is_bounded (times : list Z) (lo hi : Z) :
  Forall (fun t => 0 < t) times ->
  Forall (fun t => lo <= t <= hi) times ->
  lo <= hi ->
  1000 * (Z.of_nat (List.length
                      (leaderboardEmissions (notifyAll times initialBroadcaster))) - 1)
  <= hi - lo
  /\ incl (leaderboardEmissions (notifyAll times initialBroadcaster)) times.
Proof.
  intros Hpos Hwin Hle.
  assert (Hincl : incl (leaderboardEmissions (notifyAll times initialBroadcaster)) times).
  { intros t Ht. destruct (notifyAll_emits_notifications _ _ _ Ht) as [H | []].
    exact H. }
  split; [|exact Hincl].
  destruct (leaderboardEmissions (notifyAll times initialBroadcaster)) as [|e es] eqn:He;
    [cbn; lia|].
  rewrite <- He. apply gaps_span.
  - apply notifyAll_gaps, Hpos.
  - rewrite Forall_forall in *. intros t Ht. apply Hwin, Hincl. now rewrite <- He.
  - rewrite He. discriminate.
Qed.

Lemma throttle_rate_is_bounded_witness :
  1000 * (Z.of_nat (List.length
                      (leaderboardEmissions
                         (notifyAll [5; 500; 1005; 1006; 2007] initialBroadcaster))) - 1)
  <= 2007 - 5.
Proof.
  refine (proj1 (throttle_rate_is_bounded [5; 500; 1005; 1006; 2007] 5 2007 _ _ _)).
  - repeat constructor.
  - repeat (constructor; [lia|]). constructor.
  - lia.
Defined.

(** X25.  By the documented formulas, an accuracy computed from
    0 <= correctChars <= totalChars with totalChars > 0 lies between 0 and
    100, and for a given positive time the wpm is never negative and grows
    with the number of correct characters. *)
Theorem scores_are_bounded_and_monotone (c1 c2 totalChars elapsedSeconds : Q) :
  (0 <= c1)%Q -> (c1 <= c2)%Q -> (c2 <= totalChars)%Q ->
  (0 < totalChars)%Q -> (0 < elapsedSeconds)%Q ->
  (0 <= calculateAccuracy c2 totalChars)%Q
  /\ (calculateAccuracy c2 totalChars <= 100)%Q
  /\ (0 <= calculateWpm c1 elapsedSeconds)%Q
  /\ (calculateWpm c1 elapsedSeconds <= calculateWpm c2 elapsedSeconds)%Q.
Proof.
  intros H0 H12 H2t Ht He.
  assert (Hc2 : (0 <= c2)%Q) by (eapply Qle_trans; eassumption).
  assert (Hgt : Qgt_bool totalChars 0 = true).
  { unfold Qgt_bool. destruct (Qle_bool totalChars 0) eqn:Hle; [|reflexivity].
    apply Qle_bool_iff in Hle. exfalso. exact (Qlt_not_le _ _ Ht Hle). }
  assert (He0 : ~ (elapsedSeconds == 0)%Q)
    by (intro H; rewrite H in He; exact (Qlt_irrefl _ He)).
  assert (Hwpm : forall c, (calculateWpm c elapsedSeconds == c * (12 / elapsedSeconds))%Q)
    by (intro c; unfold calculateWpm, elapsedMinutes; field; exact He0).
  assert (Hk : (0 <= 12 / elapsedSeconds)%Q).
  { apply Qle_shift_div_l; [exact He|]. rewrite Qmult_0_l. discriminate. }
  unfold calculateAccuracy. rewrite Hgt.
  split; [|split; [|split]].
  - apply Qmult_le_0_compat; [|discriminate].
    apply Qle_shift_div_l; [exact Ht|]. now rewrite Qmult_0_l.
  - setoid_replace 100%Q with (1 * 100)%Q at 2 by ring.
    apply Qmult_le_compat_r; [|discriminate].
    apply Qle_shift_div_r; [exact Ht|]. now rewrite Qmult_1_l.
  - rewrite Hwpm. now apply Qmult_le_0_compat.
  - rewrite !Hwpm. now apply Qmult_le_compat_r.
Qed.

Lemma scores_are_bounded_and_monotone_witness :
  (calculateAccuracy 400 410 <= 100)%Q.
Proof.
  refine (proj1 (proj2 (scores_are_bounded_and_monotone 300 400 410 60 _ _ _ _ _)));
    first [discriminate | reflexivity].
Defined.
